(** * Inventory tracker (app.js): ledger model and its properties

    A shallow embedding of the storage, item, category, withdrawal and
    report functions of [app.js], followed by the properties of the
    inventory and withdrawal ledger.

    Conventions of the embedding.
    - A JavaScript number that holds an integer (every result of
      [parseInt], every sum or difference of two such results, every time
      value of a [Date]) is an [intnum]: [INaN] or an integer.  Doubles
      are exact on integers up to 2^53 in magnitude; beyond that a result
      is rounded to the nearest double, ties to even ([to_double]).
      Overflow to an infinity (from 2^1024 on) is outside the model.
    - Every other number (unit costs, total costs, averages) is a [number]:
      [NaN], an infinity, or an exact rational.  For these, rounding to
      binary64 and the sign of zero are not modelled: the properties below
      speak of such a number through the operator that computes it.
    - Strings are 8-bit strings; case mapping and white space are the ASCII
      ones.
    - [localStorage] holds three JSON texts.  A stored collection is kept
      in parsed form; [JSON.stringify] and [JSON.parse] are the conversions
      between the run-time records (numeric fields may be [NaN]) and the
      stored records (numeric fields are finite or [null]).  Writes are
      taken to succeed (no quota failure). *)

From Stdlib Require Import ZArith QArith List String Ascii Bool Lia.
From Stdlib Require Import DecimalString.
From Stdlib Require Import Permutation Sorted.
Import ListNotations.

Local Open Scope Z_scope.

(** ** JavaScript numbers and strings *)

Module JS.

(** Integer-valued numbers. *)
Inductive intnum : Type :=
| INaN
| Int (z : Z).

(** Numbers in general. [Inf true] is [-Infinity]. *)
Inductive number : Type :=
| NaN
| Inf (neg : bool)
| Num (q : Q).

(** The primitive values that flow through the ledger functions. *)
Inductive value : Type :=
| VUndefined
| VNull
| VStr (s : string)
| VNum (n : number).

Definition num_of_int (i : intnum) : number :=
  match i with
  | INaN => NaN
  | Int z => Num (inject_Z z)
  end.

(** [ToNumber] on a field read back from JSON: [null] converts to 0. *)
Definition int_of_json (j : option Z) : intnum :=
  match j with
  | None => Int 0
  | Some z => Int z
  end.

Definition num_of_json (j : option Q) : number :=
  match j with
  | None => Num 0
  | Some q => Num q
  end.

(** [ToNumber] on a run-time numeric field ([None] is [null]). *)
Definition int_of_nullable (v : option intnum) : intnum :=
  match v with
  | None => Int 0
  | Some i => i
  end.

Definition num_of_nullable (v : option number) : number :=
  match v with
  | None => Num 0
  | Some n => n
  end.

(** Relational operators: any comparison with [NaN] is false. *)
Definition int_gt (a b : intnum) : bool :=
  match a, b with
  | Int x, Int y => y <? x
  | _, _ => false
  end.

Definition int_lt (a b : intnum) : bool := int_gt b a.

Definition int_ge (a b : intnum) : bool :=
  match a, b with
  | Int x, Int y => y <=? x
  | _, _ => false
  end.

Definition int_le (a b : intnum) : bool := int_ge b a.

(** The integer nearest to [n / d], ties to even ([0 <= n], [0 < d]). *)
Definition round_half_even (n d : Z) : Z :=
  let m := n / d in
  let r := n mod d in
  if (d <? 2 * r) || ((2 * r =? d) && Z.odd m) then m + 1 else m.

(** The double nearest to an integer: 53 significant bits are kept. *)
Definition to_double (z : Z) : Z :=
  let a := Z.abs z in
  let e := Z.log2 a - 52 in
  if e <=? 0 then z else Z.sgn z * (round_half_even a (2 ^ e) * 2 ^ e).

(** [x - y] and [x + y] on integer-valued numbers. *)
Definition int_sub (a b : intnum) : intnum :=
  match a, b with
  | Int x, Int y => Int (to_double (x - y))
  | _, _ => INaN
  end.

Definition int_add (a b : intnum) : intnum :=
  match a, b with
  | Int x, Int y => Int (to_double (x + y))
  | _, _ => INaN
  end.

Definition Qzerob (q : Q) : bool := Qnum q =? 0.
Definition Qnegb (q : Q) : bool := Qnum q <? 0.

Definition num_mul (a b : number) : number :=
  match a, b with
  | NaN, _ | _, NaN => NaN
  | Inf s, Inf t => Inf (xorb s t)
  | Inf s, Num q | Num q, Inf s =>
      if Qzerob q then NaN else Inf (xorb s (Qnegb q))
  | Num p, Num q => Num (Qred (p * q))
  end.

Definition num_add (a b : number) : number :=
  match a, b with
  | NaN, _ | _, NaN => NaN
  | Inf s, Inf t => if Bool.eqb s t then Inf s else NaN
  | Inf s, Num _ | Num _, Inf s => Inf s
  | Num p, Num q => Num (Qred (p + q))
  end.

Definition num_div (a b : number) : number :=
  match a, b with
  | NaN, _ | _, NaN => NaN
  | Inf _, Inf _ => NaN
  | Inf s, Num q => Inf (xorb s (Qnegb q))
  | Num _, Inf _ => Num 0
  | Num p, Num q =>
      if Qzerob q
      then (if Qzerob p then NaN else Inf (Qnegb p))
      else Num (Qred (p / q))
  end.

(** The integer part of a rational, rounding toward zero. *)
Definition Qtruncate (q : Q) : Z := Z.quot (Qnum q) (Zpos (Qden q)).

Definition is_NaN (n : number) : bool :=
  match n with NaN => true | _ => false end.

(** *** Strings *)

Definition is_white (c : ascii) : bool :=
  let n := nat_of_ascii c in
  ((9 <=? n) && (n <=? 13))%nat || (n =? 32)%nat.

Fixpoint skip_white (s : string) : string :=
  match s with
  | String c r => if is_white c then skip_white r else s
  | EmptyString => s
  end.

(** [String.prototype.trim], on ASCII white space. *)
Definition rev_string (s : string) : string :=
  string_of_list_ascii (rev (list_ascii_of_string s)).

Definition trim (s : string) : string :=
  rev_string (skip_white (rev_string (skip_white s))).

Definition lower_ascii (c : ascii) : ascii :=
  let n := nat_of_ascii c in
  if ((65 <=? n) && (n <=? 90))%nat then ascii_of_nat (n + 32) else c.

Fixpoint toLowerCase (s : string) : string :=
  match s with
  | String c r => String (lower_ascii c) (toLowerCase r)
  | EmptyString => EmptyString
  end.

(** The value of a character as a digit, letters counting from 10. *)
Definition digit_of (c : ascii) : option Z :=
  let n := Z.of_nat (nat_of_ascii c) in
  if (48 <=? n) && (n <=? 57) then Some (n - 48)
  else if (97 <=? n) && (n <=? 122) then Some (n - 87)
  else if (65 <=? n) && (n <=? 90) then Some (n - 55)
  else None.

Definition digit_in (radix : Z) (c : ascii) : option Z :=
  match digit_of c with
  | Some d => if d <? radix then Some d else None
  | None => None
  end.

(** The longest prefix of digits of the radix: its value, how many digits
    it has, and the rest of the string. *)
Fixpoint read_digits (radix : Z) (s : string) (acc : Z) (n : nat)
  : Z * nat * string :=
  match s with
  | String c r =>
      match digit_in radix c with
      | Some d => read_digits radix r (acc * radix + d) (S n)
      | None => (acc, n, s)
      end
  | EmptyString => (acc, n, s)
  end.

Definition read_sign (s : string) : bool * string :=
  match s with
  | String "-" r => (true, r)
  | String "+" r => (false, r)
  | _ => (false, s)
  end.

Definition strip_hex (s : string) : Z * string :=
  match s with
  | String "0" (String "x" r) => (16, r)
  | String "0" (String "X" r) => (16, r)
  | _ => (10, s)
  end.

(** [parseInt(string)] with no radix argument. *)
Definition parseInt_string (s : string) : intnum :=
  let '(neg, s1) := read_sign (skip_white s) in
  let '(radix, s2) := strip_hex s1 in
  match read_digits radix s2 0 0 with
  | (_, O, _) => INaN
  | (v, _, _) => Int (to_double (if neg then - v else v))
  end.

Definition starts_with (p s : string) : bool := String.prefix p s.

(** The exponent part of a decimal literal, if one starts here: its value
    and the rest of the string.  An [e] that no digit follows is not part
    of the literal. *)
Definition read_exponent (s : string) : Z * string :=
  match s with
  | String c r =>
      if (Ascii.eqb c "e" || Ascii.eqb c "E")%bool then
        let '(neg, r1) := read_sign r in
        match read_digits 10 r1 0 0 with
        | (_, O, _) => (0, s)
        | (e, _, r2) => (if neg then - e else e, r2)
        end
      else (0, s)
  | EmptyString => (0, s)
  end.

(** The longest prefix that is a signed decimal literal, and what follows
    it; [None] when no prefix is one. *)
Definition read_decimal (s : string) : option (number * string) :=
  let '(neg, s1) := read_sign s in
  if starts_with "Infinity" s1 then
    Some (Inf neg, String.substring 8 (String.length s1 - 8) s1)
  else
    let '(ip, ni, s2) := read_digits 10 s1 0 0 in
    let '(fp, nf, s3) :=
      match s2 with
      | String "." r => read_digits 10 r ip 0
      | _ => (ip, O, s2)
      end in
    match (ni + nf)%nat with
    | O => None
    | _ =>
        let '(ex, s4) := read_exponent s3 in
        let q := Qred (inject_Z fp * Qpower (inject_Z 10) (ex - Z.of_nat nf)) in
        Some (Num (if neg then Qred (- q) else q), s4)
    end.

(** [parseFloat(string)]. *)
Definition parseFloat_string (s : string) : number :=
  match read_decimal (skip_white s) with
  | Some (n, _) => n
  | None => NaN
  end.

(** [ToNumber(string)], as the relational operators apply it to a form
    field: the whole trimmed text must be a numeric literal, and the empty
    text is 0. *)
Definition radix_literal (s : string) : option (Z * string) :=
  match s with
  | String "0" (String c r) =>
      if (Ascii.eqb c "x" || Ascii.eqb c "X")%bool then Some (16, r)
      else if (Ascii.eqb c "o" || Ascii.eqb c "O")%bool then Some (8, r)
      else if (Ascii.eqb c "b" || Ascii.eqb c "B")%bool then Some (2, r)
      else None
  | _ => None
  end.

Definition StringToNumber (s : string) : number :=
  let t := trim s in
  match t with
  | EmptyString => Num 0
  | _ =>
      match radix_literal t with
      | Some (radix, r) =>
          match read_digits radix r 0 0 with
          | (_, O, _) => NaN
          | (v, _, EmptyString) => Num (inject_Z v)
          | _ => NaN
          end
      | None =>
          match read_decimal t with
          | Some (n, EmptyString) => n
          | _ => NaN
          end
      end
  end.

(** [x < y] on numbers. *)
Definition num_lt (a b : number) : bool :=
  match a, b with
  | NaN, _ | _, NaN => false
  | Inf s, Inf t => s && negb t
  | Inf s, Num _ => s
  | Num _, Inf t => negb t
  | Num p, Num q =>
      match Qcompare p q with Lt => true | _ => false end
  end.

(** [Number::toString] on integers below 1e21 in magnitude, which are
    written with all their digits, and [ToString] on a nullable one. *)
Definition int_to_string (i : intnum) : string :=
  match i with
  | INaN => "NaN"
  | Int z => NilEmpty.string_of_int (Z.to_int z)
  end.

Definition nullable_int_to_string (v : option intnum) : string :=
  match v with
  | None => "null"
  | Some i => int_to_string i
  end.

(** *** Numbers as text

    [parseInt] and [parseFloat] first convert their argument to a string.
    [Number::toString] writes the shortest decimal that reads back as the
    same double: in positional notation from 1e-6 up to, and not
    including, 1e21, and otherwise with an exponent after its first
    digit, as in [1e+21] and [1.5e-7]. *)

(** The double nearest to a positive rational. *)
Definition binary_exponent (n d : Z) : Z :=
  let e0 := Z.log2 n - Z.log2 d in
  let above := if 0 <=? e0 then d * 2 ^ e0 <=? n else d <=? n * 2 ^ (- e0) in
  if above then e0 else e0 - 1.

Definition double_of_Q (q : Q) : Q :=
  let n := Qnum q in
  let d := Zpos (Qden q) in
  let t := Z.max (binary_exponent n d) (-1022) - 52 in
  if 0 <=? t then inject_Z (round_half_even n (d * 2 ^ t) * 2 ^ t)
  else Qred (Qmake (round_half_even (n * 2 ^ (- t)) d) (Z.to_pos (2 ^ (- t)))).

Definition pow10 (n : Z) : Q :=
  if 0 <=? n then inject_Z (10 ^ n) else Qmake 1 (Z.to_pos (10 ^ (- n))).

(** [n] with [10^n <= x < 10^(n+1)]. *)
Definition decimal_exponent (x : Q) : Z :=
  let g := binary_exponent (Qnum x) (Zpos (Qden x)) * 30103 / 100000 in
  if Qle_bool (pow10 (g + 1)) x then g + 1
  else if Qle_bool (pow10 g) x then g else g - 1.

(** The first digit of the shortest decimal that reads back as the double
    [x]: the decimal of [k] digits nearest to [x], for the least [k] for
    which it reads back as [x] (at most 17). *)
Fixpoint first_digit_from (fuel : nat) (k : Z) (n10 : Z) (x : Q) : Z :=
  match fuel with
  | O => 0
  | S fuel' =>
      let scale := pow10 (n10 - k + 1) in
      let y := (x / scale)%Q in
      let c := round_half_even (Qnum y) (Zpos (Qden y)) in
      if Qeq_bool (double_of_Q (inject_Z c * scale)) x
      then (if c =? 10 ^ k then 1 else c / 10 ^ (k - 1))
      else first_digit_from fuel' (k + 1) n10 x
  end.

Definition first_digit (q : Q) : Z :=
  let x := double_of_Q q in
  first_digit_from 17 1 (decimal_exponent x) x.

(** From this magnitude on a number is an infinity. *)
Definition overflow_threshold : Z := Eval vm_compute in (2 ^ 1024 - 2 ^ 970).

(** The double that 1e-6 denotes. *)
Definition double_1e_6 : Q := Eval vm_compute in (double_of_Q (pow10 (-6))).

(** [parseInt] of a finite number: of its text.  In positional notation
    that is the integer part; with an exponent it is the first digit. *)
Definition parseInt_number (q : Q) : intnum :=
  let n := Z.abs (Qnum q) in
  let d := Zpos (Qden q) in
  if n =? 0 then Int 0
  else if overflow_threshold * d <=? n then INaN
  else if (10 ^ 21 * d <=? n) || negb (Qle_bool double_1e_6 (Qmake n (Qden q)))
  then Int (Z.sgn (Qnum q) * first_digit (Qmake n (Qden q)))
  else Int (Qtruncate q).

Definition parseInt (v : value) : intnum :=
  match v with
  | VUndefined | VNull => INaN
  | VStr s => parseInt_string s
  | VNum (Num q) => parseInt_number q
  | VNum _ => INaN
  end.

Definition parseFloat (v : value) : number :=
  match v with
  | VUndefined | VNull => NaN
  | VStr s => parseFloat_string s
  | VNum n => n
  end.

(** [JSON.stringify] on numbers: non-finite numbers are written [null];
    [JSON.parse] reads a number or [null] back. *)
Definition json_of_int (v : option intnum) : option Z :=
  match v with
  | Some (Int z) => Some z
  | _ => None
  end.

Definition json_of_num (v : option number) : option Q :=
  match v with
  | Some (Num q) => Some q
  | _ => None
  end.

Definition int_parse_json (j : option Z) : option intnum := option_map Int j.
Definition num_parse_json (j : option Q) : option number := option_map Num j.

(** A nullable number as an argument value. *)
Definition value_of_int (i : intnum) : value := VNum (num_of_int i).

Definition value_of_nullable (v : option number) : value :=
  match v with
  | None => VNull
  | Some n => VNum n
  end.

End JS.

Import JS.

(** ** Dates

    A [Date] object is its time value: milliseconds since the epoch, or
    [INaN] for an invalid date. *)

Module DateTime.

Definition msPerDay : Z := 86400000.

(** Days since 1970-01-01 of a day of the proleptic Gregorian calendar. *)
Definition days_from_civil (y m d : Z) : Z :=
  let y' := if m <=? 2 then y - 1 else y in
  let era := y' / 400 in
  let yoe := y' - era * 400 in
  let mp := if m <=? 2 then m + 9 else m - 3 in
  let doy := (153 * mp + 2) / 5 + d - 1 in
  let doe := yoe * 365 + yoe / 4 - yoe / 100 + doy in
  era * 146097 + doe - 719468.

Definition civil_from_days (z : Z) : Z * Z * Z :=
  let z' := z + 719468 in
  let era := z' / 146097 in
  let doe := z' - era * 146097 in
  let yoe := (doe - doe / 1460 + doe / 36524 - doe / 146096) / 365 in
  let doy := doe - (365 * yoe + yoe / 4 - yoe / 100) in
  let mp := (5 * doy + 2) / 153 in
  let d := doy - (153 * mp + 2) / 5 + 1 in
  let m := if mp <? 10 then mp + 3 else mp - 9 in
  let y := yoe + era * 400 in
  (if m <=? 2 then y + 1 else y, m, d).

Definition is_leap (y : Z) : bool :=
  ((y mod 4 =? 0) && negb (y mod 100 =? 0)) || (y mod 400 =? 0).

Definition days_in_month (y m : Z) : Z :=
  if (m =? 2) then (if is_leap y then 29 else 28)
  else if (m =? 4) || (m =? 6) || (m =? 9) || (m =? 11) then 30
  else 31.

(** Exactly [n] decimal digits. *)
Fixpoint take_digits (n : nat) (s : string) (acc : Z) : option (Z * string) :=
  match n with
  | O => Some (acc, s)
  | S k =>
      match s with
      | String c r =>
          match digit_in 10 c with
          | Some d => take_digits k r (acc * 10 + d)
          | None => None
          end
      | EmptyString => None
      end
  end.

Definition expect (c : ascii) (s : string) : option string :=
  match s with
  | String c' r => if Ascii.eqb c c' then Some r else None
  | EmptyString => None
  end.

Definition bind_opt {A B} (o : option A) (f : A -> option B) : option B :=
  match o with
  | Some a => f a
  | None => None
  end.

Notation "'let?' p := o 'in' k" :=
  (bind_opt o (fun p => k))
  (at level 10, p pattern, o at level 100, k at level 200).

(** [YYYY-MM-DD], and what follows it. *)
Definition read_ymd (s : string) : option (Z * Z * Z * string) :=
  let? (y, s1) := take_digits 4 s 0 in
  let? s2 := expect "-" s1 in
  let? (m, s3) := take_digits 2 s2 0 in
  let? s4 := expect "-" s3 in
  let? (d, s5) := take_digits 2 s4 0 in
  Some (y, m, d, s5).

(** [THH:mm:ss.sssZ] up to the end of the string: the time within the
    day, in milliseconds. *)
Definition read_time (s : string) : option Z :=
  let? s0 := expect "T" s in
  let? (h, s1) := take_digits 2 s0 0 in
  let? s2 := expect ":" s1 in
  let? (mi, s3) := take_digits 2 s2 0 in
  let? s4 := expect ":" s3 in
  let? (sec, s5) := take_digits 2 s4 0 in
  let? s6 := expect "." s5 in
  let? (ms, s7) := take_digits 3 s6 0 in
  let? s8 := expect "Z" s7 in
  match s8 with
  | EmptyString =>
      if (h <=? 23) && (mi <=? 59) && (sec <=? 59)
      then Some (h * 3600000 + mi * 60000 + sec * 1000 + ms)
      else None
  | _ => None
  end.

(** [new Date(string)] on the two forms of the date-time string format
    that reach the ledger: the date-only form of a date field and of the
    two literals (UTC midnight), and the full UTC form that [toISOString]
    writes, for the years 0000 to 9999.  What an engine makes of any other
    text is left to it by the language; here it is an invalid date. *)
Definition Date_parse (s : string) : intnum :=
  match read_ymd s with
  | Some (y, m, d, rest) =>
      if (1 <=? m) && (m <=? 12) && (1 <=? d) && (d <=? days_in_month y m)
      then
        let day := days_from_civil y m d in
        match rest with
        | EmptyString => Int (day * msPerDay)
        | _ =>
            match read_time rest with
            | Some t => Int (day * msPerDay + t)
            | None => INaN
            end
        end
      else INaN
  | None => INaN
  end.

Definition TimeClip (t : Z) : intnum :=
  if Z.abs t <=? 8640000000000000 then Int t else INaN.

Definition MakeTime (h m s ms : Z) : Z :=
  h * 3600000 + m * 60000 + s * 1000 + ms.

(** [date.setHours(h, m, s, ms)] in a zone whose local time is UTC plus
    [tza] milliseconds (a fixed offset: no daylight-saving change). *)
Definition setHours (tza : Z) (h m s ms : Z) (date : intnum) : intnum :=
  match date with
  | INaN => INaN
  | Int t =>
      let local := t + tza in
      let day := local / msPerDay in
      TimeClip (day * msPerDay + MakeTime h m s ms - tza)
  end.

Fixpoint zeros (n : nat) : string :=
  match n with
  | O => EmptyString
  | S k => String "0" (zeros k)
  end.

(** A non-negative integer in at least [w] digits. *)
Definition pad (w : nat) (z : Z) : string :=
  let s := int_to_string (Int z) in
  (zeros (w - String.length s) ++ s)%string.

(** [new Date(t).toISOString()] for a valid time value [t]. *)
Definition toISOString (t : Z) : string :=
  let day := t / msPerDay in
  let r := t mod msPerDay in
  let '(y, m, d) := civil_from_days day in
  let year :=
    if (0 <=? y) && (y <=? 9999) then pad 4 y
    else ((if (y <? 0)%Z then "-" else "+") ++ pad 6 (Z.abs y))%string in
  (year ++ "-" ++ pad 2 m ++ "-" ++ pad 2 d ++ "T"
    ++ pad 2 (r / 3600000) ++ ":" ++ pad 2 (r / 60000 mod 60) ++ ":"
    ++ pad 2 (r / 1000 mod 60) ++ "." ++ pad 3 (r mod 1000) ++ "Z")%string.

End DateTime.

Import DateTime.

(** ** Records

    Items and withdrawals are written [Item.t I F] and [Withdrawal.t I F]:
    [I] is the type of the quantity and [F] the type of the costs.  At run
    time these are nullable numbers; in storage they are what JSON can
    hold. *)

Module Item.
Record t (I F : Type) : Type := Build {
  id : string;
  name : string;
  category : string;
  quantity : I;
  unitCost : F;
  dateAdded : string;
  description : string
}.
Arguments Build {I F}.
Arguments id {I F}.
Arguments name {I F}.
Arguments category {I F}.
Arguments quantity {I F}.
Arguments unitCost {I F}.
Arguments dateAdded {I F}.
Arguments description {I F}.

Definition stringify (i : t (option intnum) (option number))
  : t (option Z) (option Q) :=
  {| id := id i; name := name i; category := category i;
     quantity := json_of_int (quantity i);
     unitCost := json_of_num (unitCost i);
     dateAdded := dateAdded i; description := description i |}.

Definition parse (j : t (option Z) (option Q))
  : t (option intnum) (option number) :=
  {| id := id j; name := name j; category := category j;
     quantity := int_parse_json (quantity j);
     unitCost := num_parse_json (unitCost j);
     dateAdded := dateAdded j; description := description j |}.
End Item.

Module Withdrawal.
Record t (I F : Type) : Type := Build {
  id : string;
  itemId : string;
  itemName : string;
  category : string;
  quantity : I;
  unitCost : F;
  totalCost : F;
  date : string;
  notes : string
}.
Arguments Build {I F}.
Arguments id {I F}.
Arguments itemId {I F}.
Arguments itemName {I F}.
Arguments category {I F}.
Arguments quantity {I F}.
Arguments unitCost {I F}.
Arguments totalCost {I F}.
Arguments date {I F}.
Arguments notes {I F}.

Definition stringify (w : t (option intnum) (option number))
  : t (option Z) (option Q) :=
  {| id := id w; itemId := itemId w; itemName := itemName w;
     category := category w;
     quantity := json_of_int (quantity w);
     unitCost := json_of_num (unitCost w);
     totalCost := json_of_num (totalCost w);
     date := date w; notes := notes w |}.

Definition parse (j : t (option Z) (option Q))
  : t (option intnum) (option number) :=
  {| id := id j; itemId := itemId j; itemName := itemName j;
     category := category j;
     quantity := int_parse_json (quantity j);
     unitCost := num_parse_json (unitCost j);
     totalCost := num_parse_json (totalCost j);
     date := date j; notes := notes j |}.
End Withdrawal.

(** Records at run time and in storage. *)
Definition item : Type := Item.t (option intnum) (option number).
Definition item_json : Type := Item.t (option Z) (option Q).
Definition withdrawal : Type := Withdrawal.t (option intnum) (option number).
Definition withdrawal_json : Type := Withdrawal.t (option Z) (option Q).

(** The argument of [addItem]. *)
Module ItemData.
Record t : Type := Build {
  name : string;
  category : string;
  quantity : value;
  unitCost : value;
  description : option string
}.
End ItemData.

(** The second argument of [updateItem]: a field that the object does not
    have is [None], or [VUndefined] where an absent field is read.  The
    callers pass fields of an item only; the text fields they pass are
    strings. *)
Module Updates.
Record t : Type := Build {
  id : option string;
  name : option string;
  category : option string;
  quantity : value;
  unitCost : value;
  dateAdded : option string;
  description : option string
}.
End Updates.

(** The argument of [withdrawItem]. *)
Module WithdrawalData.
Record t : Type := Build {
  itemId : string;
  quantity : value;
  notes : option string
}.
End WithdrawalData.

(** ** The browser: storage and notifications *)

Record Storage : Type := {
  inventory_items : option (list item_json);
  inventory_categories : option (list string);
  inventory_withdrawals : option (list withdrawal_json)
}.

(** A toast of [showNotification].  The world keeps every toast that was
    shown, in order (on the page each one fades after three seconds). *)
Record notification : Type := { message : string; type : string }.

Record World : Type := {
  localStorage : Storage;
  notificationContainer : list notification
}.

(** Computations that read and write the browser. *)
Definition M (A : Type) : Type := World -> A * World.

Definition ret {A} (a : A) : M A := fun w => (a, w).

Definition bind {A B} (c : M A) (k : A -> M B) : M B :=
  fun w => let '(a, w') := c w in k a w'.

Notation "x <- c ;; k" := (bind c (fun x => k))
  (at level 61, c at next level, right associativity).
Notation "c ;;; k" := (bind c (fun _ => k))
  (at level 61, right associativity).

(** The three keys, each with the type of the collection kept under it. *)
Module STORAGE_KEYS.
Inductive t : Type -> Type :=
| ITEMS : t (list item)
| CATEGORIES : t (list string)
| WITHDRAWALS : t (list withdrawal).
End STORAGE_KEYS.
Import STORAGE_KEYS.

Definition DEFAULT_CATEGORIES : list string :=
  ["Electronics"; "Office Supplies"; "Tools"; "Uncategorized"]%string.

(** [JSON.parse(localStorage.getItem(key))], [None] for a missing key. *)
Definition getItem_storage {A} (key : STORAGE_KEYS.t A) (s : Storage)
  : option A :=
  match key in STORAGE_KEYS.t T return option T with
  | ITEMS => option_map (map Item.parse) (inventory_items s)
  | CATEGORIES => inventory_categories s
  | WITHDRAWALS => option_map (map Withdrawal.parse) (inventory_withdrawals s)
  end.

(** [localStorage.setItem(key, JSON.stringify(data))]. *)
Definition setItem_storage {A} (key : STORAGE_KEYS.t A) (data : A)
  (s : Storage) : Storage :=
  match key in STORAGE_KEYS.t T return T -> Storage with
  | ITEMS => fun d =>
      {| inventory_items := Some (map Item.stringify d);
         inventory_categories := inventory_categories s;
         inventory_withdrawals := inventory_withdrawals s |}
  | CATEGORIES => fun d =>
      {| inventory_items := inventory_items s;
         inventory_categories := Some d;
         inventory_withdrawals := inventory_withdrawals s |}
  | WITHDRAWALS => fun d =>
      {| inventory_items := inventory_items s;
         inventory_categories := inventory_categories s;
         inventory_withdrawals := Some (map Withdrawal.stringify d) |}
  end data.

Definition saveToLocalStorage {A} (key : STORAGE_KEYS.t A) (data : A)
  : M bool :=
  fun w =>
    (true,
     {| localStorage := setItem_storage key data (localStorage w);
        notificationContainer := notificationContainer w |}).

Definition loadFromLocalStorage {A} (key : STORAGE_KEYS.t A)
  (defaultValue : A) : M A :=
  fun w =>
    (match getItem_storage key (localStorage w) with
     | Some data => data
     | None => defaultValue
     end, w).

Definition showNotification (message type : string) : M unit :=
  fun w =>
    (tt,
     {| localStorage := localStorage w;
        notificationContainer :=
          notificationContainer w
            ++ [{| message := message; type := type |}] |}).

Definition isEmpty {A} (l : list A) : bool :=
  match l with
  | [] => true
  | _ => false
  end.

Definition initializeStorage : M unit :=
  categories <- loadFromLocalStorage CATEGORIES [] ;;
  (if isEmpty categories
   then saveToLocalStorage CATEGORIES DEFAULT_CATEGORIES ;;; ret tt
   else ret tt) ;;;
  (* a parsed collection is an array: nothing is written for the items
     and the withdrawals *)
  items <- loadFromLocalStorage ITEMS [] ;;
  withdrawals <- loadFromLocalStorage WITHDRAWALS [] ;;
  ret tt.

(** ** Items *)

(** [a || ''] on an optional string. *)
Definition or_empty (a : option string) : string :=
  match a with
  | Some s => s
  | None => EmptyString
  end.

Definition or_field (patch : option string) (old : string) : string :=
  match patch with
  | Some s => s
  | None => old
  end.

Fixpoint findIndex {A} (p : A -> bool) (l : list A) : option nat :=
  match l with
  | [] => None
  | x :: r => if p x then Some O else option_map S (findIndex p r)
  end.

(** [l[index] = f(l[index])] for an index within the array. *)
Fixpoint update_at {A} (index : nat) (f : A -> A) (l : list A) : list A :=
  match l, index with
  | [], _ => []
  | x :: r, O => f x :: r
  | x :: r, S k => x :: update_at k f r
  end.

Definition addItem (now now' : Z) (itemData : ItemData.t) : M item :=
  let id := ("item_" ++ int_to_string (Int now))%string in
  let item : item :=
    {| Item.id := id;
       Item.name := ItemData.name itemData;
       Item.category := ItemData.category itemData;
       Item.quantity := Some (parseInt (ItemData.quantity itemData));
       Item.unitCost := Some (parseFloat (ItemData.unitCost itemData));
       Item.dateAdded := toISOString now';
       Item.description := or_empty (ItemData.description itemData) |} in
  items <- loadFromLocalStorage ITEMS [] ;;
  let items := items ++ [item] in
  saveToLocalStorage ITEMS items ;;;
  ret item.

(** [{...old, ...updates, quantity: parseInt(..), unitCost: parseFloat(..)}] *)
Definition merge (old : item) (updates : Updates.t) : item :=
  {| Item.id := or_field (Updates.id updates) (Item.id old);
     Item.name := or_field (Updates.name updates) (Item.name old);
     Item.category := or_field (Updates.category updates) (Item.category old);
     Item.quantity := Some (parseInt (Updates.quantity updates));
     Item.unitCost := Some (parseFloat (Updates.unitCost updates));
     Item.dateAdded :=
       or_field (Updates.dateAdded updates) (Item.dateAdded old);
     Item.description :=
       or_field (Updates.description updates) (Item.description old) |}.

Definition has_id (itemId : string) (i : item) : bool :=
  String.eqb (Item.id i) itemId.

Definition updateItem (itemId : string) (updates : Updates.t) : M bool :=
  items <- loadFromLocalStorage ITEMS [] ;;
  match findIndex (has_id itemId) items with
  | None => ret false
  | Some index =>
      let items := update_at index (fun old => merge old updates) items in
      saveToLocalStorage ITEMS items ;;;
      ret true
  end.

Definition deleteItem (itemId : string) : M bool :=
  items <- loadFromLocalStorage ITEMS [] ;;
  let filteredItems := filter (fun i => negb (has_id itemId i)) items in
  if (List.length filteredItems =? List.length items)%nat then ret false
  else
    saveToLocalStorage ITEMS filteredItems ;;;
    ret true.

Definition getItem (itemId : string) : M (option item) :=
  items <- loadFromLocalStorage ITEMS [] ;;
  ret (find (has_id itemId) items).

Definition getAllItems : M (list item) :=
  loadFromLocalStorage ITEMS [].

(** ** Categories *)

Definition addCategory (categoryName : string) : M bool :=
  categories <- loadFromLocalStorage CATEGORIES [] ;;
  if existsb (fun cat =>
       String.eqb (toLowerCase cat) (toLowerCase categoryName)) categories
  then ret false
  else
    let categories := categories ++ [categoryName] in
    saveToLocalStorage CATEGORIES categories ;;;
    ret true.

Definition deleteCategory (categoryName : string) : M bool :=
  items <- getAllItems ;;
  let inUse :=
    existsb (fun i => String.eqb (Item.category i) categoryName) items in
  if inUse then
    showNotification
      "Cannot delete category: It is being used by one or more items."
      "error" ;;;
    ret false
  else
    categories <- loadFromLocalStorage CATEGORIES [] ;;
    let filteredCategories :=
      filter (fun cat => negb (String.eqb cat categoryName)) categories in
    if (List.length filteredCategories =? List.length categories)%nat then ret false
    else
      saveToLocalStorage CATEGORIES filteredCategories ;;;
      ret true.

Definition getAllCategories : M (list string) :=
  loadFromLocalStorage CATEGORIES DEFAULT_CATEGORIES.

(** ** Withdrawals *)

Definition withdrawItem (now now' : Z) (withdrawalData : WithdrawalData.t)
  : M (option withdrawal) :=
  found <- getItem (WithdrawalData.itemId withdrawalData) ;;
  match found with
  | None =>
      showNotification "Item not found." "error" ;;;
      ret None
  | Some item =>
      let quantity := parseInt (WithdrawalData.quantity withdrawalData) in
      if int_gt quantity (int_of_nullable (Item.quantity item)) then
        showNotification
          ("Insufficient stock. Available: "
             ++ nullable_int_to_string (Item.quantity item))
          "error" ;;;
        ret None
      else
        let totalCost :=
          num_mul (num_of_int quantity)
                  (num_of_nullable (Item.unitCost item)) in
        let withdrawal : withdrawal :=
          {| Withdrawal.id := ("withdraw_" ++ int_to_string (Int now))%string;
             Withdrawal.itemId := Item.id item;
             Withdrawal.itemName := Item.name item;
             Withdrawal.category := Item.category item;
             Withdrawal.quantity := Some quantity;
             Withdrawal.unitCost := Item.unitCost item;
             Withdrawal.totalCost := Some totalCost;
             Withdrawal.date := toISOString now';
             Withdrawal.notes :=
               or_empty (WithdrawalData.notes withdrawalData) |} in
        withdrawals <- loadFromLocalStorage WITHDRAWALS [] ;;
        let withdrawals := withdrawals ++ [withdrawal] in
        saveToLocalStorage WITHDRAWALS withdrawals ;;;
        updateItem (Item.id item)
          {| Updates.id := Some (Item.id item);
             Updates.name := Some (Item.name item);
             Updates.category := Some (Item.category item);
             Updates.quantity :=
               value_of_int
                 (int_sub (int_of_nullable (Item.quantity item)) quantity);
             Updates.unitCost := value_of_nullable (Item.unitCost item);
             Updates.dateAdded := Some (Item.dateAdded item);
             Updates.description := Some (Item.description item) |} ;;;
        ret (Some withdrawal)
  end.

Definition getAllWithdrawals : M (list withdrawal) :=
  loadFromLocalStorage WITHDRAWALS [].

(** Truthiness of an optional string: [undefined] and [''] are falsy. *)
Definition truthy (a : option string) : bool :=
  match a with
  | Some (String _ _) => true
  | _ => false
  end.

(** The bounds that the filter callback computes: [start], and [end] after
    [end.setHours(23, 59, 59, 999)].  [tza] is the offset of the browser's
    time zone, in milliseconds. *)
Definition startBound (startDate : option string) : intnum :=
  if truthy startDate then Date_parse (or_empty startDate)
  else Date_parse "1970-01-01".

Definition endBound (tza : Z) (endDate : option string) : intnum :=
  let end_ :=
    if truthy endDate then Date_parse (or_empty endDate)
    else Date_parse "2100-12-31" in
  setHours tza 23 59 59 999 end_.

(** The filter callback: [wDate >= start && wDate <= end]. *)
Definition inDateRange (tza : Z) (startDate endDate : option string)
  (w : withdrawal) : bool :=
  let wDate := Date_parse (Withdrawal.date w) in
  let start := startBound startDate in
  let end_ := endBound tza endDate in
  int_ge wDate start && int_le wDate end_.

Definition getWithdrawalsByDateRange (tza : Z)
  (startDate endDate : option string) : M (list withdrawal) :=
  withdrawals <- getAllWithdrawals ;;
  ret (filter (inDateRange tza startDate endDate) withdrawals).

Definition getWithdrawalsByCategory (category : string)
  : M (list withdrawal) :=
  withdrawals <- getAllWithdrawals ;;
  ret (filter (fun w => String.eqb (Withdrawal.category w) category)
         withdrawals).

(** ** Reports *)

(** What [renderStatistics] puts in the statistics grid: the message for
    an empty selection, or the figures of the cards.  (The
    most-withdrawn card is computed apart from these figures and is left
    out.) *)
Record statistics : Type := {
  totalWithdrawals : nat;
  totalCost : number;
  totalQuantity : intnum;
  avgCost : number
}.

Inductive statsGrid : Type :=
| EmptyMessage (text : string)
| StatCards (s : statistics).

Definition number_of_nat (n : nat) : number := Num (inject_Z (Z.of_nat n)).

Definition renderStatistics (withdrawals : list withdrawal) : statsGrid :=
  if (List.length withdrawals =? 0)%nat then
    EmptyMessage "No data available for the selected filters."
  else
    let totalWithdrawals := List.length withdrawals in
    let totalCost :=
      fold_left
        (fun sum w => num_add sum (num_of_nullable (Withdrawal.totalCost w)))
        withdrawals (Num 0) in
    let totalQuantity :=
      fold_left
        (fun sum w => int_add sum (int_of_nullable (Withdrawal.quantity w)))
        withdrawals (Int 0) in
    let avgCost := num_div totalCost (number_of_nat totalWithdrawals) in
    StatCards
      {| totalWithdrawals := totalWithdrawals;
         totalCost := totalCost;
         totalQuantity := totalQuantity;
         avgCost := avgCost |}.

Module Filters.
Record t : Type := Build {
  startDate : option string;
  endDate : option string;
  category : option string
}.
End Filters.

(** [generateReport], as far as the statistics grid. *)
Definition generateReport (tza : Z) (filters : Filters.t) : M statsGrid :=
  withdrawals <- getAllWithdrawals ;;
  withdrawals <-
    (if truthy (Filters.startDate filters) || truthy (Filters.endDate filters)
     then getWithdrawalsByDateRange tza (Filters.startDate filters)
            (Filters.endDate filters)
     else ret withdrawals) ;;
  let withdrawals :=
    if truthy (Filters.category filters)
    then filter (fun w => String.eqb (Withdrawal.category w)
                            (or_empty (Filters.category filters)))
           withdrawals
    else withdrawals in
  ret (renderStatistics withdrawals).

(** ** Form handlers

    The arguments are the texts of the form fields. *)

(** [updateWithdrawPreview]: whether the withdraw button ends up disabled;
    [None] when the function returns before it sets the button. *)
Definition updateWithdrawPreview (withdrawItem_value withdrawQuantity : string)
  : M (option bool) :=
  if isEmpty (list_ascii_of_string withdrawItem_value) then ret None
  else
    found <- getItem withdrawItem_value ;;
    match found with
    | None => ret None
    | Some item =>
        let quantity :=
          match parseInt (VStr withdrawQuantity) with
          | INaN => Int 0
          | Int z => Int z
          end in
        ret (Some (int_le quantity (Int 0)
                   || int_gt quantity (int_of_nullable (Item.quantity item))))
    end.

Definition dquote : ascii := ascii_of_nat 34.

Definition handleAddItem (now now' : Z)
  (itemName itemCategory itemQuantity itemCost itemDescription : string)
  : M unit :=
  let formData :=
    {| ItemData.name := trim itemName;
       ItemData.category := itemCategory;
       ItemData.quantity := VStr itemQuantity;
       ItemData.unitCost := VStr itemCost;
       ItemData.description := Some (trim itemDescription) |} in
  if isEmpty (list_ascii_of_string (ItemData.name formData)) then
    showNotification "Please enter an item name." "error"
  else if num_lt (StringToNumber itemQuantity) (Num 0) then
    showNotification "Quantity cannot be negative." "error"
  else if num_lt (StringToNumber itemCost) (Num 0) then
    showNotification "Unit cost cannot be negative." "error"
  else
    item <- addItem now now' formData ;;
    showNotification
      (String dquote (Item.name item) ++ String dquote " added successfully!")
      "success".

Definition handleEditItem
  (editItemId editItemName editItemCategory editItemQuantity editItemCost
     editItemDescription : string) : M unit :=
  let updates :=
    {| Updates.id := None;
       Updates.name := Some (trim editItemName);
       Updates.category := Some editItemCategory;
       Updates.quantity := VStr editItemQuantity;
       Updates.unitCost := VStr editItemCost;
       Updates.dateAdded := None;
       Updates.description := Some (trim editItemDescription) |} in
  ok <- updateItem editItemId updates ;;
  if ok then showNotification "Item updated successfully!" "success"
  else showNotification "Failed to update item." "error".

(** [handleWithdraw], up to the call of [withdrawItem]: a rejected
    withdrawal has been notified by [withdrawItem] itself. *)
Definition handleWithdraw (now now' : Z)
  (withdrawItem_value withdrawQuantity withdrawNotes : string)
  : M (option withdrawal) :=
  let withdrawalData :=
    {| WithdrawalData.itemId := withdrawItem_value;
       WithdrawalData.quantity := VStr withdrawQuantity;
       WithdrawalData.notes := Some (trim withdrawNotes) |} in
  if isEmpty (list_ascii_of_string withdrawItem_value) then
    showNotification "Please select an item." "error" ;;;
    ret None
  else withdrawItem now now' withdrawalData.

(** ** The scenario of the Widget *)

Definition empty_storage : Storage :=
  {| inventory_items := None;
     inventory_categories := None;
     inventory_withdrawals := None |}.

Definition fresh : World :=
  {| localStorage := empty_storage; notificationContainer := [] |}.

Definition run {A} (c : M A) (w : World) : World := snd (c w).

Definition widget_world : World :=
  run (addItem 1000 1001
         {| ItemData.name := "Widget"; ItemData.category := "Tools";
            ItemData.quantity := VStr "10"; ItemData.unitCost := VStr "2.50";
            ItemData.description := None |})
      (run initializeStorage fresh).

Definition widget_withdraw3 : option withdrawal * World :=
  withdrawItem 2000 2001
    {| WithdrawalData.itemId := "item_1000";
       WithdrawalData.quantity := VStr "3";
       WithdrawalData.notes := None |} widget_world.

(** ** More of the page

    The functions that the ledger functions are used by, as far as the
    data they compute: what is shown, not how it is laid out. *)

(** [renderWithdrawalForm]: the items offered in the dropdown of the
    withdrawal form, in order ([item.quantity > 0]). *)
Definition renderWithdrawalForm : M (list item) :=
  items <- getAllItems ;;
  let availableItems :=
    filter (fun i => int_gt (int_of_nullable (Item.quantity i)) (Int 0))
      items in
  ret availableItems.

(** [Array.prototype.sort] with a comparison function whose results are
    integers or [NaN] (a [NaN] counts as 0).  The sort is stable; for a
    consistent comparison the result is the one of any stable sort, here
    of insertion from the right. *)
Fixpoint sort_insert {A} (comparefn : A -> A -> intnum) (x : A) (l : list A)
  : list A :=
  match l with
  | [] => [x]
  | y :: r =>
      if int_gt (comparefn x y) (Int 0)
      then y :: sort_insert comparefn x r
      else x :: y :: r
  end.

Definition sort {A} (comparefn : A -> A -> intnum) (l : list A) : list A :=
  fold_right (sort_insert comparefn) [] l.

(** [(a, b) => new Date(b.date) - new Date(a.date)] *)
Definition newest_first (a b : withdrawal) : intnum :=
  int_sub (Date_parse (Withdrawal.date b)) (Date_parse (Withdrawal.date a)).

(** [renderWithdrawalHistory]: the withdrawals of the rows of the history
    table, in order; [None] when the table is hidden and the empty message
    shown. *)
Definition renderWithdrawalHistory (withdrawals : list withdrawal)
  : option (list withdrawal) :=
  if (List.length withdrawals =? 0)%nat then None
  else
    let sortedWithdrawals := sort newest_first withdrawals in
    Some sortedWithdrawals.

(** [handleAddCategory], the text of the field as argument. *)
Definition handleAddCategory (newCategoryName : string) : M unit :=
  let categoryName := trim newCategoryName in
  if isEmpty (list_ascii_of_string categoryName) then
    showNotification "Please enter a category name." "error"
  else
    added <- addCategory categoryName ;;
    if added then
      showNotification
        ("Category " ++ String dquote categoryName
           ++ String dquote " added successfully!")
        "success"
    else showNotification "Category already exists." "warning".

(** The confirmation dialog: its two texts, and the action kept in
    [confirmCallback] for the confirm button. *)
Record ConfirmDialog : Type := {
  confirmTitle : string;
  confirmMessage : string;
  confirmCallback : M unit
}.

(** The action that [confirmDeleteItem] hands to the confirmation dialog,
    run when the user confirms. *)
Definition confirmedDeleteItem (itemId : string) : M unit :=
  deleted <- deleteItem itemId ;;
  if deleted then showNotification "Item deleted successfully." "success"
  else showNotification "Failed to delete item." "error".

(** The action that [confirmDeleteCategory] hands to the confirmation
    dialog. *)
Definition confirmedDeleteCategory (categoryName : string) : M unit :=
  deleted <- deleteCategory categoryName ;;
  if deleted then showNotification "Category deleted successfully." "success"
  else ret tt.

(** [String.prototype.startsWith] and [String.prototype.includes]. *)
Fixpoint startsWith (s searchString : string) : bool :=
  match searchString, s with
  | EmptyString, _ => true
  | String c t, String c' s' => Ascii.eqb c' c && startsWith s' t
  | String _ _, EmptyString => false
  end.

Fixpoint includes (s searchString : string) : bool :=
  startsWith s searchString
  || match s with
     | String _ r => includes r searchString
     | EmptyString => false
     end.

(** [renderInventoryTable], the text of the search field as argument:
    the items of the rows of the table, in order; [None] when the table is
    hidden and the empty message shown. *)
Definition renderInventoryTable (searchInventory : string)
  : M (option (list item)) :=
  items <- getAllItems ;;
  if (List.length items =? 0)%nat then ret None
  else
    let searchTerm := toLowerCase searchInventory in
    let filteredItems :=
      filter (fun item =>
                includes (toLowerCase (Item.name item)) searchTerm
                || includes (toLowerCase (Item.category item)) searchTerm)
        items in
    ret (Some filteredItems).

(** [confirmDeleteItem]: the dialog that opens, if one does. *)
Definition confirmDeleteItem (itemId : string) : M (option ConfirmDialog) :=
  item <- getItem itemId ;;
  match item with
  | None => ret None
  | Some item =>
      ret (Some
             {| confirmTitle := "Delete Item";
                confirmMessage :=
                  "Are you sure you want to delete "
                    ++ String dquote (Item.name item)
                    ++ String dquote "? This action cannot be undone.";
                confirmCallback := confirmedDeleteItem itemId |})
  end.

Definition confirmDeleteCategory (categoryName : string) : ConfirmDialog :=
  {| confirmTitle := "Delete Category";
     confirmMessage :=
       "Are you sure you want to delete the category "
         ++ String dquote categoryName ++ String dquote "?";
     confirmCallback := confirmedDeleteCategory categoryName |}.

(** [handleConfirm], on the dialog that is open. *)
Definition handleConfirm (dialog : option ConfirmDialog) : M unit :=
  match dialog with
  | Some d => confirmCallback d
  | None => ret tt
  end.

(** * Checks of the model

    The functions above, run on small inputs. *)

Example parseInt_ex1 : parseInt_string "  42abc" = Int 42. Proof. reflexivity. Qed.

Example parseInt_ex2 : parseInt_string "-3" = Int (-3). Proof. reflexivity. Qed.

Example parseInt_ex3 : parseInt_string "2.5" = Int 2. Proof. reflexivity. Qed.

Example parseInt_ex4 : parseInt_string "abc" = INaN. Proof. reflexivity. Qed.

Example parseInt_ex5 : parseInt_string "0x1F" = Int 31. Proof. reflexivity. Qed.

Example parseInt_ex6 : parseInt_string EmptyString = INaN. Proof. reflexivity. Qed.

Example parseFloat_ex1 : parseFloat_string "2.50" = Num (5 # 2). Proof. reflexivity. Qed.

Example parseFloat_ex2 : parseFloat_string "-1.5e2x" = Num (-150 # 1). Proof. reflexivity. Qed.

Example parseFloat_ex3 : parseFloat_string "." = NaN. Proof. reflexivity. Qed.

Example parseFloat_ex4 : parseFloat_string ".5" = Num (1 # 2). Proof. reflexivity. Qed.

Example parseFloat_ex5 : parseFloat_string "1e-2" = Num (1 # 100). Proof. reflexivity. Qed.

Example parseFloat_ex6 : parseFloat_string "1e" = Num 1. Proof. reflexivity. Qed.

Example parseFloat_ex7 : parseFloat_string " -Infinityx" = Inf true. Proof. reflexivity. Qed.

Example ToNumber_ex1 : StringToNumber EmptyString = Num 0. Proof. reflexivity. Qed.

Example ToNumber_ex2 : StringToNumber " -5 " = Num (-5 # 1). Proof. reflexivity. Qed.

Example ToNumber_ex3 : StringToNumber "5x" = NaN. Proof. reflexivity. Qed.

Example ToNumber_ex4 : StringToNumber "0x10" = Num 16. Proof. reflexivity. Qed.

Example ToNumber_ex5 : num_lt (StringToNumber "-5") (Num 0) = true. Proof. reflexivity. Qed.

Example to_string_ex1 : int_to_string (Int 0) = "0"%string. Proof. reflexivity. Qed.

Example to_string_ex2 : int_to_string (Int (-17)) = "-17"%string. Proof. reflexivity. Qed.

Example to_string_ex3 : int_to_string (Int 1700000000000) = "1700000000000"%string. Proof. reflexivity. Qed.

Example lower_ex1 : toLowerCase "Office Supplies" = "office supplies"%string. Proof. reflexivity. Qed.

Example trim_ex1 : trim "  a b  " = "a b"%string. Proof. reflexivity. Qed.

Example Date_parse_epoch : Date_parse "1970-01-01" = Int 0.
Proof. reflexivity. Qed.

Example Date_parse_far : Date_parse "2100-12-31" = Int 4133894400000.
Proof. reflexivity. Qed.

Example Date_parse_full :
  Date_parse "2023-11-14T22:13:20.000Z" = Int 1700000000000.
Proof. reflexivity. Qed.

Example Date_parse_bad : Date_parse "2023-02-30" = INaN.
Proof. reflexivity. Qed.

Example toISOString_ex1 : toISOString 0 = "1970-01-01T00:00:00.000Z"%string.
Proof. reflexivity. Qed.

Example toISOString_ex2 :
  toISOString 1700000000000 = "2023-11-14T22:13:20.000Z"%string.
Proof. reflexivity. Qed.

Example toISOString_ex3 :
  toISOString (-1) = "1969-12-31T23:59:59.999Z"%string.
Proof. reflexivity. Qed.

Example toISOString_ex4 :
  toISOString 951782400000 = "2000-02-29T00:00:00.000Z"%string.
Proof. reflexivity. Qed.

Example setHours_utc :
  setHours 0 23 59 59 999 (Date_parse "2024-03-15") = Int 1710547199999.
Proof. reflexivity. Qed.

Example setHours_west :
  setHours (-18000000) 23 59 59 999 (Date_parse "2024-03-15")
  = Date_parse "2024-03-15T04:59:59.999Z".
Proof. reflexivity. Qed.

Example widget_items :
  inventory_items (localStorage widget_world)
  = Some [ {| Item.id := "item_1000"; Item.name := "Widget";
              Item.category := "Tools"; Item.quantity := Some 10;
              Item.unitCost := Some (5 # 2);
              Item.dateAdded := "1970-01-01T00:00:01.001Z";
              Item.description := EmptyString |} ].
Proof. reflexivity. Qed.

Example widget_withdraw3_result :
  fst widget_withdraw3
  = Some {| Withdrawal.id := "withdraw_2000"; Withdrawal.itemId := "item_1000";
            Withdrawal.itemName := "Widget"; Withdrawal.category := "Tools";
            Withdrawal.quantity := Some (Int 3);
            Withdrawal.unitCost := Some (Num (5 # 2));
            Withdrawal.totalCost := Some (Num (15 # 2));
            Withdrawal.date := "1970-01-01T00:00:02.001Z";
            Withdrawal.notes := EmptyString |}.
Proof. reflexivity. Qed.

Example widget_withdraw3_quantity :
  option_map (map Item.quantity)
    (inventory_items (localStorage (snd widget_withdraw3)))
  = Some [Some 7].
Proof. reflexivity. Qed.

Example widget_withdraw8_rejected :
  withdrawItem 3000 3001
    {| WithdrawalData.itemId := "item_1000";
       WithdrawalData.quantity := VStr "8";
       WithdrawalData.notes := None |} (snd widget_withdraw3)
  = (None,
     {| localStorage := localStorage (snd widget_withdraw3);
        notificationContainer :=
          [{| message := "Insufficient stock. Available: 7";
              type := "error" |}] |}).
Proof. reflexivity. Qed.

(** * Properties *)

(** What the accessors of the program read in a world. *)
Definition items_of (w : World) : list item := fst (getAllItems w).
Definition withdrawals_of (w : World) : list withdrawal :=
  fst (getAllWithdrawals w).
Definition registry (w : World) : list string := fst (getAllCategories w).

(** ** JSON round trips *)

Lemma json_int_roundtrip (j : option Z) : json_of_int (int_parse_json j) = j.
Proof. destruct j; reflexivity. Qed.

Lemma json_num_roundtrip (j : option Q) : json_of_num (num_parse_json j) = j.
Proof. destruct j; reflexivity. Qed.

Lemma Item_roundtrip (j : item_json) : Item.stringify (Item.parse j) = j.
Proof.
  destruct j; unfold Item.stringify, Item.parse; simpl.
  now rewrite json_int_roundtrip, json_num_roundtrip.
Qed.

Lemma Withdrawal_roundtrip (j : withdrawal_json) :
  Withdrawal.stringify (Withdrawal.parse j) = j.
Proof.
  destruct j; unfold Withdrawal.stringify, Withdrawal.parse; simpl.
  now rewrite json_int_roundtrip, !json_num_roundtrip.
Qed.

Lemma map_Item_roundtrip (l : list item_json) :
  map Item.stringify (map Item.parse l) = l.
Proof.
  induction l as [|j l IH]; simpl; [reflexivity|].
  now rewrite Item_roundtrip, IH.
Qed.

Lemma map_Withdrawal_roundtrip (l : list withdrawal_json) :
  map Withdrawal.stringify (map Withdrawal.parse l) = l.
Proof.
  induction l as [|j l IH]; simpl; [reflexivity|].
  now rewrite Withdrawal_roundtrip, IH.
Qed.

(** An item read from storage: no numeric field is [NaN]. *)
Definition loaded (i : item) : Prop := exists j, i = Item.parse j.

Lemma loaded_roundtrip (i : item) :
  loaded i -> Item.parse (Item.stringify i) = i.
Proof. intros [j ->]. now rewrite Item_roundtrip. Qed.

Lemma items_of_loaded (w : World) (i : item) : In i (items_of w) -> loaded i.
Proof.
  unfold items_of, getAllItems, loadFromLocalStorage; simpl.
  destruct (inventory_items (localStorage w)) as [l|]; simpl; [|tauto].
  intros H. apply in_map_iff in H as (j & <- & _). now exists j.
Qed.

Lemma items_of_roundtrip (w : World) :
  map Item.parse (map Item.stringify (items_of w)) = items_of w.
Proof.
  unfold items_of, getAllItems, loadFromLocalStorage; simpl.
  destruct (inventory_items (localStorage w)) as [l|]; simpl; [|reflexivity].
  now rewrite map_Item_roundtrip.
Qed.

Lemma withdrawals_of_roundtrip (w : World) :
  map Withdrawal.parse (map Withdrawal.stringify (withdrawals_of w))
  = withdrawals_of w.
Proof.
  unfold withdrawals_of, getAllWithdrawals, loadFromLocalStorage; simpl.
  destruct (inventory_withdrawals (localStorage w)) as [l|]; simpl;
    [|reflexivity].
  now rewrite map_Withdrawal_roundtrip.
Qed.

(** ** Arrays *)

Lemma find_In {A} (p : A -> bool) (l : list A) (x : A) :
  find p l = Some x -> In x l /\ p x = true.
Proof. apply find_some. Qed.

Lemma findIndex_find {A} (p : A -> bool) (l : list A) :
  match find p l with
  | Some x => exists i, findIndex p l = Some i /\ nth_error l i = Some x
  | None => findIndex p l = None
  end.
Proof.
  induction l as [|y l IH]; simpl; [reflexivity|].
  destruct (p y) eqn:Hy.
  - exists O. now split.
  - destruct (find p l) as [x|].
    + destruct IH as (i & Hi & Hn). exists (S i). rewrite Hi. now split.
    + now rewrite IH.
Qed.

Lemma findIndex_nth {A} (p : A -> bool) (l : list A) (i : nat) :
  findIndex p l = Some i ->
  exists x, nth_error l i = Some x /\ find p l = Some x /\ p x = true.
Proof.
  revert i. induction l as [|y l IH]; simpl; intros i H; [discriminate|].
  destruct (p y) eqn:Hy.
  - injection H as <-. exists y. now repeat split.
  - destruct (findIndex p l) as [k|]; [|discriminate].
    injection H as <-. destruct (IH k eq_refl) as (x & ? & ? & ?).
    exists x. now repeat split.
Qed.

Lemma update_at_length {A} (i : nat) (f : A -> A) (l : list A) :
  List.length (update_at i f l) = List.length l.
Proof.
  revert i. induction l as [|y l IH]; intros [|i]; simpl; auto.
Qed.

Lemma update_at_nth_same {A} (i : nat) (f : A -> A) (l : list A) (x : A) :
  nth_error l i = Some x -> nth_error (update_at i f l) i = Some (f x).
Proof.
  revert i. induction l as [|y l IH]; intros [|i]; simpl; try discriminate.
  - now intros [= ->].
  - apply IH.
Qed.

Lemma update_at_nth_other {A} (i k : nat) (f : A -> A) (l : list A) :
  i <> k -> nth_error (update_at i f l) k = nth_error l k.
Proof.
  revert i k.
  induction l as [|y l IH]; intros [|i] [|k] H; simpl; auto; congruence.
Qed.

(** After [l[i] = f(l[i])] at the first index whose element satisfies [p],
    the first element that satisfies [p] is the new one, when it still
    satisfies [p]; [g] is what a write and a read do to each element. *)
Lemma find_update_at {A} (p : A -> bool) (g f : A -> A) (l : list A)
  (i : nat) (x : A) :
  (forall y, p (g y) = p y) ->
  findIndex p l = Some i -> nth_error l i = Some x -> p (f x) = true ->
  find p (map g (update_at i f l)) = Some (g (f x)).
Proof.
  intros Hg. revert i.
  induction l as [|y l IH]; simpl; intros i Hi Hn Hp; [discriminate|].
  destruct (p y) eqn:Hy.
  - injection Hi as <-. simpl in *. injection Hn as ->.
    now rewrite Hg, Hp.
  - destruct (findIndex p l) as [k|]; [|discriminate].
    injection Hi as <-. simpl in *. rewrite Hg, Hy. now apply IH.
Qed.

(** ** Numbers *)

(** The integers that every double holds exactly, and that the
    subtraction and the addition of two of them keep apart. *)
Definition safe (z : Z) : Prop := Z.abs z <= 2 ^ 53.

Lemma to_double_safe (z : Z) : safe z -> to_double z = z.
Proof.
  unfold safe, to_double. intros H.
  destruct (Z.log2 (Z.abs z) - 52 <=? 0) eqn:E; [reflexivity|].
  apply Z.leb_gt in E.
  assert (P : 0 < Z.abs z).
  { destruct (Z.eq_dec (Z.abs z) 0) as [Z0|]; [|lia].
    rewrite Z0 in E. cbn in E. lia. }
  pose proof (Z.log2_spec _ P) as [L _].
  assert (K : 2 ^ 53 <= 2 ^ Z.log2 (Z.abs z))
    by (apply Z.pow_le_mono_r; lia).
  assert (A : Z.abs z = 2 ^ 53) by lia.
  destruct (Z.abs_eq_or_opp z) as [Hz|Hz]; rewrite Hz in A.
  - rewrite A. vm_compute. reflexivity.
  - assert (z = - 2 ^ 53) as -> by lia. vm_compute. reflexivity.
Qed.

(** Rounding keeps the sign. *)
Lemma to_double_pos (z : Z) : (0 <? to_double z) = (0 <? z).
Proof.
  unfold to_double.
  destruct (Z.log2 (Z.abs z) - 52 <=? 0) eqn:E; [reflexivity|].
  apply Z.leb_gt in E.
  set (e := Z.log2 (Z.abs z) - 52) in *.
  assert (P : 0 < Z.abs z).
  { destruct (Z.eq_dec (Z.abs z) 0) as [Z0|]; [|lia].
    subst e. rewrite Z0 in E. cbn in E. lia. }
  pose proof (Z.log2_spec _ P) as [L _].
  assert (U : 0 < 2 ^ e) by (apply Z.pow_pos_nonneg; lia).
  assert (K : 2 ^ e <= 2 ^ Z.log2 (Z.abs z))
    by (apply Z.pow_le_mono_r; lia).
  assert (D : 1 <= Z.abs z / 2 ^ e)
    by (apply Z.div_le_lower_bound; lia).
  assert (M : 0 < round_half_even (Z.abs z) (2 ^ e) * 2 ^ e).
  { apply Z.mul_pos_pos; [|exact U]. unfold round_half_even.
    destruct (_ || _); lia. }
  destruct z as [|p|p]; cbn [Z.sgn] in *; [lia| |].
  - destruct (Z.ltb_spec 0 (1 * (round_half_even (Z.abs (Z.pos p)) (2 ^ e)
                                    * 2 ^ e)));
      [reflexivity | lia].
  - destruct (Z.ltb_spec 0 (-1 * (round_half_even (Z.abs (Z.neg p)) (2 ^ e)
                                     * 2 ^ e)));
      [lia | reflexivity].
Qed.

(** A number that holds an integer below 1e21 is written with the digits
    of that integer, which [parseInt] reads back. *)
Lemma parseInt_value_of_int (z : Z) :
  Z.abs z < 10 ^ 21 -> parseInt (value_of_int (Int z)) = Int z.
Proof.
  intros H.
  unfold value_of_int, num_of_int, parseInt, parseInt_number.
  cbn [inject_Z Qnum Qden].
  destruct (Z.abs z =? 0) eqn:Z0.
  { apply Z.eqb_eq in Z0. f_equal. lia. }
  apply Z.eqb_neq in Z0.
  replace (overflow_threshold * 1 <=? Z.abs z) with false
    by (symmetry; apply Z.leb_gt; unfold overflow_threshold; lia).
  replace (10 ^ 21 * 1 <=? Z.abs z) with false
    by (symmetry; apply Z.leb_gt; lia).
  replace (Qle_bool double_1e_6 (Z.abs z # 1)) with true
    by (symmetry; unfold Qle_bool, double_1e_6; cbn [Qnum Qden];
        apply Z.leb_le; lia).
  cbn [orb negb]. unfold Qtruncate. cbn [Qnum Qden].
  now rewrite Z.quot_1_r.
Qed.

Lemma parseInt_value_of_safe (z : Z) :
  safe z -> parseInt (value_of_int (Int z)) = Int z.
Proof.
  unfold safe. intros H. apply parseInt_value_of_int.
  assert (2 ^ 53 < 10 ^ 21) by (vm_compute; reflexivity). lia.
Qed.

Lemma parseFloat_value_of_nullable (v : option number) :
  json_of_num (Some (parseFloat (value_of_nullable v))) = json_of_num v.
Proof. destruct v as [[| |]|]; reflexivity. Qed.

Lemma String_eqb_eq (a b : string) : String.eqb a b = true <-> a = b.
Proof. apply String.eqb_eq. Qed.

Lemma has_id_roundtrip (itemId : string) (i : item) :
  has_id itemId (Item.parse (Item.stringify i)) = has_id itemId i.
Proof. reflexivity. Qed.

(** ** The ledger functions, step by step *)

Definition set_items (l : list item) (w : World) : World :=
  snd (saveToLocalStorage ITEMS l w).

Definition set_withdrawals (l : list withdrawal) (w : World) : World :=
  snd (saveToLocalStorage WITHDRAWALS l w).

Definition set_categories (l : list string) (w : World) : World :=
  snd (saveToLocalStorage CATEGORIES l w).

Definition notified (message type : string) (w : World) : World :=
  snd (showNotification message type w).

Lemma items_of_set_items (l : list item) (w : World) :
  items_of (set_items l w) = map Item.parse (map Item.stringify l).
Proof. reflexivity. Qed.

Lemma items_of_set_withdrawals (l : list withdrawal) (w : World) :
  items_of (set_withdrawals l w) = items_of w.
Proof. reflexivity. Qed.

Lemma withdrawals_of_set_withdrawals (l : list withdrawal) (w : World) :
  withdrawals_of (set_withdrawals l w)
  = map Withdrawal.parse (map Withdrawal.stringify l).
Proof. reflexivity. Qed.

Lemma withdrawals_of_set_items (l : list item) (w : World) :
  withdrawals_of (set_items l w) = withdrawals_of w.
Proof. reflexivity. Qed.

Lemma getItem_eq (itemId : string) (w : World) :
  getItem itemId w = (find (has_id itemId) (items_of w), w).
Proof. reflexivity. Qed.

Lemma updateItem_eq (itemId : string) (updates : Updates.t) (w : World) :
  updateItem itemId updates w =
  match findIndex (has_id itemId) (items_of w) with
  | None => (false, w)
  | Some index =>
      (true,
       set_items
         (update_at index (fun old => merge old updates) (items_of w)) w)
  end.
Proof.
  unfold updateItem, bind, items_of, getAllItems; simpl.
  destruct (findIndex _ _); reflexivity.
Qed.

(** The record that [withdrawItem] builds for an accepted request. *)
Definition recorded (now now' : Z) (withdrawalData : WithdrawalData.t)
  (i : item) : withdrawal :=
  let quantity := parseInt (WithdrawalData.quantity withdrawalData) in
  {| Withdrawal.id := ("withdraw_" ++ int_to_string (Int now))%string;
     Withdrawal.itemId := Item.id i;
     Withdrawal.itemName := Item.name i;
     Withdrawal.category := Item.category i;
     Withdrawal.quantity := Some quantity;
     Withdrawal.unitCost := Item.unitCost i;
     Withdrawal.totalCost :=
       Some (num_mul (num_of_int quantity) (num_of_nullable (Item.unitCost i)));
     Withdrawal.date := toISOString now';
     Withdrawal.notes := or_empty (WithdrawalData.notes withdrawalData) |}.

(** The object that [withdrawItem] passes to [updateItem]. *)
Definition decrement (withdrawalData : WithdrawalData.t) (i : item)
  : Updates.t :=
  {| Updates.id := Some (Item.id i);
     Updates.name := Some (Item.name i);
     Updates.category := Some (Item.category i);
     Updates.quantity :=
       value_of_int
         (int_sub (int_of_nullable (Item.quantity i))
                  (parseInt (WithdrawalData.quantity withdrawalData)));
     Updates.unitCost := value_of_nullable (Item.unitCost i);
     Updates.dateAdded := Some (Item.dateAdded i);
     Updates.description := Some (Item.description i) |}.

Lemma withdrawItem_missing (now now' : Z) (wd : WithdrawalData.t) (w : World) :
  find (has_id (WithdrawalData.itemId wd)) (items_of w) = None ->
  withdrawItem now now' wd w = (None, notified "Item not found." "error" w).
Proof.
  intros H. unfold withdrawItem, bind. rewrite getItem_eq, H. reflexivity.
Qed.

Lemma withdrawItem_reject (now now' : Z) (wd : WithdrawalData.t) (w : World)
  (i : item) :
  find (has_id (WithdrawalData.itemId wd)) (items_of w) = Some i ->
  int_gt (parseInt (WithdrawalData.quantity wd))
         (int_of_nullable (Item.quantity i)) = true ->
  withdrawItem now now' wd w
  = (None,
     notified ("Insufficient stock. Available: "
                 ++ nullable_int_to_string (Item.quantity i)) "error" w).
Proof.
  intros H G. unfold withdrawItem, bind. rewrite getItem_eq, H, G.
  reflexivity.
Qed.

Lemma withdrawItem_accept (now now' : Z) (wd : WithdrawalData.t) (w : World)
  (i : item) :
  find (has_id (WithdrawalData.itemId wd)) (items_of w) = Some i ->
  int_gt (parseInt (WithdrawalData.quantity wd))
         (int_of_nullable (Item.quantity i)) = false ->
  exists index,
    findIndex (has_id (WithdrawalData.itemId wd)) (items_of w) = Some index
    /\ nth_error (items_of w) index = Some i
    /\ withdrawItem now now' wd w
       = (Some (recorded now now' wd i),
          set_items
            (update_at index (fun old => merge old (decrement wd i))
               (items_of w))
            (set_withdrawals (withdrawals_of w ++ [recorded now now' wd i])
               w)).
Proof.
  intros H G.
  pose proof (findIndex_find (has_id (WithdrawalData.itemId wd)) (items_of w))
    as F.
  rewrite H in F. destruct F as (index & Hi & Hn).
  exists index. repeat split; trivial.
  destruct (find_In _ _ _ H) as [_ Hid]. apply String_eqb_eq in Hid.
  unfold withdrawItem, bind. rewrite getItem_eq, H, G.
  change (loadFromLocalStorage WITHDRAWALS [] w) with (withdrawals_of w, w).
  cbv beta iota zeta.
  change (saveToLocalStorage WITHDRAWALS ?l w)
    with (true, set_withdrawals l w).
  cbv beta iota zeta. rewrite updateItem_eq, items_of_set_withdrawals.
  rewrite <- Hid in Hi. rewrite Hi. reflexivity.
Qed.

(** An accepted request, seen through [getItem] and [getAllWithdrawals]:
    the record is logged as JSON keeps it, and the quantity left is read
    by [updateItem] from the difference. *)
Lemma withdrawItem_accept_view (now now' : Z) (wd : WithdrawalData.t)
  (w : World) (i : item) (Q q : Z) :
  fst (getItem (WithdrawalData.itemId wd) w) = Some i ->
  Item.quantity i = Some (Int Q) ->
  parseInt (WithdrawalData.quantity wd) = Int q ->
  q <= Q ->
  exists (r : withdrawal) (w' : World),
    withdrawItem now now' wd w = (Some r, w')
    /\ r = recorded now now' wd i
    /\ option_map Item.quantity (fst (getItem (WithdrawalData.itemId wd) w'))
       = Some (int_parse_json
                 (json_of_int
                    (Some (parseInt
                             (value_of_int (int_sub (Int Q) (Int q)))))))
    /\ withdrawals_of w'
       = withdrawals_of w ++ [Withdrawal.parse (Withdrawal.stringify r)]
    /\ Withdrawal.unitCost (Withdrawal.parse (Withdrawal.stringify r))
       = Item.unitCost i
    /\ notificationContainer w' = notificationContainer w.
Proof.
  intros H HQ Hq Hle. rewrite getItem_eq in H. simpl fst in H.
  destruct (withdrawItem_accept now now' wd w i H) as (index & Hi & Hn & E).
  { rewrite Hq, HQ. simpl. apply Z.ltb_ge. exact Hle. }
  destruct (find_In _ _ _ H) as [Hin Hid].
  pose proof (items_of_loaded w i Hin) as [j Hj].
  eexists. eexists. split; [exact E|]. split; [reflexivity|].
  split; [|split; [|split; [|reflexivity]]].
  - rewrite getItem_eq. simpl fst.
    rewrite items_of_set_items, map_map.
    erewrite find_update_at; [|reflexivity|exact Hi|exact Hn|exact Hid].
    unfold merge, decrement, Item.parse, Item.stringify.
    cbn [option_map Item.quantity Updates.quantity].
    rewrite Hq, HQ. cbn [int_of_nullable]. reflexivity.
  - rewrite withdrawals_of_set_items, withdrawals_of_set_withdrawals.
    rewrite !map_app, withdrawals_of_roundtrip. reflexivity.
  - unfold recorded, Withdrawal.parse, Withdrawal.stringify.
    cbn [Withdrawal.unitCost]. rewrite Hj.
    unfold Item.parse. cbn [Item.unitCost].
    destruct (Item.unitCost j); reflexivity.
Qed.

(** Within the safe integers the quantity left is the difference. *)
Lemma quantity_left_safe (Q q : Z) :
  safe (Q - q) ->
  int_parse_json
    (json_of_int (Some (parseInt (value_of_int (int_sub (Int Q) (Int q))))))
  = Some (Int (Q - q)).
Proof.
  intros S. cbn [int_sub].
  rewrite (to_double_safe _ S), (parseInt_value_of_safe _ S). reflexivity.
Qed.

(** A rejected request: nothing is written, one notification is shown. *)
Lemma withdrawItem_reject_view (now now' : Z) (wd : WithdrawalData.t)
  (w : World) (i : item) (Q q : Z) :
  fst (getItem (WithdrawalData.itemId wd) w) = Some i ->
  Item.quantity i = Some (Int Q) ->
  parseInt (WithdrawalData.quantity wd) = Int q ->
  Q < q ->
  withdrawItem now now' wd w
  = (None,
     {| localStorage := localStorage w;
        notificationContainer :=
          notificationContainer w
            ++ [{| message :=
                     ("Insufficient stock. Available: "
                        ++ int_to_string (Int Q))%string;
                   type := "error" |}] |}).
Proof.
  intros H HQ Hq Hlt. rewrite getItem_eq in H. simpl fst in H.
  rewrite (withdrawItem_reject now now' wd w i H).
  - now rewrite HQ.
  - rewrite Hq, HQ. simpl. apply Z.ltb_lt. exact Hlt.
Qed.

(** ** Withdrawing *)

(** The Widget counted by the sextillion. *)
Definition large_stock_world : World :=
  run (addItem 1000 1001
         {| ItemData.name := "Widget"; ItemData.category := "Tools";
            ItemData.quantity := VStr "1000000000000000000000";
            ItemData.unitCost := VStr "2.50";
            ItemData.description := None |})
      (run initializeStorage fresh).

(** C1, as stated, fails for a stock beyond the integers that a number
    counts one by one.  Of 1e21 units, 5 are requested: the withdrawal
    succeeds, the difference is rounded to 1e21, [updateItem] reads its
    text [1e+21] with [parseInt], and the item is left with 1 unit. *)
Lemma withdraw_from_large_stock :
  option_map Item.quantity (fst (getItem "item_1000" large_stock_world))
  = Some (Some (Int 1000000000000000000000))
  /\ parseInt (VStr "5") = Int 5
  /\ 0 < 5 <= 1000000000000000000000
  /\ let '(result, w') :=
       withdrawItem 2000 2001
         {| WithdrawalData.itemId := "item_1000";
            WithdrawalData.quantity := VStr "5";
            WithdrawalData.notes := None |} large_stock_world in
     option_map Withdrawal.quantity result = Some (Some (Int 5))
     /\ option_map Item.quantity (fst (getItem "item_1000" w'))
        = Some (Some (Int 1))
     /\ Int 1 <> Int (1000000000000000000000 - 5).
Proof.
  split; [vm_compute; reflexivity|]. split; [vm_compute; reflexivity|].
  split; [lia|]. vm_compute.
  split; [reflexivity|]. split; [reflexivity|]. discriminate.
Qed.

(** C1, amended.  For an item of quantity [Q], at most 2^53, and a
    request of quantity [q] with [0 < q <= Q], [withdrawItem] succeeds;
    afterwards [getItem] reads the quantity [Q - q], and the withdrawal
    log has exactly one more record: the returned record as JSON keeps
    it.  Its quantity is [q], its unit cost is the unit cost of the item
    at the time of the withdrawal, and its total cost is [q] times that
    unit cost, as the returned record has it and as JSON keeps it. *)
Theorem withdraw_within_stock (now now' : Z) (wd : WithdrawalData.t)
  (w : World) (i : item) (Q q : Z) :
  fst (getItem (WithdrawalData.itemId wd) w) = Some i ->
  Item.quantity i = Some (Int Q) ->
  parseInt (WithdrawalData.quantity wd) = Int q ->
  0 < q <= Q ->
  Q <= 2 ^ 53 ->
  exists (r r' : withdrawal) (w' : World),
    withdrawItem now now' wd w = (Some r, w')
    /\ option_map Item.quantity (fst (getItem (WithdrawalData.itemId wd) w'))
       = Some (Some (Int (Q - q)))
    /\ r' = Withdrawal.parse (Withdrawal.stringify r)
    /\ withdrawals_of w' = withdrawals_of w ++ [r']
    /\ Withdrawal.quantity r = Some (Int q)
    /\ Withdrawal.unitCost r = Item.unitCost i
    /\ Withdrawal.totalCost r
       = Some (num_mul (Num (inject_Z q)) (num_of_nullable (Item.unitCost i)))
    /\ Withdrawal.quantity r' = Some (Int q)
    /\ Withdrawal.unitCost r' = Item.unitCost i
    /\ Withdrawal.totalCost r'
       = num_parse_json (json_of_num (Withdrawal.totalCost r)).
Proof.
  intros H HQ Hq [Hpos Hle] Hsafe.
  destruct (withdrawItem_accept_view now now' wd w i Q q H HQ Hq Hle)
    as (r & w' & E & Hr & Hget & Hlog & Hcost & _).
  exists r, (Withdrawal.parse (Withdrawal.stringify r)), w'.
  split; [exact E|].
  split.
  { rewrite Hget, quantity_left_safe; [reflexivity|]. unfold safe. lia. }
  split; [reflexivity|]. split; [exact Hlog|].
  split; [subst r; unfold recorded; cbn [Withdrawal.quantity]; now rewrite Hq|].
  split; [subst r; reflexivity|].
  split.
  { subst r. unfold recorded. cbn [Withdrawal.totalCost]. now rewrite Hq. }
  split.
  { subst r. unfold recorded, Withdrawal.parse, Withdrawal.stringify.
    cbn [Withdrawal.quantity]. now rewrite Hq. }
  split; [exact Hcost | reflexivity].
Qed.

(** C2. For an item of quantity [Q], a request of quantity [q > Q] fails:
    [withdrawItem] returns [null], shows the insufficient-stock error that
    tells the available amount [Q], and leaves the storage (so the quantity
    of the item and the withdrawal log) as it was. *)
Theorem withdraw_beyond_stock (now now' : Z) (wd : WithdrawalData.t)
  (w : World) (i : item) (Q q : Z) :
  fst (getItem (WithdrawalData.itemId wd) w) = Some i ->
  Item.quantity i = Some (Int Q) ->
  parseInt (WithdrawalData.quantity wd) = Int q ->
  Q < q ->
  let '(result, w') := withdrawItem now now' wd w in
  result = None
  /\ notificationContainer w'
     = notificationContainer w
         ++ [{| message :=
                  ("Insufficient stock. Available: "
                     ++ int_to_string (Int Q))%string;
                type := "error" |}]
  /\ localStorage w' = localStorage w
  /\ fst (getItem (WithdrawalData.itemId wd) w') = Some i
  /\ withdrawals_of w' = withdrawals_of w.
Proof.
  intros H HQ Hq Hlt.
  rewrite (withdrawItem_reject_view now now' wd w i Q q H HQ Hq Hlt).
  repeat split. exact H.
Qed.

Definition widget_request (text : string) : WithdrawalData.t :=
  {| WithdrawalData.itemId := "item_1000";
     WithdrawalData.quantity := VStr text;
     WithdrawalData.notes := None |}.

Definition widget : item :=
  {| Item.id := "item_1000"; Item.name := "Widget"; Item.category := "Tools";
     Item.quantity := Some (Int 10); Item.unitCost := Some (Num (5 # 2));
     Item.dateAdded := "1970-01-01T00:00:01.001Z";
     Item.description := EmptyString |}.

Lemma withdraw_within_stock_witness :
  exists (r r' : withdrawal) (w' : World),
    withdrawItem 2000 2001 (widget_request "3") widget_world = (Some r, w')
    /\ option_map Item.quantity (fst (getItem "item_1000" w'))
       = Some (Some (Int (10 - 3)))
    /\ r' = Withdrawal.parse (Withdrawal.stringify r)
    /\ withdrawals_of w' = withdrawals_of widget_world ++ [r']
    /\ Withdrawal.quantity r = Some (Int 3)
    /\ Withdrawal.unitCost r = Some (Num (5 # 2))
    /\ Withdrawal.totalCost r
       = Some (num_mul (Num (inject_Z 3)) (Num (5 # 2)))
    /\ Withdrawal.quantity r' = Some (Int 3)
    /\ Withdrawal.unitCost r' = Some (Num (5 # 2))
    /\ Withdrawal.totalCost r'
       = num_parse_json (json_of_num (Withdrawal.totalCost r)).
Proof.
  apply (withdraw_within_stock 2000 2001 (widget_request "3") widget_world
           widget 10 3);
    [reflexivity | reflexivity | reflexivity | lia | lia].
Defined.

Lemma withdraw_beyond_stock_witness :
  let '(result, w') :=
    withdrawItem 2000 2001 (widget_request "11") widget_world in
  result = None
  /\ notificationContainer w'
     = notificationContainer widget_world
         ++ [{| message := "Insufficient stock. Available: 10";
                type := "error" |}]
  /\ localStorage w' = localStorage widget_world
  /\ fst (getItem "item_1000" w') = Some widget
  /\ withdrawals_of w' = withdrawals_of widget_world.
Proof.
  apply (withdraw_beyond_stock 2000 2001 (widget_request "11") widget_world
           widget 10 11);
    [reflexivity | reflexivity | reflexivity | lia].
Defined.

(** C3, as stated, fails: the request for ["2.5"] units, which is not an
    integer, is not refused.  [withdrawItem] reads it with [parseInt] as 2,
    shows no error, records a withdrawal and takes 2 units from the
    item. *)
Lemma withdraw_fraction_accepted :
  StringToNumber "2.5" = Num (5 # 2)
  /\ let '(result, w') :=
       withdrawItem 2000 2001 (widget_request "2.5") widget_world in
     option_map Withdrawal.quantity result = Some (Some (Int 2))
     /\ notificationContainer w' = []
     /\ option_map (map Item.quantity) (inventory_items (localStorage w'))
        = Some [Some 8]
     /\ option_map (@List.length _)
          (inventory_withdrawals (localStorage w')) = Some 1%nat
     /\ localStorage w' <> localStorage widget_world.
Proof.
  split; [reflexivity|].
  cbv beta iota zeta.
  repeat split. discriminate.
Qed.

(** C3, amended.  With [q] the integer that [parseInt] reads from the
    requested quantity and [Q] the quantity of the item: a request with
    [q] above [Q] is refused with the insufficient-stock error, which
    tells [Q], and no change of the storage; a request with [0 < q <= Q]
    is accepted and adds exactly one record to the log, whose quantity is
    the positive integer [q]. *)
Theorem withdraw_checks_parsed_quantity (now now' : Z)
  (wd : WithdrawalData.t) (w : World) (i : item) (Q q : Z) :
  fst (getItem (WithdrawalData.itemId wd) w) = Some i ->
  Item.quantity i = Some (Int Q) ->
  parseInt (WithdrawalData.quantity wd) = Int q ->
  0 < q \/ Q < q ->
  if Q <? q then
    fst (withdrawItem now now' wd w) = None
    /\ localStorage (snd (withdrawItem now now' wd w)) = localStorage w
    /\ notificationContainer (snd (withdrawItem now now' wd w))
       = notificationContainer w
           ++ [{| message :=
                    ("Insufficient stock. Available: "
                       ++ int_to_string (Int Q))%string;
                  type := "error" |}]
  else
    exists r r' : withdrawal,
      fst (withdrawItem now now' wd w) = Some r
      /\ Withdrawal.quantity r = Some (Int q)
      /\ withdrawals_of (snd (withdrawItem now now' wd w))
         = withdrawals_of w ++ [r']
      /\ Withdrawal.quantity r' = Some (Int q)
      /\ 0 < q.
Proof.
  intros H HQ Hq Hor.
  destruct (Q <? q) eqn:C.
  - apply Z.ltb_lt in C.
    rewrite (withdrawItem_reject_view now now' wd w i Q q H HQ Hq C).
    now repeat split.
  - apply Z.ltb_ge in C.
    destruct (withdrawItem_accept_view now now' wd w i Q q H HQ Hq C)
      as (r & w' & E & Hr & _ & Hlog & _).
    exists r, (Withdrawal.parse (Withdrawal.stringify r)).
    rewrite E. cbn [fst snd]. split; [reflexivity|].
    split; [subst r; unfold recorded; cbn [Withdrawal.quantity];
            now rewrite Hq|].
    split; [exact Hlog|].
    split; [|lia].
    subst r. unfold recorded, Withdrawal.parse, Withdrawal.stringify.
    cbn [Withdrawal.quantity]. now rewrite Hq.
Qed.

(** The requests for ["2.5"] and for ["11"] of the ten Widgets. *)
Lemma withdraw_checks_parsed_quantity_witness :
  (exists r r' : withdrawal,
     fst (withdrawItem 2000 2001 (widget_request "2.5") widget_world) = Some r
     /\ Withdrawal.quantity r = Some (Int 2)
     /\ withdrawals_of
          (snd (withdrawItem 2000 2001 (widget_request "2.5") widget_world))
        = withdrawals_of widget_world ++ [r']
     /\ Withdrawal.quantity r' = Some (Int 2)
     /\ 0 < 2)
  /\ (fst (withdrawItem 2000 2001 (widget_request "11") widget_world) = None
      /\ localStorage
           (snd (withdrawItem 2000 2001 (widget_request "11") widget_world))
         = localStorage widget_world
      /\ notificationContainer
           (snd (withdrawItem 2000 2001 (widget_request "11") widget_world))
         = notificationContainer widget_world
             ++ [{| message :=
                      ("Insufficient stock. Available: "
                         ++ int_to_string (Int 10))%string;
                    type := "error" |}]).
Proof.
  split.
  - apply (withdraw_checks_parsed_quantity 2000 2001 (widget_request "2.5")
             widget_world widget 10 2);
      [reflexivity | reflexivity | reflexivity | left; lia].
  - apply (withdraw_checks_parsed_quantity 2000 2001 (widget_request "11")
             widget_world widget 10 11);
      [reflexivity | reflexivity | reflexivity | right; lia].
Defined.

(** What [withdrawItem] does with a request for no unit, for a negative
    number of units and for a text that is no number: none is refused.  The
    check for a positive quantity is made by [updateWithdrawPreview], which
    disables the button of the form, and not by [withdrawItem]. *)
Example withdraw_zero :
  let '(result, w') :=
    withdrawItem 2000 2001 (widget_request "0") widget_world in
  option_map Withdrawal.quantity result = Some (Some (Int 0))
  /\ option_map (map Item.quantity) (inventory_items (localStorage w'))
     = Some [Some 10].
Proof. now split. Qed.

Example withdraw_negative :
  let '(result, w') :=
    withdrawItem 2000 2001 (widget_request "-3") widget_world in
  option_map Withdrawal.quantity result = Some (Some (Int (-3)))
  /\ option_map (map Item.quantity) (inventory_items (localStorage w'))
     = Some [Some 13].
Proof. now split. Qed.

Example withdraw_not_a_number :
  let '(result, w') :=
    withdrawItem 2000 2001 (widget_request "abc") widget_world in
  option_map Withdrawal.quantity result = Some (Some INaN)
  /\ option_map (map Item.quantity) (inventory_items (localStorage w'))
     = Some [None].
Proof. now split. Qed.

Example preview_disables_button :
  fst (updateWithdrawPreview "item_1000" "0" widget_world) = Some true
  /\ fst (updateWithdrawPreview "item_1000" "-3" widget_world) = Some true
  /\ fst (updateWithdrawPreview "item_1000" "abc" widget_world) = Some true
  /\ fst (updateWithdrawPreview "item_1000" "11" widget_world) = Some true
  /\ fst (updateWithdrawPreview "item_1000" "2.5" widget_world) = Some false
  /\ fst (updateWithdrawPreview "item_1000" "3" widget_world) = Some false.
Proof. now repeat split. Qed.

(** ** Updating an item *)

Lemma nth_error_roundtrip (w : World) (k : nat) :
  option_map (fun x => Item.parse (Item.stringify x))
    (nth_error (items_of w) k)
  = nth_error (items_of w) k.
Proof.
  destruct (nth_error (items_of w) k) as [x|] eqn:E; [|reflexivity].
  cbn [option_map]. rewrite loaded_roundtrip; [reflexivity|].
  apply (items_of_loaded w). eapply nth_error_In. exact E.
Qed.

Lemma updateItem_found (itemId : string) (updates : Updates.t) (w : World)
  (old : item) :
  find (has_id itemId) (items_of w) = Some old ->
  exists index,
    findIndex (has_id itemId) (items_of w) = Some index
    /\ nth_error (items_of w) index = Some old
    /\ updateItem itemId updates w
       = (true,
          set_items
            (update_at index (fun x => merge x updates) (items_of w)) w)
    /\ nth_error
         (items_of
            (set_items
               (update_at index (fun x => merge x updates) (items_of w)) w))
         index
       = Some (Item.parse (Item.stringify (merge old updates)))
    /\ forall k, k <> index ->
         nth_error
           (items_of
              (set_items
                 (update_at index (fun x => merge x updates) (items_of w)) w))
           k
         = nth_error (items_of w) k.
Proof.
  intros H.
  pose proof (findIndex_find (has_id itemId) (items_of w)) as F.
  rewrite H in F. destruct F as (index & Hi & Hn).
  exists index. split; [exact Hi|]. split; [exact Hn|]. split.
  - rewrite updateItem_eq, Hi. reflexivity.
  - rewrite items_of_set_items, map_map. split.
    + rewrite nth_error_map, (update_at_nth_same _ _ _ _ Hn). reflexivity.
    + intros k Hk. rewrite nth_error_map, update_at_nth_other by congruence.
      apply nth_error_roundtrip.
Qed.

Lemma updateItem_absent (itemId : string) (updates : Updates.t) (w : World) :
  find (has_id itemId) (items_of w) = None ->
  updateItem itemId updates w = (false, w).
Proof.
  intros H.
  pose proof (findIndex_find (has_id itemId) (items_of w)) as F.
  rewrite H in F. now rewrite updateItem_eq, F.
Qed.

(** A patch that has a description and nothing else. *)
Definition description_patch : Updates.t :=
  {| Updates.id := None; Updates.name := None; Updates.category := None;
     Updates.quantity := VUndefined; Updates.unitCost := VUndefined;
     Updates.dateAdded := None; Updates.description := Some "blue"%string |}.

(** C9, as stated, fails: [quantity] and [unitCost] are not in the patch
    and do not keep their values.  [updateItem] reads them from the patch
    all the same, [parseInt(undefined)] and [parseFloat(undefined)] are
    [NaN], and the Widget is stored with neither quantity nor cost. *)
Lemma updateItem_patch_without_numbers :
  option_map Item.quantity (fst (getItem "item_1000" widget_world))
  = Some (Some (Int 10))
  /\ option_map Item.unitCost (fst (getItem "item_1000" widget_world))
     = Some (Some (Num (5 # 2)))
  /\ let '(result, w') :=
       updateItem "item_1000" description_patch widget_world in
     result = true
     /\ option_map Item.description (fst (getItem "item_1000" w'))
        = Some "blue"%string
     /\ option_map Item.quantity (fst (getItem "item_1000" w')) = Some None
     /\ option_map Item.unitCost (fst (getItem "item_1000" w')) = Some None.
Proof. vm_compute. now repeat split. Qed.

(** C9, amended.  [updateItem] lays the fields of the patch over the
    first item of the given id.  Of [id], [name], [category], [dateAdded]
    and [description], a field that the patch does not have keeps its
    value (in particular [id] and [dateAdded] when the patch has none),
    and a field that it has takes the value of the patch; [quantity] and
    [unitCost] are read again from the patch with [parseInt] and
    [parseFloat]; every other item, the categories, the withdrawals and
    the notifications are as before.  When no item has the given id the
    call returns [false] and changes nothing. *)
Theorem updateItem_merges_patch (itemId : string) (updates : Updates.t)
  (w : World) :
  match fst (getItem itemId w) with
  | Some old =>
      exists (index : nat) (new : item),
        nth_error (items_of w) index = Some old
        /\ fst (updateItem itemId updates w) = true
        /\ nth_error (items_of (snd (updateItem itemId updates w))) index
           = Some new
        /\ (Updates.id updates = None -> Item.id new = Item.id old)
        /\ (Updates.dateAdded updates = None ->
            Item.dateAdded new = Item.dateAdded old)
        /\ (Updates.name updates = None -> Item.name new = Item.name old)
        /\ (Updates.category updates = None ->
            Item.category new = Item.category old)
        /\ (Updates.description updates = None ->
            Item.description new = Item.description old)
        /\ (forall s, Updates.id updates = Some s -> Item.id new = s)
        /\ (forall s, Updates.dateAdded updates = Some s ->
              Item.dateAdded new = s)
        /\ (forall s, Updates.name updates = Some s -> Item.name new = s)
        /\ (forall s, Updates.category updates = Some s ->
              Item.category new = s)
        /\ (forall s, Updates.description updates = Some s ->
              Item.description new = s)
        /\ Item.quantity new
           = int_parse_json
               (json_of_int (Some (parseInt (Updates.quantity updates))))
        /\ Item.unitCost new
           = num_parse_json
               (json_of_num (Some (parseFloat (Updates.unitCost updates))))
        /\ (forall k, k <> index ->
              nth_error (items_of (snd (updateItem itemId updates w))) k
              = nth_error (items_of w) k)
        /\ List.length (items_of (snd (updateItem itemId updates w)))
           = List.length (items_of w)
        /\ inventory_categories
             (localStorage (snd (updateItem itemId updates w)))
           = inventory_categories (localStorage w)
        /\ inventory_withdrawals
             (localStorage (snd (updateItem itemId updates w)))
           = inventory_withdrawals (localStorage w)
        /\ notificationContainer (snd (updateItem itemId updates w))
           = notificationContainer w
  | None => updateItem itemId updates w = (false, w)
  end.
Proof.
  rewrite getItem_eq. cbn [fst].
  destruct (find (has_id itemId) (items_of w)) as [old|] eqn:H.
  - destruct (updateItem_found itemId updates w old H)
      as (index & Hi & Hn & E & Hsame & Hother).
    exists index, (Item.parse (Item.stringify (merge old updates))).
    rewrite E. cbn [fst snd].
    split; [exact Hn|]. split; [reflexivity|]. split; [exact Hsame|].
    unfold merge, Item.parse, Item.stringify.
    cbn [Item.id Item.name Item.category Item.description Item.dateAdded
         Item.quantity Item.unitCost].
    repeat match goal with
           | |- _ /\ _ => split
           end;
      try (intros E'; rewrite E'; reflexivity);
      try (intros s E'; rewrite E'; reflexivity);
      try reflexivity.
    + exact Hother.
    + rewrite items_of_set_items, !length_map. apply update_at_length.
  - now apply updateItem_absent.
Qed.

(** The edit form passes the text of its fields to [updateItem] as it
    is: a negative quantity is stored.  The add form refuses the same
    text. *)
Definition widget_edited_negative : World :=
  run (handleEditItem "item_1000" "Widget" "Tools" "-5" "2.50" EmptyString)
      widget_world.

(** C4 at the failing input: editing the Widget to the quantity [-5]
    succeeds and leaves a stored item of negative quantity. *)
Theorem edit_stores_negative_quantity :
  fst (updateItem "item_1000"
         {| Updates.id := None; Updates.name := Some "Widget"%string;
            Updates.category := Some "Tools"%string;
            Updates.quantity := VStr "-5"; Updates.unitCost := VStr "2.50";
            Updates.dateAdded := None;
            Updates.description := Some EmptyString |} widget_world) = true
  /\ option_map (map Item.quantity)
       (inventory_items (localStorage widget_edited_negative))
     = Some [Some (-5)]
  /\ notificationContainer widget_edited_negative
     = [{| message := "Item updated successfully!"; type := "success" |}].
Proof. now repeat split. Qed.

Example add_refuses_negative_quantity :
  handleAddItem 4000 4001 "Gadget" "Tools" "-5" "2.50" EmptyString widget_world
  = (tt,
     {| localStorage := localStorage widget_world;
        notificationContainer :=
          [{| message := "Quantity cannot be negative."; type := "error" |}]
     |}).
Proof. reflexivity. Qed.

Example addItem_stores_negative_quantity :
  option_map (map Item.quantity)
    (inventory_items
       (localStorage
          (run (addItem 4000 4001
                  {| ItemData.name := "Gadget"; ItemData.category := "Tools";
                     ItemData.quantity := VStr "-5";
                     ItemData.unitCost := VStr "2.50";
                     ItemData.description := None |}) widget_world)))
  = Some [Some 10; Some (-5)].
Proof. reflexivity. Qed.

(** ** Categories *)

(** The stored list of categories, as [addCategory] and [deleteCategory]
    read it: empty until [initializeStorage] has written the seed. *)
Definition stored_registry (w : World) : list string :=
  fst (loadFromLocalStorage CATEGORIES [] w).

Definition in_use (categoryName : string) (w : World) : Prop :=
  exists i : item, In i (items_of w) /\ Item.category i = categoryName.

Definition category_in_use_signal : notification :=
  {| message :=
       "Cannot delete category: It is being used by one or more items.";
     type := "error" |}.

Lemma in_use_existsb (categoryName : string) (w : World) :
  existsb (fun i => String.eqb (Item.category i) categoryName) (items_of w)
  = true <-> in_use categoryName w.
Proof.
  rewrite existsb_exists. unfold in_use.
  split; intros (i & Hin & H); exists i; split; trivial;
    now apply String_eqb_eq.
Qed.

Lemma filter_keeps_all {A} (p : A -> bool) (l : list A) :
  (List.length (filter p l) =? List.length l)%nat = true
  <-> forall x, In x l -> p x = true.
Proof.
  rewrite Nat.eqb_eq. induction l as [|y l IH]; simpl.
  - split; [tauto | reflexivity].
  - pose proof (filter_length_le p l) as Hle.
    destruct (p y) eqn:Hy; simpl.
    + split.
      * intros E x [<-|Hin]; [exact Hy|]. apply IH; [lia | exact Hin].
      * intros H. f_equal. apply IH. intros x Hin. apply H. now right.
    + split; [lia|]. intros H. specialize (H y (or_introl eq_refl)).
      congruence.
Qed.

Lemma not_in_filter_out (name : string) (l : list string) :
  (forall x, In x l -> negb (String.eqb x name) = true) <-> ~ In name l.
Proof.
  split.
  - intros H Hin. specialize (H name Hin). now rewrite String.eqb_refl in H.
  - intros H x Hin. apply negb_true_iff. apply String.eqb_neq.
    intros ->. contradiction.
Qed.

Lemma deleteCategory_eq (categoryName : string) (w : World) :
  deleteCategory categoryName w =
  if existsb (fun i => String.eqb (Item.category i) categoryName)
       (items_of w)
  then (false,
        notified
          "Cannot delete category: It is being used by one or more items."
          "error" w)
  else
    let filteredCategories :=
      filter (fun cat => negb (String.eqb cat categoryName))
        (stored_registry w) in
    if (List.length filteredCategories =? List.length (stored_registry w))%nat
    then (false, w)
    else (true, set_categories filteredCategories w).
Proof.
  unfold deleteCategory, bind.
  change (getAllItems w) with (items_of w, w). cbv beta iota zeta.
  destruct (existsb _ _); [reflexivity|].
  change (loadFromLocalStorage CATEGORIES [] w) with (stored_registry w, w).
  cbv beta iota zeta.
  destruct (_ =? _)%nat; reflexivity.
Qed.

Lemma addCategory_eq (categoryName : string) (w : World) :
  addCategory categoryName w =
  if existsb (fun cat =>
       String.eqb (toLowerCase cat) (toLowerCase categoryName))
       (stored_registry w)
  then (false, w)
  else (true, set_categories (stored_registry w ++ [categoryName]) w).
Proof.
  unfold addCategory, bind.
  change (loadFromLocalStorage CATEGORIES [] w) with (stored_registry w, w).
  cbv beta iota zeta.
  destruct (existsb _ _); reflexivity.
Qed.

Lemma stored_registry_set_categories (l : list string) (w : World) :
  stored_registry (set_categories l w) = l.
Proof. reflexivity. Qed.

Lemma notified_neq (n : notification) (l : list notification) :
  l <> l ++ [n].
Proof.
  intros E. apply (f_equal (@List.length _)) in E.
  rewrite length_app in E. simpl in E. lia.
Qed.

(** C5. [deleteCategory] is blocked exactly when some item has the given
    name as its category, by equality of strings: it then shows the
    category-in-use error, returns [false] and leaves the storage as it
    was.  Otherwise it removes the entry equal to the name and returns
    [true], or returns [false], changing nothing, when the list has no such
    entry. *)
Theorem deleteCategory_blocked_iff_in_use (categoryName : string)
  (w : World) :
  let '(result, w') := deleteCategory categoryName w in
  (notificationContainer w'
   = notificationContainer w ++ [category_in_use_signal]
   <-> in_use categoryName w)
  /\ (in_use categoryName w ->
      result = false /\ localStorage w' = localStorage w)
  /\ (~ in_use categoryName w -> In categoryName (stored_registry w) ->
      result = true
      /\ stored_registry w'
         = filter (fun cat => negb (String.eqb cat categoryName))
             (stored_registry w)
      /\ ~ In categoryName (stored_registry w')
      /\ (forall c, c <> categoryName ->
            (In c (stored_registry w') <-> In c (stored_registry w)))
      /\ inventory_items (localStorage w') = inventory_items (localStorage w)
      /\ inventory_withdrawals (localStorage w')
         = inventory_withdrawals (localStorage w)
      /\ notificationContainer w' = notificationContainer w)
  /\ (~ in_use categoryName w -> ~ In categoryName (stored_registry w) ->
      result = false /\ w' = w).
Proof.
  rewrite deleteCategory_eq.
  destruct (existsb (fun i => String.eqb (Item.category i) categoryName)
              (items_of w)) eqn:U.
  - apply in_use_existsb in U.
    split; [split; [intros _; exact U | reflexivity]|].
    split; [now split|]. split; intros N; contradiction.
  - assert (N : ~ in_use categoryName w).
    { intros H. apply in_use_existsb in H. congruence. }
    cbv zeta.
    destruct (_ =? _)%nat eqn:L.
    + pose proof (proj1 (not_in_filter_out _ _)
                    (proj1 (filter_keeps_all _ _) L)) as L'.
      split; [split; [intros E; now apply notified_neq in E | contradiction]|].
      split; [contradiction|]. split; [contradiction|]. now split.
    + assert (Hin : In categoryName (stored_registry w)).
      { destruct (in_dec string_dec categoryName (stored_registry w)) as [|Hn];
          [assumption|].
        pose proof (proj2 (filter_keeps_all _ _)
                      (proj2 (not_in_filter_out _ _) Hn)) as L'.
        congruence. }
      split; [split; [intros E; now apply notified_neq in E | contradiction]|].
      split; [contradiction|]. split; [|contradiction].
      intros _ _. rewrite stored_registry_set_categories.
      split; [reflexivity|]. split; [reflexivity|].
      split.
      { intros H. apply filter_In in H as [_ H].
        now rewrite String.eqb_refl in H. }
      split.
      { intros c Hc. rewrite filter_In. split; [tauto|].
        intros H. split; [exact H|]. apply negb_true_iff.
        now apply String.eqb_neq. }
      now repeat split.
Qed.

(** C10. [deleteCategory] looks for items of the category before it looks
    for the name in the list of categories: for a name that the list does
    not have but that is the category of some item, it shows the
    category-in-use error and returns [false], and the storage is as
    before. *)
Theorem deleteCategory_in_use_before_not_found (categoryName : string)
  (w : World) :
  ~ In categoryName (stored_registry w) ->
  in_use categoryName w ->
  deleteCategory categoryName w
  = (false,
     {| localStorage := localStorage w;
        notificationContainer :=
          notificationContainer w ++ [category_in_use_signal] |}).
Proof.
  intros _ U. rewrite deleteCategory_eq.
  apply in_use_existsb in U. now rewrite U.
Qed.

(** An item of a category that the list does not have. *)
Definition ghost_world : World :=
  run (addItem 5000 5001
         {| ItemData.name := "Lamp"; ItemData.category := "Ghost";
            ItemData.quantity := VStr "1"; ItemData.unitCost := VStr "9.99";
            ItemData.description := None |})
      (run initializeStorage fresh).

Lemma deleteCategory_in_use_before_not_found_witness :
  deleteCategory "Ghost" ghost_world
  = (false,
     {| localStorage := localStorage ghost_world;
        notificationContainer :=
          notificationContainer ghost_world ++ [category_in_use_signal] |}).
Proof.
  apply (deleteCategory_in_use_before_not_found "Ghost" ghost_world).
  - simpl. intros [H|[H|[H|[H|[]]]]]; discriminate H.
  - eexists. split; [left; reflexivity | reflexivity].
Defined.

Example deleteCategory_unknown_and_unused :
  deleteCategory "Nothing" ghost_world = (false, ghost_world).
Proof. reflexivity. Qed.

Example deleteCategory_unused :
  let '(result, w') := deleteCategory "Tools" ghost_world in
  result = true
  /\ registry w' = ["Electronics"; "Office Supplies"; "Uncategorized"]%string.
Proof. now split. Qed.

(** *** Names distinct ignoring case *)

(** Case analysis on the condition of the first conditional of the goal. *)
Ltac case_if :=
  match goal with
  | |- context [if ?c then _ else _] => destruct c eqn:?
  end.

Definition distinct_ignoring_case (l : list string) : Prop :=
  NoDup (map toLowerCase l).

(** What the user can make the application do. *)
Inductive action : Type :=
| Reload
| AddItem (now now' : Z) (itemData : ItemData.t)
| UpdateItem (itemId : string) (updates : Updates.t)
| DeleteItem (itemId : string)
| AddCategory (categoryName : string)
| DeleteCategory (categoryName : string)
| Withdraw (now now' : Z) (withdrawalData : WithdrawalData.t).

Definition perform (a : action) (w : World) : World :=
  match a with
  | Reload => run initializeStorage w
  | AddItem now now' itemData => run (addItem now now' itemData) w
  | UpdateItem itemId updates => run (updateItem itemId updates) w
  | DeleteItem itemId => run (deleteItem itemId) w
  | AddCategory categoryName => run (addCategory categoryName) w
  | DeleteCategory categoryName => run (deleteCategory categoryName) w
  | Withdraw now now' withdrawalData =>
      run (withdrawItem now now' withdrawalData) w
  end.

(** The worlds that the application reaches from an empty storage. *)
Inductive reachable : World -> Prop :=
| reachable_init : reachable (run initializeStorage fresh)
| reachable_step (a : action) (w : World) :
    reachable w -> reachable (perform a w).

Definition categories_key (w : World) : option (list string) :=
  inventory_categories (localStorage w).

Lemma NoDup_snoc {A} (l : list A) (x : A) :
  NoDup l -> ~ In x l -> NoDup (l ++ [x]).
Proof.
  induction l as [|y l IH]; simpl; intros Hl Hx.
  - constructor; [tauto | constructor].
  - inversion Hl as [|? ? Hy Hl']; subst. constructor.
    + rewrite in_app_iff. simpl. intros [H|[H|[]]]; [tauto|].
      apply Hx. now left.
    + apply IH; [exact Hl'|]. intros H. apply Hx. now right.
Qed.

(** Removing names keeps the remaining ones distinct. *)
Lemma distinct_filter (keep : string -> bool) (names : list string) :
  distinct_ignoring_case names -> distinct_ignoring_case (filter keep names).
Proof.
  unfold distinct_ignoring_case.
  induction names as [|c names IH]; simpl; intros D; [exact D|].
  inversion D as [|? ? Hc Hrest]; subst.
  destruct (keep c); simpl; [|now apply IH].
  constructor; [|now apply IH].
  intros Hin. apply Hc. apply in_map_iff in Hin as (x & E & Hx).
  apply in_map_iff. exists x. split; [exact E|].
  apply filter_In in Hx. tauto.
Qed.

Lemma seed_distinct : distinct_ignoring_case DEFAULT_CATEGORIES.
Proof.
  unfold distinct_ignoring_case. simpl.
  repeat (constructor;
          [simpl; intros H;
           repeat (destruct H as [H|H]; [discriminate H|]); exact H|]).
  constructor.
Qed.

Lemma matches_ignoring_case (categoryName : string) (l : list string) :
  existsb (fun cat =>
     String.eqb (toLowerCase cat) (toLowerCase categoryName)) l = true
  <-> exists c, In c l /\ toLowerCase c = toLowerCase categoryName.
Proof.
  rewrite existsb_exists.
  split; intros (c & Hin & H); exists c; split; trivial;
    now apply String_eqb_eq.
Qed.

(** The list of categories is stored, and its names are distinct ignoring
    case. *)
Definition registry_ok (w : World) : Prop :=
  exists l, categories_key w = Some l /\ distinct_ignoring_case l.

Lemma registry_ok_same (w w' : World) :
  categories_key w' = categories_key w -> registry_ok w -> registry_ok w'.
Proof. intros E (l & H & D). exists l. now rewrite E. Qed.

Lemma registry_ok_stored (w : World) :
  registry_ok w ->
  registry w = stored_registry w /\ distinct_ignoring_case (registry w).
Proof.
  intros (l & H & D).
  unfold registry, stored_registry, getAllCategories, loadFromLocalStorage.
  unfold categories_key in H. simpl. rewrite H. now split.
Qed.

Lemma withdrawItem_categories (now now' : Z) (wd : WithdrawalData.t)
  (w : World) :
  categories_key (run (withdrawItem now now' wd) w) = categories_key w.
Proof.
  unfold run.
  destruct (find (has_id (WithdrawalData.itemId wd)) (items_of w))
    as [i|] eqn:H.
  - destruct (int_gt (parseInt (WithdrawalData.quantity wd))
                (int_of_nullable (Item.quantity i))) eqn:G.
    + now rewrite (withdrawItem_reject now now' wd w i H G).
    + destruct (withdrawItem_accept now now' wd w i H G) as (k & _ & _ & E).
      now rewrite E.
  - now rewrite (withdrawItem_missing now now' wd w H).
Qed.

Lemma perform_registry_ok (a : action) (w : World) :
  registry_ok w -> registry_ok (perform a w).
Proof.
  intros Hw. pose proof Hw as (l & H & D).
  assert (S : stored_registry w = l).
  { unfold stored_registry, loadFromLocalStorage. unfold categories_key in H.
    simpl. now rewrite H. }
  destruct a as [|now now' d|itemId u|itemId|name|name|now now' wd];
    unfold perform, run.
  - (* Reload *)
    unfold initializeStorage, bind.
    change (loadFromLocalStorage CATEGORIES [] w) with (stored_registry w, w).
    cbv beta iota zeta. rewrite S.
    destruct l as [|c l]; simpl.
    + exists DEFAULT_CATEGORIES. split; [reflexivity | apply seed_distinct].
    + exact Hw.
  - (* AddItem *)
    apply (registry_ok_same w); [reflexivity | exact Hw].
  - (* UpdateItem *)
    apply (registry_ok_same w); [|exact Hw].
    rewrite updateItem_eq. now destruct (findIndex _ _).
  - (* DeleteItem *)
    apply (registry_ok_same w); [|exact Hw].
    unfold deleteItem, bind.
    change (loadFromLocalStorage ITEMS [] w) with (items_of w, w).
    cbv beta iota zeta. now destruct (_ =? _)%nat.
  - (* AddCategory *)
    rewrite addCategory_eq, S.
    destruct (existsb _ l) eqn:X; [exact Hw|].
    exists (l ++ [name]). split; [reflexivity|].
    unfold distinct_ignoring_case. rewrite map_app. simpl.
    apply NoDup_snoc; [exact D|].
    intros Hin. apply in_map_iff in Hin as (c & E & Hc).
    assert (existsb (fun cat =>
              String.eqb (toLowerCase cat) (toLowerCase name)) l = true)
      by (apply matches_ignoring_case; now exists c).
    congruence.
  - (* DeleteCategory *)
    rewrite deleteCategory_eq, S.
    case_if; [apply (registry_ok_same w); [reflexivity | exact Hw]|].
    cbv zeta. case_if; [exact Hw|].
    eexists. split; [reflexivity|]. now apply distinct_filter.
  - (* Withdraw *)
    apply (registry_ok_same w); [|exact Hw].
    apply withdrawItem_categories.
Qed.

Lemma reachable_registry_ok (w : World) : reachable w -> registry_ok w.
Proof.
  induction 1 as [|a w _ IH].
  - exists DEFAULT_CATEGORIES. split; [reflexivity | apply seed_distinct].
  - now apply perform_registry_ok.
Qed.

(** C6. In every world that the application reaches from an empty storage,
    by any of its operations, no two names of the list of categories are
    equal ignoring case.  There [addCategory] returns [false], and changes
    nothing, exactly when a name of the list equals the given name ignoring
    case; otherwise it puts the name at the end of the list, and the names
    are still distinct ignoring case. *)
Theorem registry_distinct_ignoring_case (w : World) :
  reachable w ->
  distinct_ignoring_case (registry w)
  /\ (forall a : action, distinct_ignoring_case (registry (perform a w)))
  /\ forall categoryName : string,
       let '(result, w') := addCategory categoryName w in
       (result = false
        <-> exists c, In c (registry w)
                      /\ toLowerCase c = toLowerCase categoryName)
       /\ (result = false -> w' = w)
       /\ (result = true ->
           registry w' = registry w ++ [categoryName]
           /\ inventory_items (localStorage w')
              = inventory_items (localStorage w)
           /\ inventory_withdrawals (localStorage w')
              = inventory_withdrawals (localStorage w)
           /\ notificationContainer w' = notificationContainer w)
       /\ distinct_ignoring_case (registry w').
Proof.
  intros R. pose proof (reachable_registry_ok w R) as Hw.
  destruct (registry_ok_stored w Hw) as [E D].
  split; [exact D|]. split.
  { intros a. apply registry_ok_stored. now apply perform_registry_ok. }
  intros name.
  pose proof (perform_registry_ok (AddCategory name) w Hw) as Hw'.
  apply registry_ok_stored in Hw' as [_ D']. unfold perform, run in D'.
  revert D'. rewrite addCategory_eq, E.
  destruct (existsb _ (stored_registry w)) eqn:X; cbn [snd]; intros D'.
  - apply matches_ignoring_case in X.
    split; [split; [intros _; exact X | reflexivity]|].
    split; [reflexivity|]. split; [discriminate|]. exact D'.
  - split.
    { split; [discriminate|]. intros H.
      apply matches_ignoring_case in H. congruence. }
    split; [discriminate|]. split; [|exact D'].
    intros _. now repeat split.
Qed.

Lemma registry_distinct_ignoring_case_witness :
  distinct_ignoring_case (registry (run initializeStorage fresh))
  /\ (forall a : action,
        distinct_ignoring_case
          (registry (perform a (run initializeStorage fresh))))
  /\ forall categoryName : string,
       let '(result, w') :=
         addCategory categoryName (run initializeStorage fresh) in
       (result = false
        <-> exists c, In c (registry (run initializeStorage fresh))
                      /\ toLowerCase c = toLowerCase categoryName)
       /\ (result = false -> w' = run initializeStorage fresh)
       /\ (result = true ->
           registry w'
           = registry (run initializeStorage fresh) ++ [categoryName]
           /\ inventory_items (localStorage w')
              = inventory_items (localStorage (run initializeStorage fresh))
           /\ inventory_withdrawals (localStorage w')
              = inventory_withdrawals
                  (localStorage (run initializeStorage fresh))
           /\ notificationContainer w'
              = notificationContainer (run initializeStorage fresh))
       /\ distinct_ignoring_case (registry w').
Proof.
  apply (registry_distinct_ignoring_case (run initializeStorage fresh)).
  apply reachable_init.
Defined.

Example addCategory_same_ignoring_case :
  fst (addCategory "TOOLS" (run initializeStorage fresh)) = false
  /\ fst (addCategory "Garden" (run initializeStorage fresh)) = true
  /\ registry (run (addCategory "Garden") (run initializeStorage fresh))
     = ["Electronics"; "Office Supplies"; "Tools"; "Uncategorized"; "Garden"]
         %string.
Proof. now repeat split. Qed.

(** ** The date filter *)

Lemma digit_in_10_range (c : ascii) (d : Z) :
  digit_in 10 c = Some d -> 0 <= d <= 9.
Proof.
  destruct c as [[] [] [] [] [] [] [] []]; vm_compute; intros H;
    try discriminate H; injection H as <-; split; discriminate.
Qed.

Lemma take_digits_range (n : nat) (s : string) (acc v : Z) (r : string) :
  take_digits n s acc = Some (v, r) ->
  acc * 10 ^ Z.of_nat n <= v <= acc * 10 ^ Z.of_nat n + 10 ^ Z.of_nat n - 1.
Proof.
  revert s acc. induction n as [|n IH]; intros s acc H.
  - simpl in H. injection H as <- <-. simpl. lia.
  - cbn [take_digits] in H. destruct s as [|c s]; [discriminate|].
    destruct (digit_in 10 c) as [d|] eqn:Hd; [|discriminate].
    apply digit_in_10_range in Hd. apply IH in H.
    rewrite Nat2Z.inj_succ, Z.pow_succ_r by lia.
    pose proof (Z.pow_pos_nonneg 10 (Z.of_nat n) ltac:(lia) ltac:(lia)).
    nia.
Qed.

Lemma bind_opt_Some {A B} (o : option A) (f : A -> option B) (b : B) :
  bind_opt o f = Some b -> exists a, o = Some a /\ f a = Some b.
Proof. destruct o as [a|]; simpl; [eauto | discriminate]. Qed.

Lemma read_ymd_range (s : string) (y m d : Z) (rest : string) :
  read_ymd s = Some (y, m, d, rest) ->
  0 <= y <= 9999 /\ 0 <= m <= 99 /\ 0 <= d <= 99.
Proof.
  unfold read_ymd. intros H.
  apply bind_opt_Some in H as ([y' s1] & Hy & H).
  apply bind_opt_Some in H as (s2 & _ & H).
  apply bind_opt_Some in H as ([m' s3] & Hm & H).
  apply bind_opt_Some in H as (s4 & _ & H).
  apply bind_opt_Some in H as ([d' s5] & Hd & H).
  injection H as -> -> -> _.
  apply take_digits_range in Hy, Hm, Hd.
  change (10 ^ Z.of_nat 4) with 10000 in Hy.
  change (10 ^ Z.of_nat 2) with 100 in Hm, Hd. lia.
Qed.

Lemma read_time_range (s : string) (t : Z) :
  read_time s = Some t -> 0 <= t < msPerDay.
Proof.
  unfold read_time. intros H.
  apply bind_opt_Some in H as (s0 & _ & H).
  apply bind_opt_Some in H as ([h s1] & Hh & H).
  apply bind_opt_Some in H as (s2 & _ & H).
  apply bind_opt_Some in H as ([mi s3] & Hmi & H).
  apply bind_opt_Some in H as (s4 & _ & H).
  apply bind_opt_Some in H as ([sec s5] & Hsec & H).
  apply bind_opt_Some in H as (s6 & _ & H).
  apply bind_opt_Some in H as ([ms s7] & Hms & H).
  apply bind_opt_Some in H as (s8 & _ & H).
  destruct s8; [|discriminate].
  destruct ((h <=? 23) && (mi <=? 59) && (sec <=? 59)) eqn:B; [|discriminate].
  injection H as <-.
  apply andb_prop in B as [B Bs]. apply andb_prop in B as [Bh Bm].
  apply Z.leb_le in Bh, Bm, Bs.
  apply take_digits_range in Hh, Hmi, Hsec, Hms.
  change (10 ^ Z.of_nat 2) with 100 in Hh, Hmi, Hsec.
  change (10 ^ Z.of_nat 3) with 1000 in Hms.
  unfold msPerDay. lia.
Qed.

Lemma days_from_civil_range (y m d : Z) :
  0 <= y <= 9999 -> 1 <= m <= 12 -> 1 <= d <= 31 ->
  -720000 <= days_from_civil y m d <= 2940000.
Proof.
  intros Hy Hm Hd. unfold days_from_civil.
  destruct (m <=? 2) eqn:E; Z.div_mod_to_equations; lia.
Qed.

Lemma days_in_month_le (y m : Z) : days_in_month y m <= 31.
Proof.
  unfold days_in_month.
  destruct (m =? 2); [destruct (is_leap y); lia|].
  destruct ((m =? 4) || (m =? 6) || (m =? 9) || (m =? 11)); lia.
Qed.

(** Every date that [Date_parse] accepts lies in the years 0000 to 9999. *)
Lemma Date_parse_range (s : string) (t : Z) :
  Date_parse s = Int t -> -62208000000000 <= t <= 254102400000000.
Proof.
  unfold Date_parse.
  destruct (read_ymd s) as [[[[y m] d] rest]|] eqn:R; [|discriminate].
  apply read_ymd_range in R as (Hy & _ & _).
  destruct ((1 <=? m) && (m <=? 12) && (1 <=? d) && (d <=? days_in_month y m))
    eqn:B; [|discriminate].
  apply andb_prop in B as [B B4]. apply andb_prop in B as [B B3].
  apply andb_prop in B as [B1 B2].
  apply Z.leb_le in B1, B2, B3, B4.
  pose proof (days_in_month_le y m).
  pose proof (days_from_civil_range y m d Hy ltac:(lia) ltac:(lia)) as Hd.
  unfold msPerDay.
  destruct rest as [|c rest].
  - intros [= <-]. lia.
  - destruct (read_time (String c rest)) as [u|] eqn:T; [|discriminate].
    apply read_time_range in T. unfold msPerDay in T.
    intros [= <-]. lia.
Qed.

(** [setHours(23, 59, 59, 999)] moves a date to the last millisecond of
    its day in local time. *)
Lemma setHours_end_of_day (tza e : Z) :
  Z.abs e <= 8640000000000000 - msPerDay ->
  exists e',
    setHours tza 23 59 59 999 (Int e) = Int e'
    /\ e <= e' < e + msPerDay
    /\ (e' + tza) / msPerDay = (e + tza) / msPerDay
    /\ (e' + tza) mod msPerDay = MakeTime 23 59 59 999.
Proof.
  intros Hb. unfold setHours, TimeClip, MakeTime, msPerDay in *.
  set (e' := (e + tza) / 86400000 * 86400000
             + (23 * 3600000 + 59 * 60000 + 59 * 1000 + 999) - tza).
  assert (Hr : e <= e' < e + 86400000).
  { subst e'. Z.div_mod_to_equations. lia. }
  exists e'. split.
  - destruct (Z.abs e' <=? 8640000000000000) eqn:C; [reflexivity|].
    apply Z.leb_gt in C. lia.
  - split; [exact Hr|].
    subst e'. split; Z.div_mod_to_equations; lia.
Qed.

Lemma int_ge_true (a b : intnum) :
  int_ge a b = true <-> exists x y, a = Int x /\ b = Int y /\ y <= x.
Proof.
  destruct a as [|x], b as [|y]; simpl;
    try (split; [discriminate | intros (? & ? & ? & ? & _); discriminate]).
  rewrite Z.leb_le. split.
  - intros H. now exists x, y.
  - intros (? & ? & [= ->] & [= ->] & H). exact H.
Qed.

Lemma inDateRange_true (tza : Z) (startDate endDate : option string)
  (w : withdrawal) :
  inDateRange tza startDate endDate w = true
  <-> exists t s e,
        Date_parse (Withdrawal.date w) = Int t
        /\ startBound startDate = Int s
        /\ endBound tza endDate = Int e
        /\ s <= t <= e.
Proof.
  unfold inDateRange, int_le. rewrite andb_true_iff, !int_ge_true. split.
  - intros [(t & s & Ht & Hs & Hst) (e & t' & He & Ht' & Hte)].
    rewrite Ht in Ht'. injection Ht' as <-.
    exists t, s, e. now repeat split.
  - intros (t & s & e & Ht & Hs & He & Hst & Hte). split.
    + now exists t, s.
    + now exists e, t.
Qed.

Lemma truthy_Some (s : string) :
  truthy (Some s) = false -> Date_parse s = INaN.
Proof. destruct s; [reflexivity | discriminate]. Qed.

Lemma endBound_given (tza : Z) (s : string) (e : Z) :
  Date_parse s = Int e ->
  exists e',
    endBound tza (Some s) = Int e'
    /\ e <= e' < e + msPerDay
    /\ (e' + tza) / msPerDay = (e + tza) / msPerDay
    /\ (e' + tza) mod msPerDay = MakeTime 23 59 59 999.
Proof.
  intros H. unfold endBound.
  destruct (truthy (Some s)) eqn:T.
  - cbn [or_empty]. rewrite H. apply setHours_end_of_day.
    apply Date_parse_range in H. unfold msPerDay. lia.
  - apply truthy_Some in T. congruence.
Qed.

(** The date filter as a comparison of instants.  It keeps the
    withdrawals whose date lies between the start bound and the end bound,
    both included.  Without a start date the start bound is the epoch,
    1970-01-01; without an end date the end bound comes from 2100-12-31.
    The end bound is the instant that the end date denotes (midnight UTC
    for a day), moved to 23:59:59.999 of the local day that holds that
    instant, under one offset [tza] from UTC; it is never before that
    instant. *)
Theorem date_range_inclusive (tza : Z) (startDate endDate : option string)
  (w : withdrawal) :
  (forall world : World,
     In w (fst (getWithdrawalsByDateRange tza startDate endDate world))
     <-> In w (withdrawals_of world)
         /\ inDateRange tza startDate endDate w = true)
  /\ (inDateRange tza startDate endDate w = true
      <-> exists t s e,
            Date_parse (Withdrawal.date w) = Int t
            /\ startBound startDate = Int s
            /\ endBound tza endDate = Int e
            /\ s <= t <= e)
  /\ (truthy startDate = false -> startBound startDate = Int 0)
  /\ (truthy endDate = false ->
      exists e',
        endBound tza endDate = Int e'
        /\ 4133894400000 <= e' < 4133894400000 + msPerDay)
  /\ (forall (s : string) (e : Z),
        endDate = Some s -> Date_parse s = Int e ->
        exists e',
          endBound tza endDate = Int e'
          /\ e <= e' < e + msPerDay
          /\ (e' + tza) / msPerDay = (e + tza) / msPerDay
          /\ (e' + tza) mod msPerDay = MakeTime 23 59 59 999)
  /\ (forall (s : string) (e : Z),
        endDate = Some s -> Date_parse s = Int e ->
        Date_parse (Withdrawal.date w) = Int e ->
        (inDateRange tza startDate endDate w = true
         <-> int_ge (Int e) (startBound startDate) = true)
        /\ (truthy startDate = false -> 0 <= e ->
            inDateRange tza startDate endDate w = true)).
Proof.
  split.
  { intros world. unfold getWithdrawalsByDateRange, bind.
    change (getAllWithdrawals world) with (withdrawals_of world, world).
    cbn [fst ret]. apply filter_In. }
  split; [apply inDateRange_true|].
  split.
  { intros T. unfold startBound. rewrite T. apply Date_parse_epoch. }
  split.
  { intros T. unfold endBound. rewrite T, Date_parse_far.
    destruct (setHours_end_of_day tza 4133894400000) as (e' & E & R & _).
    - unfold msPerDay. lia.
    - exists e'. split; [exact E | exact R]. }
  split.
  { intros s e -> H. apply endBound_given. exact H. }
  intros s e -> H Hw.
  destruct (endBound_given tza s e H) as (e' & E & R & _).
  assert (K : inDateRange tza startDate (Some s) w = true
              <-> int_ge (Int e) (startBound startDate) = true).
  { unfold inDateRange, int_le. rewrite Hw, E, andb_true_iff.
    split; [tauto|]. intros G. split; [exact G|].
    cbn [int_ge]. apply Z.leb_le. lia. }
  split; [exact K|].
  intros T He. apply K. unfold startBound. rewrite T, Date_parse_epoch.
  cbn [int_ge]. apply Z.leb_le. exact He.
Qed.

(** A start date that is given is the start bound, and the bound is
    included. *)
Lemma startBound_given (s : string) (a : Z) :
  truthy (Some s) = true ->
  Date_parse s = Int a ->
  startBound (Some s) = Int a
  /\ forall (tza : Z) (endDate : option string) (w : withdrawal),
       Date_parse (Withdrawal.date w) = Int a ->
       (inDateRange tza (Some s) endDate w = true
        <-> int_le (Int a) (endBound tza endDate) = true).
Proof.
  intros T H.
  assert (S : startBound (Some s) = Int a).
  { unfold startBound. rewrite T. cbn [or_empty]. exact H. }
  split; [exact S|].
  intros tza endDate w Hw. unfold inDateRange. rewrite Hw, S.
  cbn [int_ge]. rewrite Z.leb_refl. reflexivity.
Qed.

Example same_day_boundary :
  let w : withdrawal :=
    {| Withdrawal.id := "withdraw_1"; Withdrawal.itemId := "item_1";
       Withdrawal.itemName := "Widget"; Withdrawal.category := "Tools";
       Withdrawal.quantity := Some (Int 1);
       Withdrawal.unitCost := Some (Num 1);
       Withdrawal.totalCost := Some (Num 1);
       Withdrawal.date := "2024-03-15T00:00:00.000Z";
       Withdrawal.notes := EmptyString |} in
  inDateRange 0 None (Some "2024-03-15"%string) w = true
  /\ inDateRange (-18000000) None (Some "2024-03-15"%string) w = true
  /\ inDateRange 32400000 (Some "2024-03-15"%string)
       (Some "2024-03-15"%string) w = true.
Proof. vm_compute. now repeat split. Qed.

(** A withdrawal of three Widgets made on 2024-03-15 at 15:00:00 UTC. *)
Definition afternoon : Z := 1710514800000.

Definition afternoon_world : World :=
  snd (withdrawItem afternoon afternoon (widget_request "3") widget_world).

(** The date and the time that the clocks of a zone show at the instant
    [t], [tza] milliseconds ahead of UTC, in the form of [toISOString]
    without its final [Z]. *)
Definition local_clock (tza t : Z) : string :=
  let s := toISOString (t + tza) in
  String.substring 0 (String.length s - 1) s.

(** C7 at the failing input.  In a zone five hours behind UTC all year
    the withdrawal is made at 10:00:00 of 2024-03-15 in local time.  The
    end date 2024-03-15 is read as midnight UTC, which is 19:00:00 of
    2024-03-14 in local time, and [setHours] moves it to 23:59:59.999 of
    that local day, 2024-03-14: the bound is 2024-03-15T04:59:59.999Z,
    and the filter with the end date 2024-03-15 selects nothing.  On UTC
    the same call selects the withdrawal. *)
Theorem end_date_west_of_utc :
  toISOString afternoon = "2024-03-15T15:00:00.000Z"%string
  /\ local_clock (-18000000) afternoon = "2024-03-15T10:00:00.000"%string
  /\ map Withdrawal.date (withdrawals_of afternoon_world)
     = ["2024-03-15T15:00:00.000Z"%string]
  /\ Date_parse "2024-03-15" = Int 1710460800000
  /\ local_clock (-18000000) 1710460800000
     = "2024-03-14T19:00:00.000"%string
  /\ endBound (-18000000) (Some "2024-03-15"%string) = Int 1710478799999
  /\ toISOString 1710478799999 = "2024-03-15T04:59:59.999Z"%string
  /\ local_clock (-18000000) 1710478799999
     = "2024-03-14T23:59:59.999"%string
  /\ fst (getWithdrawalsByDateRange (-18000000) None
            (Some "2024-03-15"%string) afternoon_world) = []
  /\ map Withdrawal.date
       (fst (getWithdrawalsByDateRange 0 None (Some "2024-03-15"%string)
               afternoon_world))
     = ["2024-03-15T15:00:00.000Z"%string].
Proof. vm_compute. now repeat split. Qed.

(** ** The report *)

(** A withdrawal read from storage. *)
Definition loaded_withdrawal (r : withdrawal) : Prop :=
  exists j, r = Withdrawal.parse j.

Lemma withdrawals_of_loaded (w : World) :
  Forall loaded_withdrawal (withdrawals_of w).
Proof.
  unfold withdrawals_of, getAllWithdrawals, loadFromLocalStorage; simpl.
  destruct (inventory_withdrawals (localStorage w)) as [l|]; simpl;
    [|constructor].
  apply Forall_forall. intros r H.
  apply in_map_iff in H as (j & <- & _). now exists j.
Qed.

Lemma Forall_filter {A} (P : A -> Prop) (p : A -> bool) (l : list A) :
  Forall P l -> Forall P (filter p l).
Proof.
  rewrite !Forall_forall. intros H x Hx. apply H.
  apply filter_In in Hx. tauto.
Qed.

Lemma total_cost_finite (l : list withdrawal) (q : Q) :
  Forall loaded_withdrawal l ->
  exists q',
    fold_left
      (fun sum w => num_add sum (num_of_nullable (Withdrawal.totalCost w)))
      l (Num q) = Num q'.
Proof.
  intros H. revert q. induction H as [|r l [j ->] _ IH]; intros q; simpl.
  - now exists q.
  - destruct (Withdrawal.totalCost j); simpl; apply IH.
Qed.

Lemma generateReport_eq (tza : Z) (filters : Filters.t) (w : World) :
  exists selection,
    Forall loaded_withdrawal selection
    /\ generateReport tza filters w = (renderStatistics selection, w).
Proof.
  unfold generateReport, bind.
  change (getAllWithdrawals w) with (withdrawals_of w, w).
  cbv beta iota zeta.
  pose proof (withdrawals_of_loaded w) as L.
  destruct (truthy (Filters.startDate filters)
            || truthy (Filters.endDate filters)).
  - unfold getWithdrawalsByDateRange, bind.
    change (getAllWithdrawals w) with (withdrawals_of w, w).
    cbv beta iota zeta. unfold ret.
    eexists. split; [|reflexivity].
    destruct (truthy (Filters.category filters));
      repeat apply Forall_filter; exact L.
  - unfold ret. eexists. split; [|reflexivity].
    destruct (truthy (Filters.category filters));
      repeat apply Forall_filter; exact L.
Qed.

Lemma renderStatistics_cards (l : list withdrawal) (s : statistics) :
  renderStatistics l = StatCards s ->
  l <> []
  /\ s = {| totalWithdrawals := List.length l;
            totalCost :=
              fold_left
                (fun sum w =>
                   num_add sum (num_of_nullable (Withdrawal.totalCost w)))
                l (Num 0);
            totalQuantity :=
              fold_left
                (fun sum w =>
                   int_add sum (int_of_nullable (Withdrawal.quantity w)))
                l (Int 0);
            avgCost :=
              num_div
                (fold_left
                   (fun sum w =>
                      num_add sum (num_of_nullable (Withdrawal.totalCost w)))
                   l (Num 0))
                (number_of_nat (List.length l)) |}.
Proof.
  destruct l as [|r l]; [discriminate|].
  intros H. split; [discriminate|].
  unfold renderStatistics in H. cbn [List.length Nat.eqb] in H.
  symmetry. injection H as H. exact H.
Qed.

(** C8. For an empty selection [renderStatistics] shows the no-data
    message and computes no figure.  The cards are computed for a
    selection that is not empty only, where the average is the total
    cost divided by the number of withdrawals, which is not zero; the
    quotient of 0 by 0, the [NaN] that is avoided, is never taken.  On the
    withdrawals read from storage the average of a report is not [NaN]. *)
Theorem report_without_data :
  renderStatistics []
  = EmptyMessage "No data available for the selected filters."
  /\ (forall (withdrawals : list withdrawal) (s : statistics),
        renderStatistics withdrawals = StatCards s ->
        withdrawals <> []
        /\ totalWithdrawals s = List.length withdrawals
        /\ (0 < totalWithdrawals s)%nat
        /\ avgCost s
           = num_div (totalCost s) (number_of_nat (totalWithdrawals s)))
  /\ (forall withdrawals : list withdrawal,
        withdrawals <> [] ->
        exists s, renderStatistics withdrawals = StatCards s)
  /\ num_div (Num 0) (number_of_nat 0) = NaN
  /\ (forall (tza : Z) (filters : Filters.t) (w : World) (s : statistics),
        fst (generateReport tza filters w) = StatCards s ->
        is_NaN (avgCost s) = false).
Proof.
  split; [reflexivity|]. split.
  { intros l s H. apply renderStatistics_cards in H as [N ->].
    cbn [totalWithdrawals avgCost totalCost].
    split; [exact N|]. split; [reflexivity|]. split; [|reflexivity].
    destruct l; [congruence | simpl; lia]. }
  split.
  { intros l H. destruct l as [|r l]; [congruence|].
    unfold renderStatistics. cbn [List.length Nat.eqb]. eauto. }
  split; [reflexivity|].
  intros tza filters w s H.
  destruct (generateReport_eq tza filters w) as (l & L & E).
  rewrite E in H. cbn [fst] in H.
  apply renderStatistics_cards in H as [N ->]. cbn [avgCost].
  destruct (total_cost_finite l 0 L) as (q & ->).
  unfold num_div, number_of_nat, Qzerob. cbn [Qnum inject_Z].
  destruct (Z.of_nat (List.length l) =? 0) eqn:Z0; [|reflexivity].
  apply Z.eqb_eq in Z0. destruct l; [congruence | simpl in Z0; lia].
Qed.

Example report_scenario :
  renderStatistics
    [recorded 1 2 (widget_request "3") widget;
     recorded 3 4 (widget_request "1") widget]
  = StatCards
      {| totalWithdrawals := 2; totalCost := Num 10;
         totalQuantity := Int 4; avgCost := Num 5 |}.
Proof. reflexivity. Qed.

(** ** The theorems at concrete inputs *)

Definition boundary_withdrawal : withdrawal :=
  {| Withdrawal.id := "withdraw_1"; Withdrawal.itemId := "item_1";
     Withdrawal.itemName := "Widget"; Withdrawal.category := "Tools";
     Withdrawal.quantity := Some (Int 1);
     Withdrawal.unitCost := Some (Num 1);
     Withdrawal.totalCost := Some (Num 1);
     Withdrawal.date := "2024-03-15T00:00:00.000Z";
     Withdrawal.notes := EmptyString |}.

(** In a zone five hours behind UTC, with no start date: the withdrawal
    dated 2024-03-15T00:00:00.000Z, midnight UTC, is kept by the end date
    2024-03-15. *)
Lemma date_range_inclusive_witness :
  inDateRange (-18000000) None (Some "2024-03-15"%string) boundary_withdrawal
  = true.
Proof.
  destruct (date_range_inclusive (-18000000) None (Some "2024-03-15"%string)
              boundary_withdrawal) as (_ & _ & _ & _ & _ & H).
  destruct (H "2024-03-15"%string 1710460800000 eq_refl eq_refl eq_refl)
    as [_ K].
  apply K; [reflexivity | lia].
Defined.

Definition no_filters : Filters.t :=
  {| Filters.startDate := None; Filters.endDate := None;
     Filters.category := None |}.

(** The report after the withdrawal of three Widgets. *)
Lemma report_without_data_witness :
  is_NaN
    (avgCost
       {| totalWithdrawals := 1; totalCost := Num (15 # 2);
          totalQuantity := Int 3; avgCost := Num (15 # 2) |}) = false.
Proof.
  destruct report_without_data as (_ & _ & _ & _ & H).
  apply (H 0 no_filters (snd widget_withdraw3)). reflexivity.
Defined.

(** The patch with a description only, on the Widget: id, date, name and
    category stay, the description is that of the patch, and the numbers
    are what [parseInt] and [parseFloat] read from the patch. *)
Lemma updateItem_merges_patch_witness :
  exists new : item,
    nth_error
      (items_of (snd (updateItem "item_1000" description_patch widget_world)))
      0 = Some new
    /\ Item.id new = Item.id widget
    /\ Item.dateAdded new = Item.dateAdded widget
    /\ Item.name new = Item.name widget
    /\ Item.category new = Item.category widget
    /\ Item.description new = "blue"%string
    /\ Item.quantity new
       = int_parse_json (json_of_int (Some (parseInt VUndefined)))
    /\ Item.unitCost new
       = num_parse_json (json_of_num (Some (parseFloat VUndefined))).
Proof.
  pose proof (updateItem_merges_patch "item_1000" description_patch
                widget_world) as H.
  change (fst (getItem "item_1000" widget_world)) with (Some widget) in H.
  cbv beta iota in H.
  destruct H as (index & new & Hn & _ & Hnew & Hid & Hdate & Hname & Hcat & _
                 & _ & _ & _ & _ & Hdesc & Hq & Hc & _).
  assert (index = O) as ->.
  { destruct index as [|k]; [reflexivity|].
    change (items_of widget_world) with [widget] in Hn.
    destruct k; discriminate Hn. }
  exists new. split; [exact Hnew|].
  split; [exact (Hid eq_refl)|]. split; [exact (Hdate eq_refl)|].
  split; [exact (Hname eq_refl)|]. split; [exact (Hcat eq_refl)|].
  split; [exact (Hdesc _ eq_refl)|].
  split; [exact Hq | exact Hc].
Defined.

(** Deleting the unused category Tools. *)
Lemma deleteCategory_blocked_iff_in_use_witness :
  fst (deleteCategory "Tools" ghost_world) = true
  /\ ~ In "Tools"%string
         (stored_registry (snd (deleteCategory "Tools" ghost_world))).
Proof.
  pose proof (deleteCategory_blocked_iff_in_use "Tools" ghost_world) as H.
  destruct (deleteCategory "Tools" ghost_world) as [result w'].
  destruct H as (_ & _ & H & _).
  destruct H as (R & _ & N & _).
  - intros (i & [<-|[]] & Hc). discriminate Hc.
  - right. right. left. reflexivity.
  - split; [exact R | exact N].
Defined.

(** * Further properties *)

(** ** Items: adding and deleting *)

Lemma loaded_list_roundtrip (l : list item) :
  Forall loaded l -> map Item.parse (map Item.stringify l) = l.
Proof.
  induction 1 as [|i l Hi _ IH]; simpl; [reflexivity|].
  now rewrite loaded_roundtrip, IH.
Qed.

Lemma items_of_all_loaded (w : World) : Forall loaded (items_of w).
Proof. apply Forall_forall. apply items_of_loaded. Qed.

Lemma filter_all {A} (p : A -> bool) (l : list A) :
  (forall x, In x l -> p x = true) -> filter p l = l.
Proof.
  induction l as [|y l IH]; simpl; intros H; [reflexivity|].
  rewrite (H y (or_introl eq_refl)). f_equal. apply IH.
  intros x Hx. apply H. now right.
Qed.

Lemma find_filter_out {A} (p : A -> bool) (l : list A) :
  find p (filter (fun x => negb (p x)) l) = None.
Proof.
  induction l as [|y l IH]; simpl; [reflexivity|].
  destruct (p y) eqn:E; simpl; [exact IH|]. now rewrite E.
Qed.

Lemma deleteItem_eq (itemId : string) (w : World) :
  deleteItem itemId w =
  let filteredItems := filter (fun i => negb (has_id itemId i)) (items_of w) in
  if (List.length filteredItems =? List.length (items_of w))%nat
  then (false, w)
  else (true, set_items filteredItems w).
Proof.
  unfold deleteItem, bind.
  change (loadFromLocalStorage ITEMS [] w) with (items_of w, w).
  cbv beta iota zeta. case_if; reflexivity.
Qed.

Lemma no_such_item (itemId : string) (l : list item) :
  (forall x, In x l -> negb (has_id itemId x) = true)
  <-> ~ exists i, In i l /\ Item.id i = itemId.
Proof.
  split.
  - intros H (i & Hin & Hid). specialize (H i Hin).
    unfold has_id in H. rewrite Hid, String.eqb_refl in H. discriminate.
  - intros H x Hx. apply negb_true_iff.
    destruct (has_id itemId x) eqn:E; [|reflexivity].
    exfalso. apply H. exists x. split; [exact Hx|].
    now apply String_eqb_eq.
Qed.

(** What is left of the items after [deleteItem]. *)
Lemma deleteItem_items (itemId : string) (w : World) :
  items_of (snd (deleteItem itemId w))
  = filter (fun i => negb (has_id itemId i)) (items_of w).
Proof.
  rewrite deleteItem_eq. cbv zeta. case_if.
  - cbn [snd]. symmetry. apply filter_all.
    now apply (proj1 (filter_keeps_all _ _)).
  - cbn [snd]. rewrite items_of_set_items. apply loaded_list_roundtrip.
    apply Forall_filter. apply items_of_all_loaded.
Qed.

(** X1. [deleteItem] returns [true] exactly when some item has the given
    id.  It then removes every item of that id and keeps the others in
    their order, so that [getItem] finds none; the categories, the
    withdrawals and the notifications are as before.  When it returns
    [false] nothing has changed. *)
Theorem deleteItem_removes (itemId : string) (w : World) :
  let '(result, w') := deleteItem itemId w in
  (result = true <-> exists i, In i (items_of w) /\ Item.id i = itemId)
  /\ (result = false -> w' = w)
  /\ items_of w' = filter (fun i => negb (has_id itemId i)) (items_of w)
  /\ fst (getItem itemId w') = None
  /\ inventory_categories (localStorage w')
     = inventory_categories (localStorage w)
  /\ inventory_withdrawals (localStorage w')
     = inventory_withdrawals (localStorage w)
  /\ notificationContainer w' = notificationContainer w.
Proof.
  pose proof (deleteItem_items itemId w) as I.
  destruct (deleteItem itemId w) as [result w'] eqn:E. cbn [snd] in I.
  assert (G : fst (getItem itemId w') = None).
  { rewrite getItem_eq. cbn [fst]. rewrite I. apply find_filter_out. }
  rewrite deleteItem_eq in E. cbv zeta in E.
  destruct (_ =? _)%nat eqn:L in E; injection E as <- <-.
  - pose proof (proj1 (no_such_item _ _) (proj1 (filter_keeps_all _ _) L)) as N.
    split; [split; [discriminate | intros H; contradiction]|].
    now repeat split.
  - split.
    { split; [intros _ | reflexivity].
      destruct (find (has_id itemId) (items_of w)) as [i|] eqn:F.
      - apply find_In in F as [Hin Hid]. exists i. split; [exact Hin|].
        now apply String_eqb_eq.
      - exfalso.
        assert (K : forall x, In x (items_of w) ->
                      negb (has_id itemId x) = true).
        { intros x Hx. apply negb_true_iff.
          now apply (find_none _ _ F). }
        apply (proj2 (filter_keeps_all _ _)) in K. congruence. }
    split; [discriminate|]. now repeat split.
Qed.

(** X2. A second [deleteItem] of the same id returns [false] and changes
    nothing. *)
Theorem deleteItem_twice (itemId : string) (w : World) :
  deleteItem itemId (snd (deleteItem itemId w))
  = (false, snd (deleteItem itemId w)).
Proof.
  rewrite (deleteItem_eq itemId (snd (deleteItem itemId w))). cbv zeta.
  rewrite deleteItem_items.
  assert (K : forall x,
            In x (filter (fun i => negb (has_id itemId i)) (items_of w)) ->
            negb (has_id itemId x) = true).
  { intros x Hx. apply filter_In in Hx. tauto. }
  apply (proj2 (filter_keeps_all _ _)) in K. now rewrite K.
Qed.

Lemma addItem_eq (now now' : Z) (itemData : ItemData.t) (w : World) :
  exists new : item,
    addItem now now' itemData w = (new, set_items (items_of w ++ [new]) w)
    /\ Item.id new = ("item_" ++ int_to_string (Int now))%string
    /\ Item.name new = ItemData.name itemData
    /\ Item.category new = ItemData.category itemData
    /\ Item.quantity new = Some (parseInt (ItemData.quantity itemData))
    /\ Item.unitCost new = Some (parseFloat (ItemData.unitCost itemData))
    /\ Item.dateAdded new = toISOString now'
    /\ Item.description new = or_empty (ItemData.description itemData).
Proof.
  exists {| Item.id := ("item_" ++ int_to_string (Int now))%string;
            Item.name := ItemData.name itemData;
            Item.category := ItemData.category itemData;
            Item.quantity := Some (parseInt (ItemData.quantity itemData));
            Item.unitCost := Some (parseFloat (ItemData.unitCost itemData));
            Item.dateAdded := toISOString now';
            Item.description := or_empty (ItemData.description itemData) |}.
  split; [reflexivity|]. cbn [Item.id Item.name Item.category Item.quantity
    Item.unitCost Item.dateAdded Item.description].
  repeat (split; [reflexivity|]). reflexivity.
Qed.

Lemma find_snoc {A} (p : A -> bool) (l : list A) (x : A) :
  find p (l ++ [x])
  = match find p l with
    | Some y => Some y
    | None => if p x then Some x else None
    end.
Proof.
  induction l as [|y l IH]; simpl; [reflexivity|].
  destruct (p y); [reflexivity | exact IH].
Qed.

(** X3. [addItem] puts the new item after the stored ones, which stay as
    they are, and returns it with the id ["item_" + Date.now()].  What is
    stored of it is what JSON keeps: a quantity or a cost that did not
    parse to a finite number is [null].  [getItem] of the returned id finds
    the new item unless an item of that id (made in the same millisecond)
    is stored already: then it still finds the older one. *)
Theorem addItem_appends (now now' : Z) (itemData : ItemData.t) (w : World) :
  let '(new, w') := addItem now now' itemData w in
  let stored := Item.parse (Item.stringify new) in
  items_of w' = items_of w ++ [stored]
  /\ Item.id new = ("item_" ++ int_to_string (Int now))%string
  /\ Item.name stored = ItemData.name itemData
  /\ Item.category stored = ItemData.category itemData
  /\ Item.description stored = or_empty (ItemData.description itemData)
  /\ Item.dateAdded stored = toISOString now'
  /\ Item.quantity stored
     = int_parse_json
         (json_of_int (Some (parseInt (ItemData.quantity itemData))))
  /\ Item.unitCost stored
     = num_parse_json
         (json_of_num (Some (parseFloat (ItemData.unitCost itemData))))
  /\ fst (getItem (Item.id new) w')
     = match fst (getItem (Item.id new) w) with
       | Some older => Some older
       | None => Some stored
       end
  /\ inventory_categories (localStorage w')
     = inventory_categories (localStorage w)
  /\ inventory_withdrawals (localStorage w')
     = inventory_withdrawals (localStorage w)
  /\ notificationContainer w' = notificationContainer w.
Proof.
  destruct (addItem_eq now now' itemData w)
    as (new & E & Hid & Hn & Hc & Hq & Hu & Hd & He).
  rewrite E. cbv zeta.
  assert (I : items_of (set_items (items_of w ++ [new]) w)
              = items_of w ++ [Item.parse (Item.stringify new)]).
  { rewrite items_of_set_items, !map_app.
    exact (f_equal (fun l => l ++ [Item.parse (Item.stringify new)])
             (loaded_list_roundtrip _ (items_of_all_loaded w))). }
  split; [exact I|]. split; [exact Hid|].
  split; [exact Hn|]. split; [exact Hc|]. split; [exact He|].
  split; [exact Hd|].
  split.
  { change (Item.quantity (Item.parse (Item.stringify new)))
      with (int_parse_json (json_of_int (Item.quantity new))).
    now rewrite Hq. }
  split.
  { change (Item.unitCost (Item.parse (Item.stringify new)))
      with (num_parse_json (json_of_num (Item.unitCost new))).
    now rewrite Hu. }
  split; [|split; [reflexivity|split; reflexivity]].
  rewrite !getItem_eq. cbn [fst]. rewrite I, find_snoc.
  destruct (find _ (items_of w)); [reflexivity|].
  change (has_id (Item.id new) (Item.parse (Item.stringify new)))
    with (String.eqb (Item.id new) (Item.id new)).
  now rewrite String.eqb_refl.
Qed.

(** ** The withdrawal log and the reports *)

Lemma withdrawals_log_snoc (l : list withdrawal) (r : withdrawal) (w : World) :
  withdrawals_of (set_withdrawals (withdrawals_of w ++ [r]) w)
  = withdrawals_of w ++ [Withdrawal.parse (Withdrawal.stringify r)].
Proof.
  rewrite withdrawals_of_set_withdrawals, !map_app.
  exact (f_equal
           (fun l => l ++ [Withdrawal.parse (Withdrawal.stringify r)])
           (withdrawals_of_roundtrip w)).
Qed.

(** The log after [withdrawItem], by its result. *)
Lemma withdrawItem_log (now now' : Z) (wd : WithdrawalData.t) (w : World) :
  withdrawals_of (snd (withdrawItem now now' wd w))
  = match fst (withdrawItem now now' wd w) with
    | Some r =>
        withdrawals_of w ++ [Withdrawal.parse (Withdrawal.stringify r)]
    | None => withdrawals_of w
    end.
Proof.
  destruct (find (has_id (WithdrawalData.itemId wd)) (items_of w))
    as [i|] eqn:H.
  - destruct (int_gt (parseInt (WithdrawalData.quantity wd))
                (int_of_nullable (Item.quantity i))) eqn:G.
    + now rewrite (withdrawItem_reject now now' wd w i H G).
    + destruct (withdrawItem_accept now now' wd w i H G) as (k & _ & _ & E).
      rewrite E. cbn [fst snd].
      rewrite withdrawals_of_set_items. apply (withdrawals_log_snoc []).
  - now rewrite (withdrawItem_missing now now' wd w H).
Qed.

Lemma perform_log (a : action) (w : World) :
  match a with
  | Withdraw now now' wd =>
      withdrawals_of (perform a w)
      = match fst (withdrawItem now now' wd w) with
        | Some r =>
            withdrawals_of w ++ [Withdrawal.parse (Withdrawal.stringify r)]
        | None => withdrawals_of w
        end
  | _ => withdrawals_of (perform a w) = withdrawals_of w
  end.
Proof.
  destruct a as [|now now' d|itemId u|itemId|name|name|now now' wd];
    unfold perform, run.
  - unfold initializeStorage, bind.
    change (loadFromLocalStorage CATEGORIES [] w) with (stored_registry w, w).
    cbv beta iota zeta. now destruct (isEmpty (stored_registry w)).
  - reflexivity.
  - rewrite updateItem_eq. now destruct (findIndex _ _).
  - rewrite deleteItem_eq. cbv zeta. now case_if.
  - rewrite addCategory_eq. now case_if.
  - rewrite deleteCategory_eq. case_if; [reflexivity|]. cbv zeta. now case_if.
  - apply withdrawItem_log.
Qed.

Definition perform_all (l : list action) (w : World) : World :=
  fold_left (fun w a => perform a w) l w.

(** X4. The withdrawal log only grows at its end.  A successful
    [withdrawItem] adds its record after the records that are there; a
    refused one, and every other operation (reload, adding, updating and
    deleting items, adding and deleting categories), leaves the log as it
    is.  So after any sequence of operations the log starts with the
    records it had before. *)
Theorem withdrawal_log_append_only (w : World) :
  (forall a : action,
     match a with
     | Withdraw now now' wd =>
         withdrawals_of (perform a w)
         = match fst (withdrawItem now now' wd w) with
           | Some r =>
               withdrawals_of w
                 ++ [Withdrawal.parse (Withdrawal.stringify r)]
           | None => withdrawals_of w
           end
     | _ => withdrawals_of (perform a w) = withdrawals_of w
     end)
  /\ (forall l : list action,
        exists added,
          withdrawals_of (perform_all l w) = withdrawals_of w ++ added
          /\ (List.length added <= List.length l)%nat).
Proof.
  split; [intros a; apply perform_log|].
  intros l. revert w. induction l as [|a l IH]; intros w.
  - exists []. split; [now rewrite app_nil_r | simpl; lia].
  - destruct (IH (perform a w)) as (added & E & L).
    unfold perform_all in *. cbn [fold_left]. rewrite E.
    pose proof (perform_log a w) as P.
    destruct a;
      try (exists added; rewrite P; split; [reflexivity | simpl; lia]).
    destruct (fst (withdrawItem now now' withdrawalData w)) as [r|].
    + exists (Withdrawal.parse (Withdrawal.stringify r) :: added).
      rewrite P, <- app_assoc. split; [reflexivity | simpl; lia].
    + exists added. rewrite P. split; [reflexivity | simpl; lia].
Qed.

Lemma generateReport_log (tza : Z) (filters : Filters.t) (w w' : World) :
  withdrawals_of w = withdrawals_of w' ->
  fst (generateReport tza filters w) = fst (generateReport tza filters w').
Proof.
  intros E. unfold generateReport, bind, getWithdrawalsByDateRange, bind.
  change (getAllWithdrawals w) with (withdrawals_of w, w).
  change (getAllWithdrawals w') with (withdrawals_of w', w').
  cbv beta iota zeta.
  destruct (truthy (Filters.startDate filters)
            || truthy (Filters.endDate filters)).
  - change (getAllWithdrawals w) with (withdrawals_of w, w).
    change (getAllWithdrawals w') with (withdrawals_of w', w').
    cbv beta iota zeta. now rewrite E.
  - now rewrite E.
Qed.

(** X5. The reports are computed from the withdrawal log alone: the
    statistics of [generateReport], whatever the filters, are the same
    before and after any operation other than a withdrawal, so that
    editing or deleting an item, or a category, does not change what was
    reported of the past. *)
Theorem reports_keep_history (tza : Z) (filters : Filters.t) (a : action)
  (w : World) :
  match a with
  | Withdraw _ _ _ => True
  | _ =>
      fst (generateReport tza filters (perform a w))
      = fst (generateReport tza filters w)
      /\ fst (getWithdrawalsByCategory (or_empty (Filters.category filters))
                (perform a w))
         = fst (getWithdrawalsByCategory (or_empty (Filters.category filters))
                  w)
  end.
Proof.
  pose proof (perform_log a w) as P.
  destruct a; try exact I;
    (split; [now apply generateReport_log|]);
    unfold getWithdrawalsByCategory, bind;
    change (getAllWithdrawals ?x) with (withdrawals_of x, x);
    cbv beta iota zeta; cbn [fst ret]; now rewrite P.
Qed.

(** ** Storage *)

Lemma initializeStorage_eq (w : World) :
  run initializeStorage w
  = if isEmpty (stored_registry w)
    then set_categories DEFAULT_CATEGORIES w
    else w.
Proof.
  unfold run, initializeStorage, bind.
  change (loadFromLocalStorage CATEGORIES [] w) with (stored_registry w, w).
  cbv beta iota zeta. now destruct (isEmpty (stored_registry w)).
Qed.

Lemma stored_registry_key (w : World) :
  stored_registry w <> [] ->
  inventory_categories (localStorage w) = Some (stored_registry w).
Proof.
  unfold stored_registry, loadFromLocalStorage. simpl.
  now destruct (inventory_categories (localStorage w)).
Qed.

(** X6. [initializeStorage] writes the four default categories when no
    category is stored (no list, or an empty one) and otherwise changes
    nothing; it never touches the items, the withdrawals or the
    notifications.  Afterwards the list of categories is stored and not
    empty, so that [getAllCategories] reads the stored list, and a second
    run changes nothing. *)
Theorem initializeStorage_seeds_once (w : World) :
  let w' := run initializeStorage w in
  (stored_registry w = [] -> stored_registry w' = DEFAULT_CATEGORIES)
  /\ (stored_registry w <> [] -> w' = w)
  /\ stored_registry w' <> []
  /\ registry w' = stored_registry w'
  /\ inventory_items (localStorage w') = inventory_items (localStorage w)
  /\ inventory_withdrawals (localStorage w')
     = inventory_withdrawals (localStorage w)
  /\ notificationContainer w' = notificationContainer w
  /\ run initializeStorage w' = w'.
Proof.
  cbv zeta. rewrite !initializeStorage_eq.
  destruct (stored_registry w) as [|c l] eqn:S; cbn [isEmpty].
  - rewrite stored_registry_set_categories. cbn [isEmpty].
    split; [reflexivity|]. split; [congruence|]. split; [discriminate|].
    now repeat split.
  - rewrite S. cbn [isEmpty].
    split; [discriminate|]. split; [reflexivity|]. split; [discriminate|].
    split; [|now repeat split].
    unfold registry, getAllCategories, loadFromLocalStorage. simpl.
    rewrite (stored_registry_key w) by (rewrite S; discriminate).
    exact S.
Qed.

(** ** Withdrawing, in general *)

(** X8. [withdrawItem] returns [null] in two cases only: no item has the
    given id, or the parsed quantity is greater than the quantity of the
    item (a [null] quantity counting as 0).  In both the storage is left
    as it was and one error is shown; when it returns a record it shows
    nothing. *)
Theorem withdrawItem_refusals (now now' : Z) (wd : WithdrawalData.t)
  (w : World) :
  let '(result, w') := withdrawItem now now' wd w in
  (result = None
   <-> fst (getItem (WithdrawalData.itemId wd) w) = None
       \/ exists i,
            fst (getItem (WithdrawalData.itemId wd) w) = Some i
            /\ int_gt (parseInt (WithdrawalData.quantity wd))
                 (int_of_nullable (Item.quantity i)) = true)
  /\ (result = None ->
      localStorage w' = localStorage w
      /\ exists text,
           notificationContainer w'
           = notificationContainer w
               ++ [{| message := text; type := "error" |}])
  /\ (result <> None -> notificationContainer w' = notificationContainer w).
Proof.
  rewrite getItem_eq. cbn [fst].
  destruct (find (has_id (WithdrawalData.itemId wd)) (items_of w))
    as [i|] eqn:H.
  - destruct (int_gt (parseInt (WithdrawalData.quantity wd))
                (int_of_nullable (Item.quantity i))) eqn:G.
    + rewrite (withdrawItem_reject now now' wd w i H G).
      split; [split; [intros _; right; exists i; now split | reflexivity]|].
      split; [|congruence]. intros _. split; [reflexivity|].
      eexists. reflexivity.
    + destruct (withdrawItem_accept now now' wd w i H G) as (k & _ & _ & E).
      rewrite E. split.
      { split; [discriminate|].
        intros [D|(j & [= <-] & D)]; [discriminate | congruence]. }
      split; [discriminate | reflexivity].
  - rewrite (withdrawItem_missing now now' wd w H).
    split; [split; [intros _; now left | reflexivity]|].
    split; [|congruence]. intros _. split; [reflexivity|].
      eexists. reflexivity.
Qed.

(** X9. An accepted withdrawal changes one thing among the items: the
    quantity of the first item of the given id, which becomes what
    [updateItem] reads with [parseInt] from the old quantity minus the
    parsed one (whatever its sign), as JSON keeps it.  The other fields of
    that item, every other item and the categories are as before. *)
Theorem withdrawItem_changes_quantity_only (now now' : Z)
  (wd : WithdrawalData.t) (w : World) (i : item) :
  fst (getItem (WithdrawalData.itemId wd) w) = Some i ->
  int_gt (parseInt (WithdrawalData.quantity wd))
    (int_of_nullable (Item.quantity i)) = false ->
  let w' := snd (withdrawItem now now' wd w) in
  exists (index : nat) (i' : item),
    nth_error (items_of w) index = Some i
    /\ nth_error (items_of w') index = Some i'
    /\ Item.quantity i'
       = int_parse_json
           (json_of_int
              (Some (parseInt
                       (value_of_int
                          (int_sub (int_of_nullable (Item.quantity i))
                             (parseInt (WithdrawalData.quantity wd)))))))
    /\ Item.id i' = Item.id i
    /\ Item.name i' = Item.name i
    /\ Item.category i' = Item.category i
    /\ Item.unitCost i' = Item.unitCost i
    /\ Item.dateAdded i' = Item.dateAdded i
    /\ Item.description i' = Item.description i
    /\ (forall k, k <> index ->
          nth_error (items_of w') k = nth_error (items_of w) k)
    /\ List.length (items_of w') = List.length (items_of w)
    /\ inventory_categories (localStorage w')
       = inventory_categories (localStorage w).
Proof.
  intros H G. rewrite getItem_eq in H. cbn [fst] in H. cbv zeta.
  destruct (withdrawItem_accept now now' wd w i H G) as (index & Hi & Hn & E).
  rewrite E. cbn [snd].
  destruct (find_In _ _ _ H) as [Hin _].
  pose proof (items_of_loaded w i Hin) as [j Hj].
  exists index, (Item.parse (Item.stringify (merge i (decrement wd i)))).
  split; [exact Hn|].
  rewrite items_of_set_items, map_map.
  split.
  { rewrite nth_error_map, (update_at_nth_same _ _ _ _ Hn). reflexivity. }
  split.
  { change (Item.quantity
              (Item.parse (Item.stringify (merge i (decrement wd i)))))
      with (int_parse_json
              (json_of_int
                 (Some (parseInt
                          (value_of_int
                             (int_sub (int_of_nullable (Item.quantity i))
                                (parseInt (WithdrawalData.quantity wd)))))))).
    reflexivity. }
  do 3 (split; [reflexivity|]).
  split.
  { change (Item.unitCost
              (Item.parse (Item.stringify (merge i (decrement wd i)))))
      with (num_parse_json
              (json_of_num
                 (Some (parseFloat (value_of_nullable (Item.unitCost i)))))).
    rewrite parseFloat_value_of_nullable, Hj.
    unfold Item.parse. cbn [Item.unitCost].
    now destruct (Item.unitCost j). }
  do 2 (split; [reflexivity|]).
  split.
  { intros k Hk. rewrite nth_error_map, update_at_nth_other by congruence.
    apply nth_error_roundtrip. }
  split; [|reflexivity].
  rewrite length_map. apply update_at_length.
Qed.

Lemma withdrawItem_changes_quantity_only_witness :
  exists (index : nat) (i' : item),
    nth_error (items_of widget_world) index = Some widget
    /\ nth_error
         (items_of
            (snd (withdrawItem 2000 2001 (widget_request "-3") widget_world)))
         index = Some i'
    /\ Item.quantity i'
       = int_parse_json
           (json_of_int
              (Some (parseInt
                       (value_of_int
                          (int_sub (int_of_nullable (Item.quantity widget))
                             (parseInt (VStr "-3")))))))
    /\ Item.id i' = Item.id widget
    /\ Item.name i' = Item.name widget
    /\ Item.category i' = Item.category widget
    /\ Item.unitCost i' = Item.unitCost widget
    /\ Item.dateAdded i' = Item.dateAdded widget
    /\ Item.description i' = Item.description widget
    /\ (forall k, k <> index ->
          nth_error
            (items_of
               (snd (withdrawItem 2000 2001 (widget_request "-3")
                       widget_world))) k
          = nth_error (items_of widget_world) k)
    /\ List.length
         (items_of
            (snd (withdrawItem 2000 2001 (widget_request "-3") widget_world)))
       = List.length (items_of widget_world)
    /\ inventory_categories
         (localStorage
            (snd (withdrawItem 2000 2001 (widget_request "-3") widget_world)))
       = inventory_categories (localStorage widget_world).
Proof.
  apply (withdrawItem_changes_quantity_only 2000 2001 (widget_request "-3")
           widget_world widget); reflexivity.
Defined.

(** ** The forms *)

Lemma items_of_snoc (new : item) (w : World) :
  items_of (set_items (items_of w ++ [new]) w)
  = items_of w ++ [Item.parse (Item.stringify new)].
Proof.
  rewrite items_of_set_items, !map_app.
  exact (f_equal (fun l => l ++ [Item.parse (Item.stringify new)])
           (loaded_list_roundtrip _ (items_of_all_loaded w))).
Qed.

Lemma loaded_quantity (i : item) :
  loaded i -> Item.quantity i = None \/ exists Q, Item.quantity i = Some (Int Q).
Proof.
  intros [j ->]. unfold Item.parse. cbn [Item.quantity].
  destruct (Item.quantity j) as [z|]; [right; now exists z | now left].
Qed.

(** X10. When [updateWithdrawPreview] leaves the button of the withdrawal
    form enabled, for the chosen item and the text of the quantity field,
    [withdrawItem] accepts the same request: the text reads as an integer
    [q] with [0 < q <= Q], [Q] the quantity of the item, a record of
    quantity [q] is returned and nothing is notified.  For a stock [Q] of
    at most 2^53 the quantity left is [Q - q], which is not negative. *)
Theorem enabled_button_withdraws (now now' : Z) (wd : WithdrawalData.t)
  (text : string) (w : World) :
  WithdrawalData.quantity wd = VStr text ->
  fst (updateWithdrawPreview (WithdrawalData.itemId wd) text w) = Some false ->
  exists (r : withdrawal) (w' : World) (Q q : Z),
    withdrawItem now now' wd w = (Some r, w')
    /\ option_map Item.quantity (fst (getItem (WithdrawalData.itemId wd) w))
       = Some (Some (Int Q))
    /\ parseInt (VStr text) = Int q
    /\ 0 < q <= Q
    /\ Withdrawal.quantity r = Some (Int q)
    /\ (Q <= 2 ^ 53 ->
        option_map Item.quantity
          (fst (getItem (WithdrawalData.itemId wd) w'))
        = Some (Some (Int (Q - q))))
    /\ 0 <= Q - q
    /\ notificationContainer w' = notificationContainer w.
Proof.
  intros Hq P. unfold updateWithdrawPreview in P.
  destruct (isEmpty _); [discriminate P|].
  unfold bind in P. rewrite getItem_eq in P.
  destruct (find (has_id (WithdrawalData.itemId wd)) (items_of w))
    as [i|] eqn:F; [|discriminate P].
  cbn [fst ret] in P. injection P as P.
  apply orb_false_iff in P as [P1 P2].
  destruct (find_In _ _ _ F) as [Hin _].
  destruct (parseInt_string text) as [|q] eqn:Eq;
    [cbv in P1; discriminate P1|].
  change (parseInt_string text) with (parseInt (VStr text)) in Eq.
  cbv beta iota in P1. apply Z.leb_gt in P1.
  destruct (loaded_quantity i (items_of_loaded w i Hin)) as [N|[Q HQ]];
    rewrite ?N, ?HQ in P2; cbn [int_of_nullable int_gt] in P2.
  - apply Z.ltb_ge in P2. lia.
  - apply Z.ltb_ge in P2.
    destruct (withdrawItem_accept_view now now' wd w i Q q)
      as (r & w' & E & Hr & Hget & _ & _ & Hnote);
      [now rewrite getItem_eq | exact HQ | now rewrite Hq | exact P2 |].
    exists r, w', Q, q. split; [exact E|].
    split; [rewrite getItem_eq; cbn [fst]; rewrite F; cbn [option_map];
            now rewrite HQ|].
    split; [exact Eq|].
    split; [lia|]. split.
    { subst r. unfold recorded. cbn [Withdrawal.quantity].
      now rewrite Hq, Eq. }
    split.
    { intros S. rewrite Hget, quantity_left_safe; [reflexivity|].
      unfold safe. lia. }
    split; [lia | exact Hnote].
Qed.

(** Four of the ten Widgets: six are left. *)
Lemma enabled_button_withdraws_witness :
  exists (r : withdrawal) (w' : World),
    withdrawItem 2000 2001 (widget_request "4") widget_world = (Some r, w')
    /\ Withdrawal.quantity r = Some (Int 4)
    /\ option_map Item.quantity (fst (getItem "item_1000" w'))
       = Some (Some (Int 6))
    /\ notificationContainer w' = notificationContainer widget_world.
Proof.
  destruct (enabled_button_withdraws 2000 2001 (widget_request "4") "4"
              widget_world eq_refl eq_refl)
    as (r & w' & Q & q & E & HQ & Hq & _ & Hr & Hleft & _ & Hn).
  vm_compute in HQ. injection HQ as <-.
  vm_compute in Hq. injection Hq as <-.
  exists r, w'. split; [exact E|]. split; [exact Hr|].
  split; [|exact Hn].
  apply Hleft. vm_compute. discriminate.
Defined.

Lemma handleAddItem_eq (now now' : Z)
  (itemName itemCategory itemQuantity itemCost itemDescription : string)
  (w : World) :
  run (handleAddItem now now' itemName itemCategory itemQuantity itemCost
         itemDescription) w
  = if isEmpty (list_ascii_of_string (trim itemName)) then
      notified "Please enter an item name." "error" w
    else if num_lt (StringToNumber itemQuantity) (Num 0) then
      notified "Quantity cannot be negative." "error" w
    else if num_lt (StringToNumber itemCost) (Num 0) then
      notified "Unit cost cannot be negative." "error" w
    else
      let formData :=
        {| ItemData.name := trim itemName;
           ItemData.category := itemCategory;
           ItemData.quantity := VStr itemQuantity;
           ItemData.unitCost := VStr itemCost;
           ItemData.description := Some (trim itemDescription) |} in
      notified
        (String dquote (trim itemName)
           ++ String dquote " added successfully!")
        "success" (snd (addItem now now' formData w)).
Proof.
  unfold run, handleAddItem. cbn [ItemData.name].
  repeat (case_if; [reflexivity|]). reflexivity.
Qed.

Lemma isEmpty_string (s : string) :
  isEmpty (list_ascii_of_string s) = false <-> s <> EmptyString.
Proof. destruct s; simpl; split; congruence. Qed.

(** X11. [handleAddItem] refuses a form whose trimmed name is empty, or
    whose quantity or cost converts to a number below 0: it then shows one
    error and leaves the storage as it was.  Otherwise it stores exactly one
    more item, after the others, with the trimmed name, which is not empty,
    the category of the form and the trimmed description, and shows one
    success message.  So no item that it stores has an empty name. *)
Theorem handleAddItem_checks_form (now now' : Z)
  (itemName itemCategory itemQuantity itemCost itemDescription : string)
  (w : World) :
  let w' :=
    run (handleAddItem now now' itemName itemCategory itemQuantity itemCost
           itemDescription) w in
  if isEmpty (list_ascii_of_string (trim itemName))
     || num_lt (StringToNumber itemQuantity) (Num 0)
     || num_lt (StringToNumber itemCost) (Num 0)
  then
    localStorage w' = localStorage w
    /\ exists text,
         notificationContainer w'
         = notificationContainer w ++ [{| message := text; type := "error" |}]
  else
    exists stored : item,
      items_of w' = items_of w ++ [stored]
      /\ Item.name stored = trim itemName
      /\ Item.name stored <> EmptyString
      /\ Item.category stored = itemCategory
      /\ Item.description stored = trim itemDescription
      /\ Item.id stored = ("item_" ++ int_to_string (Int now))%string
      /\ inventory_categories (localStorage w')
         = inventory_categories (localStorage w)
      /\ inventory_withdrawals (localStorage w')
         = inventory_withdrawals (localStorage w)
      /\ exists text,
           notificationContainer w'
           = notificationContainer w
               ++ [{| message := text; type := "success" |}].
Proof.
  cbv zeta. rewrite handleAddItem_eq.
  destruct (isEmpty (list_ascii_of_string (trim itemName))) eqn:N;
    cbn [orb].
  { split; [reflexivity|]. eexists. reflexivity. }
  destruct (num_lt (StringToNumber itemQuantity) (Num 0)); cbn [orb].
  { split; [reflexivity|]. eexists. reflexivity. }
  destruct (num_lt (StringToNumber itemCost) (Num 0)).
  { split; [reflexivity|]. eexists. reflexivity. }
  cbv zeta.
  destruct (addItem_eq now now'
              {| ItemData.name := trim itemName;
                 ItemData.category := itemCategory;
                 ItemData.quantity := VStr itemQuantity;
                 ItemData.unitCost := VStr itemCost;
                 ItemData.description := Some (trim itemDescription) |} w)
    as (new & E & Hid & Hn & Hc & _ & _ & _ & Hd).
  rewrite E. cbn [snd].
  exists (Item.parse (Item.stringify new)).
  split; [apply items_of_snoc|]. split; [exact Hn|].
  split.
  { change (Item.name (Item.parse (Item.stringify new))) with (Item.name new).
    rewrite Hn. now apply isEmpty_string. }
  split; [exact Hc|]. split; [exact Hd|]. split; [exact Hid|].
  split; [reflexivity|]. split; [reflexivity|].
  eexists. reflexivity.
Qed.

Lemma handleAddCategory_eq (newCategoryName : string) (w : World) :
  run (handleAddCategory newCategoryName) w
  = if isEmpty (list_ascii_of_string (trim newCategoryName)) then
      notified "Please enter a category name." "error" w
    else if existsb (fun cat =>
              String.eqb (toLowerCase cat)
                (toLowerCase (trim newCategoryName)))
              (stored_registry w)
    then notified "Category already exists." "warning" w
    else
      notified
        ("Category " ++ String dquote (trim newCategoryName)
           ++ String dquote " added successfully!")
        "success"
        (set_categories (stored_registry w ++ [trim newCategoryName]) w).
Proof.
  unfold run, handleAddCategory. case_if; [reflexivity|].
  unfold bind. rewrite addCategory_eq. case_if; reflexivity.
Qed.

Lemma toLowerCase_empty (s : string) :
  toLowerCase s = EmptyString -> s = EmptyString.
Proof. destruct s; [reflexivity | discriminate]. Qed.

Lemma existsb_snoc_self (name : string) (l : list string) :
  existsb (fun cat => String.eqb (toLowerCase cat) (toLowerCase name))
    (l ++ [name]) = true.
Proof.
  rewrite existsb_app. simpl. rewrite String.eqb_refl.
  now rewrite orb_true_r.
Qed.

(** X12. Submitting the category form a second time with the same name,
    or a name that differs by case or by white space around it, never
    changes the storage: when the name is not empty the second submission
    is answered by the warning that the category exists.  A name that is
    empty once trimmed is refused with an error and no change. *)
Theorem handleAddCategory_twice (first second : string) (w : World) :
  toLowerCase (trim second) = toLowerCase (trim first) ->
  let w1 := run (handleAddCategory first) w in
  let w2 := run (handleAddCategory second) w1 in
  localStorage w2 = localStorage w1
  /\ (trim first = EmptyString ->
      localStorage w1 = localStorage w
      /\ notificationContainer w1
         = notificationContainer w
             ++ [{| message := "Please enter a category name.";
                    type := "error" |}])
  /\ (trim first <> EmptyString ->
      notificationContainer w2
      = notificationContainer w1
          ++ [{| message := "Category already exists.";
                 type := "warning" |}]).
Proof.
  intros L. cbv zeta.
  rewrite (handleAddCategory_eq second), (handleAddCategory_eq first).
  destruct (trim first) as [|c f] eqn:F.
  - cbn [toLowerCase] in L. apply toLowerCase_empty in L. rewrite L.
    cbn [list_ascii_of_string isEmpty].
    split; [reflexivity|]. split; [now split | congruence].
  - assert (S : isEmpty (list_ascii_of_string (trim second)) = false).
    { apply isEmpty_string. intros Z. rewrite Z in L. discriminate L. }
    rewrite S. cbn [list_ascii_of_string isEmpty]. rewrite L.
    destruct (existsb
                (fun cat =>
                   String.eqb (toLowerCase cat) (toLowerCase (String c f)))
                (stored_registry w)) eqn:X.
    + change (stored_registry (notified ?m ?t w)) with (stored_registry w).
      rewrite X.
      split; [reflexivity|]. split; [congruence | reflexivity].
    + change (stored_registry (notified ?m ?t (set_categories ?l w)))
        with l.
      rewrite existsb_snoc_self.
      split; [reflexivity|]. split; [congruence | reflexivity].
Qed.

Lemma handleAddCategory_twice_witness :
  let w1 := run (handleAddCategory "Garden") (run initializeStorage fresh) in
  let w2 := run (handleAddCategory "  GARDEN ") w1 in
  localStorage w2 = localStorage w1
  /\ (trim "Garden" = EmptyString ->
      localStorage w1 = localStorage (run initializeStorage fresh)
      /\ notificationContainer w1
         = notificationContainer (run initializeStorage fresh)
             ++ [{| message := "Please enter a category name.";
                    type := "error" |}])
  /\ (trim "Garden" <> EmptyString ->
      notificationContainer w2
      = notificationContainer w1
          ++ [{| message := "Category already exists.";
                 type := "warning" |}]).
Proof.
  apply (handleAddCategory_twice "Garden" "  GARDEN "
           (run initializeStorage fresh)).
  reflexivity.
Defined.

Lemma map_update_at_same {A B} (f : A -> B) (h : A -> A) (index : nat)
  (l : list A) :
  (forall x, f (h x) = f x) -> map f (update_at index h l) = map f l.
Proof.
  intros H. revert index.
  induction l as [|y l IH]; intros [|k]; simpl; try reflexivity.
  - now rewrite H.
  - now rewrite IH.
Qed.

(** X13. Editing an item through the form never changes the id or the
    creation date of any item, nor the number or the order of the items,
    nor the categories or the withdrawals.  It shows the success message
    when an item has the id of the form, and otherwise the failure message,
    the storage being as before. *)
Theorem handleEditItem_keeps_identity
  (editItemId editItemName editItemCategory editItemQuantity editItemCost
     editItemDescription : string) (w : World) :
  let w' :=
    run (handleEditItem editItemId editItemName editItemCategory
           editItemQuantity editItemCost editItemDescription) w in
  map Item.id (items_of w') = map Item.id (items_of w)
  /\ map Item.dateAdded (items_of w') = map Item.dateAdded (items_of w)
  /\ inventory_categories (localStorage w')
     = inventory_categories (localStorage w)
  /\ inventory_withdrawals (localStorage w')
     = inventory_withdrawals (localStorage w)
  /\ match fst (getItem editItemId w) with
     | Some _ =>
         notificationContainer w'
         = notificationContainer w
             ++ [{| message := "Item updated successfully!";
                    type := "success" |}]
     | None =>
         localStorage w' = localStorage w
         /\ notificationContainer w'
            = notificationContainer w
                ++ [{| message := "Failed to update item.";
                       type := "error" |}]
     end.
Proof.
  cbv zeta. unfold run, handleEditItem, bind.
  rewrite updateItem_eq, getItem_eq. cbn [fst].
  pose proof (findIndex_find (has_id editItemId) (items_of w)) as F.
  destruct (find (has_id editItemId) (items_of w)) as [old|].
  - destruct F as (index & -> & _). cbn [snd].
    change (items_of (snd (showNotification ?m ?t ?x))) with (items_of x).
    rewrite items_of_set_items.
    split.
    { rewrite !map_map.
      rewrite (map_update_at_same
                 (fun x => Item.id (Item.parse (Item.stringify x))))
        by reflexivity.
      apply map_ext. reflexivity. }
    split; [|now repeat split].
    rewrite !map_map.
    rewrite (map_update_at_same
               (fun x => Item.dateAdded (Item.parse (Item.stringify x))))
      by reflexivity.
    apply map_ext. reflexivity.
  - rewrite F. now repeat split.
Qed.

(** ** Withdrawals in the reports and in the form *)

(** The figures of a statistics grid; the empty message counts as no
    withdrawal. *)
Definition figures (g : statsGrid) : nat * number * intnum :=
  match g with
  | EmptyMessage _ => (O, Num 0, Int 0)
  | StatCards s => (totalWithdrawals s, totalCost s, totalQuantity s)
  end.

Lemma figures_renderStatistics (l : list withdrawal) :
  figures (renderStatistics l)
  = (List.length l,
     fold_left
       (fun sum w => num_add sum (num_of_nullable (Withdrawal.totalCost w)))
       l (Num 0),
     fold_left
       (fun sum w => int_add sum (int_of_nullable (Withdrawal.quantity w)))
       l (Int 0)).
Proof. destruct l; reflexivity. Qed.

Lemma generateReport_no_filters (tza : Z) (w : World) :
  fst (generateReport tza no_filters w) = renderStatistics (withdrawals_of w).
Proof. reflexivity. Qed.

(** X14. An accepted withdrawal shows in the report without filters: the
    number of withdrawals is one more than before, the total quantity is
    the old one plus the quantity [q] withdrawn, and the total cost is the
    old one plus the total cost that the log keeps of the withdrawal: [q]
    times the unit cost of the item as JSON stores it, a [null] counting
    as 0. *)
Theorem withdrawal_shows_in_report (tza now now' : Z) (wd : WithdrawalData.t)
  (w : World) (i : item) (Q q : Z) :
  fst (getItem (WithdrawalData.itemId wd) w) = Some i ->
  Item.quantity i = Some (Int Q) ->
  parseInt (WithdrawalData.quantity wd) = Int q ->
  q <= Q ->
  let w' := snd (withdrawItem now now' wd w) in
  let '(count, cost, quantity) :=
    figures (fst (generateReport tza no_filters w)) in
  figures (fst (generateReport tza no_filters w'))
  = (S count,
     num_add cost
       (num_of_nullable
          (num_parse_json
             (json_of_num
                (Some (num_mul (Num (inject_Z q))
                         (num_of_nullable (Item.unitCost i))))))),
     int_add quantity (Int q)).
Proof.
  intros H HQ Hq Hle.
  destruct (withdrawItem_accept_view now now' wd w i Q q H HQ Hq Hle)
    as (r & w' & E & Hr & _ & Hlog & _).
  rewrite E. cbn [snd]. cbv zeta.
  rewrite !generateReport_no_filters, !figures_renderStatistics, Hlog.
  rewrite !fold_left_app, length_app. cbn [fold_left List.length].
  subst r. unfold recorded, Withdrawal.parse, Withdrawal.stringify.
  cbn [Withdrawal.totalCost Withdrawal.quantity].
  rewrite Hq. cbn [num_of_int json_of_int int_parse_json option_map
                   int_of_nullable].
  replace (List.length (withdrawals_of w) + 1)%nat
    with (S (List.length (withdrawals_of w))) by lia.
  reflexivity.
Qed.

Lemma withdrawal_shows_in_report_witness :
  let w' :=
    snd (withdrawItem 3000 3001 (widget_request "2") (snd widget_withdraw3)) in
  let '(count, cost, quantity) :=
    figures (fst (generateReport 0 no_filters (snd widget_withdraw3))) in
  figures (fst (generateReport 0 no_filters w'))
  = (S count,
     num_add cost
       (num_of_nullable
          (num_parse_json
             (json_of_num
                (Some (num_mul (Num (inject_Z 2))
                         (num_of_nullable (Some (Num (5 # 2))))))))),
     int_add quantity (Int 2)).
Proof.
  apply (withdrawal_shows_in_report 0 3000 3001 (widget_request "2")
           (snd widget_withdraw3)
           {| Item.id := "item_1000"; Item.name := "Widget";
              Item.category := "Tools"; Item.quantity := Some (Int 7);
              Item.unitCost := Some (Num (5 # 2));
              Item.dateAdded := "1970-01-01T00:00:01.001Z";
              Item.description := EmptyString |} 7 2);
    [reflexivity | reflexivity | reflexivity | lia].
Defined.

Lemma filter_out_snoc (name : string) (l : list string) :
  ~ In name l ->
  filter (fun cat => negb (String.eqb cat name)) (l ++ [name]) = l.
Proof.
  intros N. rewrite filter_app. simpl. rewrite String.eqb_refl. simpl.
  rewrite app_nil_r. apply filter_all.
  now apply not_in_filter_out.
Qed.

(** X15. Deleting a category that [addCategory] has just added, and that
    no item uses, succeeds and gives back the list of categories as it was
    before the addition. *)
Theorem addCategory_then_deleteCategory (categoryName : string) (w : World) :
  fst (addCategory categoryName w) = true ->
  ~ in_use categoryName w ->
  let w1 := snd (addCategory categoryName w) in
  fst (deleteCategory categoryName w1) = true
  /\ stored_registry (snd (deleteCategory categoryName w1))
     = stored_registry w
  /\ inventory_items (localStorage (snd (deleteCategory categoryName w1)))
     = inventory_items (localStorage w)
  /\ inventory_withdrawals
       (localStorage (snd (deleteCategory categoryName w1)))
     = inventory_withdrawals (localStorage w).
Proof.
  rewrite addCategory_eq.
  destruct (existsb _ (stored_registry w)) eqn:X; [discriminate|].
  intros _ U. cbn [snd]. cbv zeta.
  assert (N : ~ In categoryName (stored_registry w)).
  { intros Hin.
    assert (existsb (fun cat =>
              String.eqb (toLowerCase cat) (toLowerCase categoryName))
              (stored_registry w) = true)
      by (apply matches_ignoring_case; now exists categoryName).
    congruence. }
  rewrite deleteCategory_eq.
  change (items_of (set_categories ?l w)) with (items_of w).
  destruct (existsb (fun i => String.eqb (Item.category i) categoryName)
              (items_of w)) eqn:V.
  { apply in_use_existsb in V. contradiction. }
  cbv zeta. rewrite stored_registry_set_categories, filter_out_snoc by exact N.
  rewrite length_app. cbn [List.length].
  destruct (_ =? _)%nat eqn:L; [apply Nat.eqb_eq in L; lia|].
  now repeat split.
Qed.

Lemma addCategory_then_deleteCategory_witness :
  let w1 := snd (addCategory "Garden" ghost_world) in
  fst (deleteCategory "Garden" w1) = true
  /\ stored_registry (snd (deleteCategory "Garden" w1))
     = stored_registry ghost_world
  /\ inventory_items (localStorage (snd (deleteCategory "Garden" w1)))
     = inventory_items (localStorage ghost_world)
  /\ inventory_withdrawals (localStorage (snd (deleteCategory "Garden" w1)))
     = inventory_withdrawals (localStorage ghost_world).
Proof.
  apply (addCategory_then_deleteCategory "Garden" ghost_world).
  - reflexivity.
  - intros (i & [<-|[]] & Hc). discriminate Hc.
Defined.

Definition in_stock (i : item) : bool :=
  int_gt (int_of_nullable (Item.quantity i)) (Int 0).

Lemma renderWithdrawalForm_eq (w : World) :
  fst (renderWithdrawalForm w) = filter in_stock (items_of w).
Proof. reflexivity. Qed.

Lemma filter_update_drop {A} (p : A -> bool) (g f : A -> A) (l : list A)
  (index : nat) (x : A) :
  (forall y, In y l -> g y = y) ->
  nth_error l index = Some x -> p x = true -> p (g (f x)) = false ->
  (List.length (filter p (map g (update_at index f l))) + 1
   = List.length (filter p l))%nat
  /\ forall z, In z (filter p (map g (update_at index f l))) ->
               In z (filter p l).
Proof.
  revert index. induction l as [|y l IH]; intros index G Hn Hx Hf.
  - destruct index; discriminate Hn.
  - destruct index as [|k]; cbn [nth_error] in Hn.
    + injection Hn as ->. cbn [update_at map filter]. rewrite Hf, Hx.
      assert (E : map g l = l).
      { clear -G. induction l as [|z l IH]; cbn [map]; [reflexivity|].
        rewrite (G z) by (right; now left). f_equal. apply IH.
        intros u [Hu|Hu]; apply G; [now left | right; now right]. }
      rewrite E. split; [cbn [List.length]; lia|].
      intros z Hz. now right.
    + destruct (IH k) as [L S]; trivial.
      { intros u Hu. apply G. now right. }
      cbn [update_at map filter]. rewrite (G y) by now left.
      destruct (p y); cbn [List.length]; split; try lia.
      * intros z [<-|Hz]; [now left | right; now apply S].
      * exact S.
Qed.

(** X16. The withdrawal form offers the stored items of positive
    quantity.  Withdrawing the whole quantity of an item takes that item
    off the form: one item less is offered afterwards, and every item
    still offered was offered before. *)
Theorem sold_out_item_leaves_form (now now' : Z) (wd : WithdrawalData.t)
  (w : World) (i : item) (Q : Z) :
  fst (getItem (WithdrawalData.itemId wd) w) = Some i ->
  Item.quantity i = Some (Int Q) ->
  parseInt (WithdrawalData.quantity wd) = Int Q ->
  0 < Q ->
  let w' := snd (withdrawItem now now' wd w) in
  (forall x, In x (fst (renderWithdrawalForm w))
             <-> In x (items_of w)
                 /\ exists n, Item.quantity x = Some (Int n) /\ 0 < n)
  /\ In i (fst (renderWithdrawalForm w))
  /\ (List.length (fst (renderWithdrawalForm w')) + 1
      = List.length (fst (renderWithdrawalForm w)))%nat
  /\ forall x, In x (fst (renderWithdrawalForm w')) ->
               In x (fst (renderWithdrawalForm w)).
Proof.
  intros H HQ Hq HQpos. rewrite getItem_eq in H. cbn [fst] in H. cbv zeta.
  destruct (find_In _ _ _ H) as [Hin _].
  assert (G : int_gt (parseInt (WithdrawalData.quantity wd))
                (int_of_nullable (Item.quantity i)) = false).
  { rewrite Hq, HQ. cbn [int_of_nullable int_gt]. apply Z.ltb_ge. lia. }
  destruct (withdrawItem_accept now now' wd w i H G) as (index & _ & Hn & E).
  rewrite E. cbn [snd]. rewrite !renderWithdrawalForm_eq.
  assert (Si : in_stock i = true).
  { unfold in_stock. rewrite HQ. cbn [int_of_nullable int_gt].
    now apply Z.ltb_lt. }
  split.
  { intros x. rewrite filter_In. split.
    - intros [Hx Sx]. split; [exact Hx|].
      unfold in_stock in Sx.
      destruct (loaded_quantity x (items_of_loaded w x Hx)) as [N|[n N]];
        rewrite N in Sx; cbn [int_of_nullable int_gt] in Sx.
      + discriminate Sx.
      + exists n. split; [exact N|]. now apply Z.ltb_lt.
    - intros [Hx (n & N & Hpos)]. split; [exact Hx|].
      unfold in_stock. rewrite N. cbn [int_of_nullable int_gt].
      now apply Z.ltb_lt. }
  split; [apply filter_In; now split|].
  rewrite items_of_set_items, map_map.
  apply (filter_update_drop in_stock
           (fun x => Item.parse (Item.stringify x))
           (fun old => merge old (decrement wd i)) (items_of w) index i);
    trivial.
  - intros y Hy. apply loaded_roundtrip. now apply (items_of_loaded w).
  - unfold in_stock.
    change (Item.quantity
              (Item.parse (Item.stringify (merge i (decrement wd i)))))
      with (int_parse_json
              (json_of_int
                 (Some (parseInt
                          (value_of_int
                             (int_sub (int_of_nullable (Item.quantity i))
                                (parseInt (WithdrawalData.quantity wd)))))))).
    rewrite Hq, HQ. cbn [int_of_nullable int_sub]. rewrite Z.sub_diag.
    change (parseInt (value_of_int (Int (to_double 0)))) with (Int 0).
    cbn [int_of_nullable json_of_int int_parse_json option_map int_gt].
    apply Z.ltb_ge. lia.
Qed.

Lemma sold_out_item_leaves_form_witness :
  let w' :=
    snd (withdrawItem 2000 2001 (widget_request "10") widget_world) in
  (forall x, In x (fst (renderWithdrawalForm widget_world))
             <-> In x (items_of widget_world)
                 /\ exists n, Item.quantity x = Some (Int n) /\ 0 < n)
  /\ In widget (fst (renderWithdrawalForm widget_world))
  /\ (List.length (fst (renderWithdrawalForm w')) + 1
      = List.length (fst (renderWithdrawalForm widget_world)))%nat
  /\ forall x, In x (fst (renderWithdrawalForm w')) ->
               In x (fst (renderWithdrawalForm widget_world)).
Proof.
  apply (sold_out_item_leaves_form 2000 2001 (widget_request "10")
           widget_world widget 10);
    [reflexivity | reflexivity | reflexivity | lia].
Defined.

(** ** The date filter and the history *)

Lemma filter_none {A} (p : A -> bool) (l : list A) :
  (forall x, p x = false) -> filter p l = [].
Proof.
  intros H. induction l as [|y l IH]; simpl; [reflexivity|].
  now rewrite H.
Qed.

Lemma int_ge_INaN_r (a : intnum) : int_ge a INaN = false.
Proof. now destruct a. Qed.

(** X17. When a date is given as a bound of the date filter and it is
    not a valid date, the filter selects no withdrawal at all; and a
    withdrawal whose own date is not valid is never selected. *)
Theorem date_filter_invalid_date (tza : Z) (startDate endDate : option string)
  (w : World) :
  (truthy startDate = true /\ Date_parse (or_empty startDate) = INaN)
  \/ (truthy endDate = true /\ Date_parse (or_empty endDate) = INaN) ->
  fst (getWithdrawalsByDateRange tza startDate endDate w) = []
  /\ forall (startDate' endDate' : option string) (r : withdrawal),
       Date_parse (Withdrawal.date r) = INaN ->
       ~ In r (fst (getWithdrawalsByDateRange tza startDate' endDate' w)).
Proof.
  intros H. split.
  - unfold getWithdrawalsByDateRange, bind.
    change (getAllWithdrawals w) with (withdrawals_of w, w).
    cbn [fst ret]. apply filter_none. intros r. unfold inDateRange.
    destruct H as [[T E]|[T E]].
    + unfold startBound. rewrite T, E. now rewrite int_ge_INaN_r.
    + unfold endBound. rewrite T, E. cbn [setHours]. unfold int_le.
      cbn [int_ge]. apply andb_false_r.
  - intros s e r D Hin.
    unfold getWithdrawalsByDateRange, bind in Hin.
    change (getAllWithdrawals w) with (withdrawals_of w, w) in Hin.
    cbn [fst ret] in Hin. apply filter_In in Hin as [_ Hin].
    unfold inDateRange in Hin. rewrite D in Hin. discriminate Hin.
Qed.

Lemma date_filter_invalid_date_witness :
  fst (getWithdrawalsByDateRange 0 None (Some "soon"%string)
         (snd widget_withdraw3)) = []
  /\ forall (startDate' endDate' : option string) (r : withdrawal),
       Date_parse (Withdrawal.date r) = INaN ->
       ~ In r (fst (getWithdrawalsByDateRange 0 startDate' endDate'
                      (snd widget_withdraw3))).
Proof.
  apply (date_filter_invalid_date 0 None (Some "soon"%string)
           (snd widget_withdraw3)).
  right. split; reflexivity.
Defined.

(** The time of a withdrawal whose date is valid. *)
Definition when (r : withdrawal) : Z :=
  match Date_parse (Withdrawal.date r) with
  | Int t => t
  | INaN => 0
  end.

Definition dated (r : withdrawal) : Prop :=
  exists t, Date_parse (Withdrawal.date r) = Int t.

Definition not_older (a b : withdrawal) : Prop := when b <= when a.

Lemma newest_first_gt (x y : withdrawal) :
  dated x -> dated y ->
  int_gt (newest_first x y) (Int 0) = (when x <? when y).
Proof.
  intros [t Hx] [u Hy]. unfold newest_first, when. rewrite Hx, Hy.
  cbn [int_sub int_gt]. rewrite to_double_pos.
  destruct (Z.ltb_spec 0 (u - t)), (Z.ltb_spec t u); trivial; lia.
Qed.

Lemma sort_insert_perm {A} (comparefn : A -> A -> intnum) (x : A)
  (l : list A) :
  Permutation (x :: l) (sort_insert comparefn x l).
Proof.
  induction l as [|y l IH]; cbn [sort_insert]; [reflexivity|].
  destruct (int_gt (comparefn x y) (Int 0)); [|reflexivity].
  rewrite perm_swap. now constructor.
Qed.

Lemma sort_perm {A} (comparefn : A -> A -> intnum) (l : list A) :
  Permutation l (sort comparefn l).
Proof.
  unfold sort. induction l as [|x l IH]; cbn [fold_right]; [constructor|].
  rewrite <- sort_insert_perm. now constructor.
Qed.

Lemma sort_insert_newest_first (x : withdrawal) (l : list withdrawal) :
  dated x -> Forall dated l ->
  StronglySorted not_older l ->
  StronglySorted not_older (sort_insert newest_first x l).
Proof.
  intros Dx Dl S. induction S as [|y l S IH F]; cbn [sort_insert].
  - repeat constructor.
  - inversion Dl as [|? ? Dy Dl']; subst.
    rewrite (newest_first_gt x y Dx Dy).
    destruct (Z.ltb_spec (when x) (when y)) as [Lt|Ge].
    + constructor; [now apply IH|].
      apply (Permutation_Forall (sort_insert_perm newest_first x l)).
      constructor; [unfold not_older; lia | exact F].
    + constructor; [now constructor|].
      constructor; [exact Ge|].
      apply Forall_forall. intros z Hz.
      pose proof (proj1 (Forall_forall _ _) F z Hz) as Hyz.
      unfold not_older in *. lia.
Qed.

Lemma sort_newest_first (l : list withdrawal) :
  Forall dated l -> StronglySorted not_older (sort newest_first l).
Proof.
  unfold sort. induction 1 as [|x l Dx Dl IH]; cbn [fold_right];
    [constructor|].
  apply sort_insert_newest_first; trivial.
  apply (Permutation_Forall (sort_perm newest_first l)). exact Dl.
Qed.

(** The withdrawals made at a given time, in their order. *)
Definition made_at (t : Z) (l : list withdrawal) : list withdrawal :=
  filter (fun r => when r =? t) l.

Lemma sort_insert_made_at (t : Z) (x : withdrawal) (l : list withdrawal) :
  dated x -> Forall dated l ->
  made_at t (sort_insert newest_first x l) = made_at t (x :: l).
Proof.
  intros Dx Dl. induction Dl as [|y l Dy Dl IH]; cbn [sort_insert];
    [reflexivity|].
  rewrite (newest_first_gt x y Dx Dy).
  destruct (Z.ltb_spec (when x) (when y)) as [Lt|Ge]; [|reflexivity].
  unfold made_at in *. cbn [filter] in *. rewrite IH.
  destruct (Z.eqb_spec (when y) t), (Z.eqb_spec (when x) t);
    trivial; lia.
Qed.

Lemma sort_made_at (t : Z) (l : list withdrawal) :
  Forall dated l -> made_at t (sort newest_first l) = made_at t l.
Proof.
  unfold sort. induction 1 as [|x l Dx Dl IH]; cbn [fold_right];
    [reflexivity|].
  rewrite sort_insert_made_at; trivial.
  - unfold made_at in *. cbn [filter]. now rewrite IH.
  - apply (Permutation_Forall (sort_perm newest_first l)). exact Dl.
Qed.

(** X18. The history table is hidden exactly for an empty selection.
    Otherwise, for withdrawals whose dates are valid, its rows are the
    selected withdrawals, each once, ordered from the newest to the
    oldest, and withdrawals of the same instant keep the order they had
    in the selection. *)
Theorem history_newest_first (withdrawals : list withdrawal) :
  Forall dated withdrawals ->
  match renderWithdrawalHistory withdrawals with
  | None => withdrawals = []
  | Some rows =>
      withdrawals <> []
      /\ Permutation withdrawals rows
      /\ StronglySorted not_older rows
      /\ forall t, made_at t rows = made_at t withdrawals
  end.
Proof.
  intros D. unfold renderWithdrawalHistory.
  destruct withdrawals as [|r l]; [reflexivity|].
  cbn [List.length Nat.eqb].
  split; [discriminate|]. split; [apply sort_perm|].
  split; [now apply sort_newest_first|].
  intros t. now apply sort_made_at.
Qed.

Definition three_withdrawals : list withdrawal :=
  [recorded 1 86400000 (widget_request "1") widget;
   recorded 2 172800000 (widget_request "2") widget;
   recorded 3 86400000 (widget_request "3") widget].

Lemma history_newest_first_witness :
  match renderWithdrawalHistory three_withdrawals with
  | None => three_withdrawals = []
  | Some rows =>
      three_withdrawals <> []
      /\ Permutation three_withdrawals rows
      /\ StronglySorted not_older rows
      /\ forall t, made_at t rows = made_at t three_withdrawals
  end.
Proof.
  apply (history_newest_first three_withdrawals).
  repeat constructor; eexists; vm_compute; reflexivity.
Defined.

Example history_rows :
  option_map (map Withdrawal.id) (renderWithdrawalHistory three_withdrawals)
  = Some ["withdraw_2"; "withdraw_1"; "withdraw_3"]%string.
Proof. vm_compute. reflexivity. Qed.

(** ** Dates written and read *)

(** [p] holds of the [n] integers from [z] on. *)
Fixpoint all_from (n : nat) (z : Z) (p : Z -> bool) : bool :=
  match n with
  | O => true
  | S k => p z && all_from k (z + 1) p
  end.

Lemma all_from_spec (n : nat) (z : Z) (p : Z -> bool) :
  all_from n z p = true ->
  forall k, z <= k < z + Z.of_nat n -> p k = true.
Proof.
  revert z. induction n as [|n IH]; intros z H k Hk; [lia|].
  cbn [all_from] in H. apply andb_prop in H as [H0 H1].
  destruct (Z.eq_dec k z) as [->|Hne]; [exact H0|].
  apply (IH (z + 1) H1). lia.
Qed.

Lemma take_digits_app (n : nat) (s rest : string) (acc v : Z) :
  take_digits n s acc = Some (v, EmptyString) ->
  take_digits n (s ++ rest) acc = Some (v, rest).
Proof.
  revert s acc. induction n as [|n IH]; intros s acc H.
  - cbn [take_digits] in *. injection H as <- ->. reflexivity.
  - destruct s as [|c s]; [discriminate H|].
    cbn [take_digits append] in *.
    destruct (digit_in 10 c); [now apply IH | discriminate H].
Qed.

Definition reads_back (width : nat) (z : Z) : bool :=
  match take_digits width (pad width z) 0 with
  | Some (v, EmptyString) => v =? z
  | _ => false
  end.

Lemma reads_back_spec (width : nat) (z : Z) (rest : string) :
  reads_back width z = true ->
  take_digits width (pad width z ++ rest) 0 = Some (z, rest).
Proof.
  unfold reads_back. intros H. apply take_digits_app.
  destruct (take_digits width (pad width z) 0) as [[v [|c s]]|];
    try discriminate H.
  apply Z.eqb_eq in H. now subst.
Qed.

Lemma pad2_reads_back (z : Z) (rest : string) :
  0 <= z < 100 -> take_digits 2 (pad 2 z ++ rest) 0 = Some (z, rest).
Proof.
  intros H. apply reads_back_spec.
  apply (all_from_spec 100 0 (reads_back 2)); [vm_compute; reflexivity|].
  simpl. lia.
Qed.

Lemma pad3_reads_back (z : Z) (rest : string) :
  0 <= z < 1000 -> take_digits 3 (pad 3 z ++ rest) 0 = Some (z, rest).
Proof.
  intros H. apply reads_back_spec.
  apply (all_from_spec 1000 0 (reads_back 3)); [vm_compute; reflexivity|].
  simpl. lia.
Qed.

Lemma pad4_reads_back (z : Z) (rest : string) :
  0 <= z < 10000 -> take_digits 4 (pad 4 z ++ rest) 0 = Some (z, rest).
Proof.
  intros H. apply reads_back_spec.
  apply (all_from_spec (Z.to_nat 10000) 0 (reads_back 4));
    [vm_compute; reflexivity|].
  rewrite Z2Nat.id; lia.
Qed.

(** The calendar, 400 years (146097 days) later. *)
Lemma civil_from_days_shift (z e : Z) :
  civil_from_days (z + 146097 * e)
  = let '(y, m, d) := civil_from_days z in (y + 400 * e, m, d).
Proof.
  unfold civil_from_days.
  replace (z + 146097 * e + 719468) with (z + 719468 + e * 146097) by lia.
  rewrite Z.div_add by lia.
  replace (z + 719468 + e * 146097 - ((z + 719468) / 146097 + e) * 146097)
    with (z + 719468 - (z + 719468) / 146097 * 146097) by lia.
  set (doe := z + 719468 - (z + 719468) / 146097 * 146097).
  set (yoe := (doe - doe / 1460 + doe / 36524 - doe / 146096) / 365).
  set (doy := doe - (365 * yoe + yoe / 4 - yoe / 100)).
  set (mp := (5 * doy + 2) / 153).
  cbv zeta.
  destruct ((if mp <? 10 then mp + 3 else mp - 9) <=? 2);
    f_equal; f_equal; lia.
Qed.

Lemma days_from_civil_shift (y m d e : Z) :
  days_from_civil (y + 400 * e) m d = days_from_civil y m d + 146097 * e.
Proof.
  unfold days_from_civil.
  set (y' := if m <=? 2 then y - 1 else y).
  replace (if m <=? 2 then y + 400 * e - 1 else y + 400 * e)
    with (y' + e * 400) by (subst y'; destruct (m <=? 2); lia).
  rewrite Z.div_add by lia. cbv zeta.
  replace (y' + e * 400 - (y' / 400 + e) * 400) with (y' - y' / 400 * 400)
    by lia.
  lia.
Qed.

Lemma is_leap_shift (y e : Z) : is_leap (y + 400 * e) = is_leap y.
Proof.
  unfold is_leap.
  replace (y + 400 * e) with (y + (100 * e) * 4) at 1 by lia.
  replace (y + 400 * e) with (y + (4 * e) * 100) at 1 by lia.
  replace (y + 400 * e) with (y + e * 400) by lia.
  now rewrite !Z.mod_add by lia.
Qed.

Lemma days_in_month_shift (y m e : Z) :
  days_in_month (y + 400 * e) m = days_in_month y m.
Proof. unfold days_in_month. now rewrite is_leap_shift. Qed.

(** A day read as a date and back, with the date valid. *)
Definition civil_ok (z : Z) : bool :=
  let '(y, m, d) := civil_from_days z in
  (1 <=? m) && (m <=? 12) && (1 <=? d) && (d <=? days_in_month y m)
  && (days_from_civil y m d =? z).

Lemma civil_ok_block : all_from (Z.to_nat 146097) (-719468) civil_ok = true.
Proof. vm_compute. reflexivity. Qed.

Lemma civil_round_trip (z : Z) :
  let '(y, m, d) := civil_from_days z in
  1 <= m <= 12 /\ 1 <= d <= days_in_month y m /\ days_from_civil y m d = z.
Proof.
  set (e := (z + 719468) / 146097).
  set (z0 := z - 146097 * e).
  assert (R : -719468 <= z0 < -719468 + Z.of_nat (Z.to_nat 146097)).
  { rewrite Z2Nat.id by lia. subst z0 e. Z.div_mod_to_equations. lia. }
  pose proof (all_from_spec _ _ _ civil_ok_block z0 R) as K.
  replace z with (z0 + 146097 * e) by (subst z0; lia).
  rewrite civil_from_days_shift. unfold civil_ok in K.
  destruct (civil_from_days z0) as [[y m] d].
  apply andb_prop in K as [K K5]. apply andb_prop in K as [K K4].
  apply andb_prop in K as [K K3]. apply andb_prop in K as [K1 K2].
  apply Z.leb_le in K1, K2, K3, K4. apply Z.eqb_eq in K5.
  rewrite days_in_month_shift, days_from_civil_shift. lia.
Qed.

Lemma days_from_civil_late (y m d : Z) :
  10000 <= y -> 1 <= m <= 12 -> 1 <= d -> 2932897 <= days_from_civil y m d.
Proof.
  intros Hy Hm Hd. unfold days_from_civil.
  destruct (m <=? 2) eqn:E; Z.div_mod_to_equations; lia.
Qed.

Lemma days_from_civil_early (y m d : Z) :
  y <= -1 -> 1 <= m <= 12 -> d <= 31 -> days_from_civil y m d <= -719529.
Proof.
  intros Hy Hm Hd. unfold days_from_civil.
  destruct (m <=? 2) eqn:E; Z.div_mod_to_equations; lia.
Qed.

Lemma expect_here (c : ascii) (rest : string) :
  expect c (String c EmptyString ++ rest) = Some rest.
Proof. cbn [append expect]. now rewrite Ascii.eqb_refl. Qed.

Lemma read_ymd_written (y m d : Z) (rest : string) :
  0 <= y < 10000 -> 0 <= m < 100 -> 0 <= d < 100 ->
  read_ymd (pad 4 y ++ "-" ++ pad 2 m ++ "-" ++ pad 2 d ++ rest)
  = Some (y, m, d, rest).
Proof.
  intros Hy Hm Hd. unfold read_ymd.
  rewrite (pad4_reads_back y _ Hy). cbn [bind_opt].
  rewrite expect_here. cbn [bind_opt].
  rewrite (pad2_reads_back m _ Hm). cbn [bind_opt].
  rewrite expect_here. cbn [bind_opt].
  rewrite (pad2_reads_back d _ Hd). reflexivity.
Qed.

Lemma read_time_written (h mi sec ms : Z) :
  0 <= h <= 23 -> 0 <= mi <= 59 -> 0 <= sec <= 59 -> 0 <= ms < 1000 ->
  read_time ("T" ++ pad 2 h ++ ":" ++ pad 2 mi ++ ":" ++ pad 2 sec ++ "."
             ++ pad 3 ms ++ "Z")
  = Some (h * 3600000 + mi * 60000 + sec * 1000 + ms).
Proof.
  intros Hh Hmi Hs Hms. unfold read_time.
  rewrite expect_here. cbn [bind_opt].
  rewrite (pad2_reads_back h) by lia. cbn [bind_opt].
  rewrite expect_here. cbn [bind_opt].
  rewrite (pad2_reads_back mi) by lia. cbn [bind_opt].
  rewrite expect_here. cbn [bind_opt].
  rewrite (pad2_reads_back sec) by lia. cbn [bind_opt].
  rewrite expect_here. cbn [bind_opt].
  rewrite (pad3_reads_back ms) by lia. cbn [bind_opt].
  change (expect "Z" "Z") with (Some EmptyString). cbn [bind_opt].
  replace (h <=? 23) with true by (symmetry; apply Z.leb_le; lia).
  replace (mi <=? 59) with true by (symmetry; apply Z.leb_le; lia).
  replace (sec <=? 59) with true by (symmetry; apply Z.leb_le; lia).
  reflexivity.
Qed.

Lemma days_in_month_le_31 (y m : Z) : days_in_month y m <= 31.
Proof.
  unfold days_in_month.
  destruct (m =? 2); [destruct (is_leap y); lia|].
  destruct ((m =? 4) || (m =? 6) || (m =? 9) || (m =? 11)); lia.
Qed.

(** The first and the last time value whose year has four digits:
    0000-01-01T00:00:00.000Z and 9999-12-31T23:59:59.999Z. *)
Definition year_0000 : Z := -62167219200000.
Definition year_9999_end : Z := 253402300799999.

(** What [toISOString] writes, [new Date] reads back. *)
Lemma Date_parse_toISOString (t : Z) :
  year_0000 <= t <= year_9999_end -> Date_parse (toISOString t) = Int t.
Proof.
  unfold year_0000, year_9999_end. intros Ht.
  unfold toISOString. cbv zeta.
  pose proof (civil_round_trip (t / msPerDay)) as K.
  destruct (civil_from_days (t / msPerDay)) as [[y m] d].
  destruct K as (Km & Kd & Kz).
  pose proof (days_in_month_le_31 y m) as L.
  assert (Hday : -719528 <= t / msPerDay <= 2932896)
    by (unfold msPerDay; Z.div_mod_to_equations; lia).
  assert (Hy : 0 <= y <= 9999).
  { split.
    - destruct (Z_lt_le_dec y 0) as [N|]; [|assumption].
      pose proof (days_from_civil_early y m d ltac:(lia) Km ltac:(lia)). lia.
    - destruct (Z_lt_le_dec 9999 y) as [N|]; [|assumption].
      pose proof (days_from_civil_late y m d ltac:(lia) Km ltac:(lia)). lia. }
  replace ((0 <=? y) && (y <=? 9999)) with true
    by (symmetry; apply andb_true_intro; split; apply Z.leb_le; lia).
  unfold Date_parse.
  rewrite read_ymd_written by lia.
  replace ((1 <=? m) && (m <=? 12) && (1 <=? d) && (d <=? days_in_month y m))
    with true
    by (symmetry; repeat (apply andb_true_intro; split); apply Z.leb_le; lia).
  rewrite read_time_written.
  - cbn [append]. rewrite Kz. f_equal.
    unfold msPerDay. Z.div_mod_to_equations. lia.
  - unfold msPerDay. Z.div_mod_to_equations. lia.
  - Z.div_mod_to_equations. lia.
  - Z.div_mod_to_equations. lia.
  - Z.div_mod_to_equations. lia.
Qed.

Lemma withdrawItem_date (now now' : Z) (wd : WithdrawalData.t) (w w' : World)
  (r : withdrawal) :
  withdrawItem now now' wd w = (Some r, w') ->
  Withdrawal.date r = toISOString now'.
Proof.
  intros E.
  destruct (find (has_id (WithdrawalData.itemId wd)) (items_of w))
    as [i|] eqn:H.
  - destruct (int_gt (parseInt (WithdrawalData.quantity wd))
                (int_of_nullable (Item.quantity i))) eqn:G.
    + rewrite (withdrawItem_reject now now' wd w i H G) in E. discriminate E.
    + destruct (withdrawItem_accept now now' wd w i H G) as (k & _ & _ & E').
      rewrite E' in E. injection E as <- _. reflexivity.
  - rewrite (withdrawItem_missing now now' wd w H) in E. discriminate E.
Qed.

(** X19. A withdrawal made at a time of the years 0000 to 9999 is logged
    with a date that reads back as exactly that time, to the millisecond.
    So the date filter selects the new entry of the log exactly when its
    two bounds are valid dates with the time of the withdrawal between
    them. *)
Theorem withdrawal_dated_when_made (tza now now' : Z)
  (wd : WithdrawalData.t) (w w' : World) (r : withdrawal)
  (startDate endDate : option string) :
  year_0000 <= now' <= year_9999_end ->
  withdrawItem now now' wd w = (Some r, w') ->
  Date_parse (Withdrawal.date r) = Int now'
  /\ exists r' : withdrawal,
       withdrawals_of w' = withdrawals_of w ++ [r']
       /\ Withdrawal.date r' = Withdrawal.date r
       /\ (In r' (fst (getWithdrawalsByDateRange tza startDate endDate w'))
           <-> exists a b,
                 startBound startDate = Int a
                 /\ endBound tza endDate = Int b
                 /\ a <= now' <= b).
Proof.
  intros Ht E.
  assert (D : Date_parse (Withdrawal.date r) = Int now').
  { rewrite (withdrawItem_date now now' wd w w' r E).
    apply Date_parse_toISOString, Ht. }
  split; [exact D|].
  exists (Withdrawal.parse (Withdrawal.stringify r)).
  pose proof (withdrawItem_log now now' wd w) as L. rewrite E in L.
  cbn [fst snd] in L.
  split; [exact L|]. split; [reflexivity|].
  unfold getWithdrawalsByDateRange, bind.
  change (getAllWithdrawals w') with (withdrawals_of w', w').
  cbn [fst ret]. rewrite filter_In, inDateRange_true, L.
  change (Withdrawal.date (Withdrawal.parse (Withdrawal.stringify r)))
    with (Withdrawal.date r).
  rewrite D. split.
  - intros [_ (t & a & b & T & A & B & R)]. injection T as <-.
    exists a, b. split; [exact A|]. split; [exact B|exact R].
  - intros (a & b & A & B & R). split.
    + apply in_or_app. right. left. reflexivity.
    + exists now', a, b. split; [reflexivity|].
      split; [exact A|]. split; [exact B|exact R].
Qed.

Lemma withdrawal_dated_when_made_witness :
  Date_parse (Withdrawal.date (recorded 2000 2001 (widget_request "3") widget))
  = Int 2001
  /\ exists r' : withdrawal,
       withdrawals_of (snd widget_withdraw3)
       = withdrawals_of widget_world ++ [r']
       /\ Withdrawal.date r'
          = Withdrawal.date (recorded 2000 2001 (widget_request "3") widget)
       /\ (In r' (fst (getWithdrawalsByDateRange 0 None None
                         (snd widget_withdraw3)))
           <-> exists a b,
                 startBound None = Int a
                 /\ endBound 0 None = Int b
                 /\ a <= 2001 <= b).
Proof.
  apply (withdrawal_dated_when_made 0 2000 2001 (widget_request "3")
           widget_world (snd widget_withdraw3)
           (recorded 2000 2001 (widget_request "3") widget) None None).
  - unfold year_0000, year_9999_end. lia.
  - vm_compute. reflexivity.
Defined.

(** ** The confirmation dialogs *)

Lemma confirmedDeleteItem_eq (itemId : string) (w : World) :
  run (confirmedDeleteItem itemId) w
  = if fst (deleteItem itemId w)
    then notified "Item deleted successfully." "success"
           (snd (deleteItem itemId w))
    else notified "Failed to delete item." "error" (snd (deleteItem itemId w)).
Proof.
  unfold run, confirmedDeleteItem, bind.
  destruct (deleteItem itemId w) as [[|] w1]; reflexivity.
Qed.

Lemma deleteItem_found (itemId : string) (w : World) (i : item) :
  find (has_id itemId) (items_of w) = Some i ->
  fst (deleteItem itemId w) = true.
Proof.
  intros F. rewrite deleteItem_eq. cbv zeta.
  destruct (_ =? _)%nat eqn:L; [|reflexivity].
  pose proof (proj1 (filter_keeps_all _ _) L) as K.
  destruct (find_In _ _ _ F) as [Hin Hid].
  specialize (K i Hin). cbv beta in K. rewrite Hid in K. discriminate K.
Qed.

(** X20. Deleting an item from the table: for an id that no item has, no
    dialog opens and nothing changes.  Otherwise the dialog names the
    item, and nothing changes until the user confirms; confirming
    removes the item, shows the success message and keeps the withdrawal
    log.  Were the confirmed action run once more, it would only show the
    failure message. *)
Theorem confirmDeleteItem_then_confirm (itemId : string) (w : World) :
  snd (confirmDeleteItem itemId w) = w
  /\ match fst (confirmDeleteItem itemId w) with
     | None =>
         fst (getItem itemId w) = None
         /\ run (handleConfirm None) w = w
     | Some dialog =>
         (exists i,
            fst (getItem itemId w) = Some i
            /\ confirmMessage dialog
               = ("Are you sure you want to delete "
                    ++ String dquote (Item.name i)
                    ++ String dquote "? This action cannot be undone.")%string)
         /\ let w' := run (handleConfirm (Some dialog)) w in
            fst (getItem itemId w') = None
            /\ items_of w'
               = filter (fun i => negb (has_id itemId i)) (items_of w)
            /\ withdrawals_of w' = withdrawals_of w
            /\ notificationContainer w'
               = notificationContainer w
                   ++ [{| message := "Item deleted successfully.";
                          type := "success" |}]
            /\ let w'' := run (confirmCallback dialog) w' in
               localStorage w'' = localStorage w'
               /\ notificationContainer w''
                  = notificationContainer w'
                      ++ [{| message := "Failed to delete item.";
                             type := "error" |}]
     end.
Proof.
  unfold confirmDeleteItem, bind. rewrite getItem_eq. cbn [fst snd].
  destruct (find (has_id itemId) (items_of w)) as [i|] eqn:F.
  - cbn [ret fst snd]. split; [reflexivity|].
    split; [exists i; split; reflexivity|].
    cbn [handleConfirm confirmCallback]. cbv zeta.
    rewrite confirmedDeleteItem_eq, (deleteItem_found itemId w i F).
    pose proof (deleteItem_items itemId w) as I.
    set (w1 := snd (deleteItem itemId w)) in *.
    assert (W : withdrawals_of w1 = withdrawals_of w
                /\ notificationContainer w1 = notificationContainer w).
    { subst w1. rewrite deleteItem_eq. cbv zeta.
      destruct (_ =? _)%nat; split; reflexivity. }
    destruct W as [W N].
    split.
    { rewrite getItem_eq. cbn [fst].
      change (items_of (notified _ _ w1)) with (items_of w1).
      rewrite I. apply find_filter_out. }
    split; [exact I|]. split; [exact W|].
    split.
    { change (notificationContainer (notified ?m ?t w1))
        with (notificationContainer w1 ++ [{| message := m; type := t |}]).
      now rewrite N. }
    rewrite confirmedDeleteItem_eq.
    set (w2 := notified "Item deleted successfully." "success" w1).
    assert (T2 : deleteItem itemId w2 = (false, w2)).
    { rewrite deleteItem_eq. change (items_of w2) with (items_of w1).
      cbv zeta. rewrite I.
      assert (K : forall x,
                In x (filter (fun i => negb (has_id itemId i)) (items_of w)) ->
                negb (has_id itemId x) = true).
      { intros x Hx. apply filter_In in Hx. tauto. }
      apply (proj2 (filter_keeps_all _ _)) in K. now rewrite K. }
    rewrite T2. cbn [fst snd]. split; reflexivity.
  - cbn [ret fst snd]. split; [reflexivity|]. split; reflexivity.
Qed.

Lemma confirmedDeleteCategory_eq (categoryName : string) (w : World) :
  run (confirmedDeleteCategory categoryName) w
  = if fst (deleteCategory categoryName w)
    then notified "Category deleted successfully." "success"
           (snd (deleteCategory categoryName w))
    else snd (deleteCategory categoryName w).
Proof.
  unfold run, confirmedDeleteCategory, bind.
  destruct (deleteCategory categoryName w) as [[|] w1]; reflexivity.
Qed.

(** X21. A category that only the items of one id use is blocked, and
    the confirmed deletion of the category shows the error and nothing
    else.  Once the deletion of those items is confirmed, the confirmed
    deletion of the category goes through: the category leaves the list,
    the success message is shown, and the items left are untouched. *)
Theorem category_freed_by_deleting_its_items (itemId categoryName : string)
  (w : World) :
  In categoryName (stored_registry w) ->
  in_use categoryName w ->
  (forall i, In i (items_of w) -> Item.category i = categoryName ->
             Item.id i = itemId) ->
  run (handleConfirm (Some (confirmDeleteCategory categoryName))) w
  = notified "Cannot delete category: It is being used by one or more items."
      "error" w
  /\ let w1 := run (confirmedDeleteItem itemId) w in
     let w2 :=
       run (handleConfirm (Some (confirmDeleteCategory categoryName))) w1 in
     ~ in_use categoryName w1
     /\ stored_registry w2
        = filter (fun cat => negb (String.eqb cat categoryName))
            (stored_registry w)
     /\ ~ In categoryName (stored_registry w2)
     /\ items_of w2 = items_of w1
     /\ notificationContainer w2
        = notificationContainer w1
            ++ [{| message := "Category deleted successfully.";
                   type := "success" |}].
Proof.
  intros Hin U Only.
  cbn [handleConfirm confirmDeleteCategory confirmCallback].
  split.
  { rewrite confirmedDeleteCategory_eq, deleteCategory_eq.
    rewrite (proj2 (in_use_existsb categoryName w) U). reflexivity. }
  cbv zeta. rewrite confirmedDeleteItem_eq.
  pose proof (deleteItem_items itemId w) as I.
  assert (W : stored_registry (snd (deleteItem itemId w)) = stored_registry w).
  { rewrite deleteItem_eq. cbv zeta.
    destruct (_ =? _)%nat; reflexivity. }
  set (w0 := snd (deleteItem itemId w)) in *.
  set (w1 := if fst (deleteItem itemId w)
             then notified "Item deleted successfully." "success" w0
             else notified "Failed to delete item." "error" w0).
  assert (I1 : items_of w1 = items_of w0)
    by (subst w1; destruct (fst _); reflexivity).
  assert (R1 : stored_registry w1 = stored_registry w0)
    by (subst w1; destruct (fst _); reflexivity).
  assert (N : ~ in_use categoryName w1).
  { intros (i & Hi & Hc). rewrite I1, I in Hi.
    apply filter_In in Hi as [Hi Hid].
    unfold has_id in Hid. rewrite (Only i Hi Hc) in Hid.
    rewrite String.eqb_refl in Hid. discriminate Hid. }
  split; [exact N|].
  rewrite confirmedDeleteCategory_eq, deleteCategory_eq.
  destruct (existsb (fun i => String.eqb (Item.category i) categoryName)
              (items_of w1)) eqn:E.
  { apply in_use_existsb in E. contradiction. }
  cbv zeta. rewrite R1, W.
  destruct (_ =? _)%nat eqn:L.
  { pose proof (proj1 (not_in_filter_out _ _)
                  (proj1 (filter_keeps_all _ _) L)). contradiction. }
  cbn [fst snd].
  assert (S2 : stored_registry
                 (notified "Category deleted successfully." "success"
                    (set_categories
                       (filter (fun cat => negb (String.eqb cat categoryName))
                          (stored_registry w)) w1))
               = filter (fun cat => negb (String.eqb cat categoryName))
                   (stored_registry w)) by reflexivity.
  rewrite S2.
  split; [reflexivity|].
  split.
  { intros H. apply filter_In in H as [_ H].
    rewrite String.eqb_refl in H. discriminate H. }
  split; reflexivity.
Qed.

Lemma category_freed_by_deleting_its_items_witness :
  run (handleConfirm (Some (confirmDeleteCategory "Tools"))) widget_world
  = notified "Cannot delete category: It is being used by one or more items."
      "error" widget_world
  /\ let w1 := run (confirmedDeleteItem "item_1000") widget_world in
     let w2 := run (handleConfirm (Some (confirmDeleteCategory "Tools"))) w1 in
     ~ in_use "Tools" w1
     /\ stored_registry w2
        = filter (fun cat => negb (String.eqb cat "Tools"))
            (stored_registry widget_world)
     /\ ~ In "Tools"%string (stored_registry w2)
     /\ items_of w2 = items_of w1
     /\ notificationContainer w2
        = notificationContainer w1
            ++ [{| message := "Category deleted successfully.";
                   type := "success" |}].
Proof.
  apply (category_freed_by_deleting_its_items "item_1000" "Tools" widget_world).
  - vm_compute. tauto.
  - exists widget. split; [vm_compute; tauto|reflexivity].
  - intros i Hi _. vm_compute in Hi. destruct Hi as [<-|[]]. reflexivity.
Defined.

(** ** Searching the inventory *)

Lemma startsWith_spec (s t : string) :
  startsWith s t = true <-> exists b, s = (t ++ b)%string.
Proof.
  revert s. induction t as [|c t IH]; intros s.
  - destruct s; (split; [intros _; eexists; reflexivity|reflexivity]).
  - destruct s as [|c' s']; cbn [startsWith append].
    + split; [discriminate|]. intros [b H]. discriminate H.
    + rewrite andb_true_iff, Ascii.eqb_eq, IH. split.
      * intros [-> [b ->]]. now exists b.
      * intros [b H]. injection H as -> ->. split; [reflexivity|now exists b].
Qed.

Lemma includes_spec (s t : string) :
  includes s t = true <-> exists a b, s = (a ++ t ++ b)%string.
Proof.
  induction s as [|c s IH].
  - cbn [includes]. rewrite orb_false_r, startsWith_spec. split.
    + intros [b H]. now exists EmptyString, b.
    + intros (a & b & H). destruct a as [|x a]; [now exists b|].
      discriminate H.
  - cbn [includes]. rewrite orb_true_iff, startsWith_spec, IH. split.
    + intros [[b H]|(a & b & H)].
      * now exists EmptyString, b.
      * exists (String c a), b. cbn [append]. now rewrite H.
    + intros (a & b & H). destruct a as [|x a].
      * left. now exists b.
      * right. injection H as _ H. now exists a, b.
Qed.

Lemma append_empty_r (s : string) : (s ++ EmptyString)%string = s.
Proof. induction s as [|c s IH]; cbn [append]; [reflexivity|]. now rewrite IH. Qed.

Lemma includes_empty (s : string) : includes s EmptyString = true.
Proof. destruct s; reflexivity. Qed.

(** One text is part of another, once both are put in lower case. *)
Definition part_of (t s : string) : Prop :=
  exists a b, toLowerCase s = (a ++ toLowerCase t ++ b)%string.

(** X22. The inventory table with a search text: when there are items,
    the rows are the items whose name or category, put in lower case,
    contains the text put in lower case, in the order of the storage.  So
    an empty search shows every item, the whole name or category of an
    item finds it however its letters are cased, and nothing is stored
    or notified. *)
Theorem search_finds_by_name_or_category (searchInventory : string)
  (w : World) :
  snd (renderInventoryTable searchInventory w) = w
  /\ match fst (renderInventoryTable searchInventory w) with
     | None => items_of w = []
     | Some rows =>
         items_of w <> []
         /\ (exists keep, rows = filter keep (items_of w))
         /\ (forall i,
               In i rows
               <-> In i (items_of w)
                   /\ (part_of searchInventory (Item.name i)
                       \/ part_of searchInventory (Item.category i)))
         /\ (searchInventory = EmptyString -> rows = items_of w)
         /\ (forall i,
               In i (items_of w) ->
               toLowerCase searchInventory = toLowerCase (Item.name i)
               \/ toLowerCase searchInventory
                  = toLowerCase (Item.category i) ->
               In i rows)
     end.
Proof.
  unfold renderInventoryTable, bind.
  change (getAllItems w) with (items_of w, w). cbv beta iota zeta.
  destruct (items_of w) as [|i0 l] eqn:E.
  { cbn [List.length Nat.eqb ret fst snd]. split; reflexivity. }
  rewrite <- E.
  replace (List.length (items_of w) =? 0)%nat with false
    by (rewrite E; reflexivity).
  cbn [ret fst snd]. split; [reflexivity|].
  assert (K : forall i,
            In i (filter
                    (fun item : item =>
                       includes (toLowerCase (Item.name item))
                         (toLowerCase searchInventory)
                       || includes (toLowerCase (Item.category item))
                            (toLowerCase searchInventory))
                    (items_of w))
            <-> In i (items_of w)
                /\ (part_of searchInventory (Item.name i)
                    \/ part_of searchInventory (Item.category i))).
  { intros i. rewrite filter_In, orb_true_iff, !includes_spec. reflexivity. }
  split; [rewrite E; discriminate|].
  split; [eexists; reflexivity|].
  split; [exact K|].
  split.
  - intros ->. apply filter_all. intros x _.
    cbn [toLowerCase]. now rewrite includes_empty.
  - intros i Hin H. apply K. split; [exact Hin|].
    destruct H as [H|H]; [left|right];
      exists EmptyString, EmptyString; rewrite <- H, append_empty_r;
      reflexivity.
Qed.

(** ** A quantity that is not a number *)

Lemma int_sub_INaN_r (a : intnum) : int_sub a INaN = INaN.
Proof. now destruct a. Qed.

(** X23. A withdrawal whose quantity does not read as a number is not
    refused: a record is returned and logged with no quantity and no
    total cost ([null] once stored), nothing is notified, and the stock
    figure of the item is erased ([null]).  From then on every withdrawal
    of a positive quantity of that item is refused, with the error that
    tells [null] as the available amount. *)
Theorem withdraw_not_a_number_erases_stock (now now' : Z)
  (wd : WithdrawalData.t) (w : World) (i : item) :
  fst (getItem (WithdrawalData.itemId wd) w) = Some i ->
  parseInt (WithdrawalData.quantity wd) = INaN ->
  exists (r r' : withdrawal) (w' : World),
    withdrawItem now now' wd w = (Some r, w')
    /\ Withdrawal.quantity r = Some INaN
    /\ notificationContainer w' = notificationContainer w
    /\ withdrawals_of w' = withdrawals_of w ++ [r']
    /\ Withdrawal.quantity r' = None
    /\ Withdrawal.totalCost r' = None
    /\ option_map Item.quantity (fst (getItem (WithdrawalData.itemId wd) w'))
       = Some None
    /\ forall (now2 now2' : Z) (wd2 : WithdrawalData.t) (q : Z),
         WithdrawalData.itemId wd2 = WithdrawalData.itemId wd ->
         parseInt (WithdrawalData.quantity wd2) = Int q ->
         0 < q ->
         withdrawItem now2 now2' wd2 w'
         = (None,
            notified "Insufficient stock. Available: null" "error" w').
Proof.
  intros H Hq. rewrite getItem_eq in H. cbn [fst] in H.
  destruct (withdrawItem_accept now now' wd w i H) as (index & Hi & Hn & E).
  { rewrite Hq. reflexivity. }
  destruct (find_In _ _ _ H) as [Hin Hid].
  set (w' := set_items
               (update_at index (fun old => merge old (decrement wd i))
                  (items_of w))
               (set_withdrawals (withdrawals_of w ++ [recorded now now' wd i])
                  w)) in *.
  assert (F : find (has_id (WithdrawalData.itemId wd)) (items_of w')
              = Some (Item.parse (Item.stringify (merge i (decrement wd i))))).
  { subst w'. rewrite items_of_set_items, map_map.
    erewrite find_update_at; [reflexivity|reflexivity|exact Hi|exact Hn
                             |exact Hid]. }
  assert (Q : Item.quantity
                (Item.parse (Item.stringify (merge i (decrement wd i))))
              = None).
  { change (Item.quantity
              (Item.parse (Item.stringify (merge i (decrement wd i)))))
      with (int_parse_json
              (json_of_int
                 (Some (parseInt
                          (value_of_int
                             (int_sub (int_of_nullable (Item.quantity i))
                                (parseInt (WithdrawalData.quantity wd)))))))).
    rewrite Hq, int_sub_INaN_r. reflexivity. }
  exists (recorded now now' wd i),
    (Withdrawal.parse (Withdrawal.stringify (recorded now now' wd i))), w'.
  split; [exact E|].
  split; [unfold recorded; cbn [Withdrawal.quantity]; now rewrite Hq|].
  split; [reflexivity|].
  split.
  { subst w'. rewrite withdrawals_of_set_items.
    apply (withdrawals_log_snoc []). }
  split.
  { unfold recorded, Withdrawal.parse, Withdrawal.stringify.
    cbn [Withdrawal.quantity]. now rewrite Hq. }
  split.
  { unfold recorded, Withdrawal.parse, Withdrawal.stringify.
    cbn [Withdrawal.totalCost]. now rewrite Hq. }
  split.
  { rewrite getItem_eq. cbn [fst]. rewrite F. cbn [option_map].
    now rewrite Q. }
  intros now2 now2' wd2 q Hid2 Hq2 Hpos.
  rewrite <- Hid2 in F.
  rewrite (withdrawItem_reject now2 now2' wd2 w' _ F).
  - now rewrite Q.
  - rewrite Hq2, Q. cbn [int_of_nullable int_gt]. apply Z.ltb_lt. exact Hpos.
Qed.

Lemma withdraw_not_a_number_erases_stock_witness :
  exists (r r' : withdrawal) (w' : World),
    withdrawItem 2000 2001 (widget_request "many") widget_world = (Some r, w')
    /\ Withdrawal.quantity r = Some INaN
    /\ notificationContainer w' = notificationContainer widget_world
    /\ withdrawals_of w' = withdrawals_of widget_world ++ [r']
    /\ Withdrawal.quantity r' = None
    /\ Withdrawal.totalCost r' = None
    /\ option_map Item.quantity
         (fst (getItem (WithdrawalData.itemId (widget_request "many")) w'))
       = Some None
    /\ forall (now2 now2' : Z) (wd2 : WithdrawalData.t) (q : Z),
         WithdrawalData.itemId wd2
         = WithdrawalData.itemId (widget_request "many") ->
         parseInt (WithdrawalData.quantity wd2) = Int q ->
         0 < q ->
         withdrawItem now2 now2' wd2 w'
         = (None,
            notified "Insufficient stock. Available: null" "error" w').
Proof.
  apply (withdraw_not_a_number_erases_stock 2000 2001 (widget_request "many")
           widget_world widget).
  - vm_compute. reflexivity.
  - vm_compute. reflexivity.
Defined.
